(** * The AI agent ecosystem builder: workflow, agents and main program

    A shallow embedding of [agents/base_agent.py], [agents/orchestrator_agent.py],
    [agents/coordinator_agent.py], [agents/validator_agent.py] and the entry
    point of [agents/deployment_agent.py], and the properties of the workflow
    controller proved on it; then of [agents/standards_agent.py],
    [agents/testing_agent.py], [agents/documentation_agent.py],
    [agents/ethics_agent.py], [agents/repository_agent.py] and of the
    conversation, the collection of the validation results and the
    deployment prompt of [main.py], with what the agents hand to one another.

    Conventions of the embedding.
    - Python values that travel through dictionaries are the JSON-like type
      [pyval]; a [dict] is an association list in insertion order.
    - A Python call either returns or raises: [Result].  An exception is
      represented by the text [str(e)], which is all the code ever reads.
    - A string is the text of the Python string in UTF-8, byte by byte.
      [strip] removes the white space of [str.strip()], ASCII or not.
      [lower] lowers what [str.lower()] lowers to ASCII: the letters A to Z,
      and the two characters outside ASCII whose lowering holds an ASCII
      letter; the program only ever searches lowered text for ASCII
      keywords.
    - Agents are stateful objects working on a shared, mutable context.  The
      context, the wall clock and everything else an agent can touch (its own
      fields, the file system, the language-model service) form the [World];
      an agent's [execute] is a function from worlds to a result and a world.
    - Processes, files and the language-model service are operations on the
      world, given as parameters; where an agent has fields of its own that a
      statement is about, they are the first component of the world's
      extension and the operations act on the rest ([Objects.outside]).
    - Logging and printing are not modelled. *)

From stdpp Require Import base strings gmap list pretty.
From Stdlib Require Import ZArith Ascii String Lia.

Set Warnings "-register-all".
Open Scope string_scope.
Open Scope list_scope.

(* ===================================================================== *)
(** * Python values, dictionaries and exceptions                          *)
(* ===================================================================== *)

Module Py.

Inductive pyval :=
| PNone
| PBool (b : bool)
| PInt (z : Z)
| PStr (s : string)
| PList (l : list pyval)
| PDict (d : list (string * pyval)).

Abbreviation dict := (list (string * pyval)).

(** The outcome of a call: a value, or an exception carrying [str(e)]. *)
Inductive Result (A : Type) :=
| Ok (a : A)
| Raise (e : string).
Arguments Ok {A} a.
Arguments Raise {A} e.

Definition rbind {A B} (c : Result A) (k : A → Result B) : Result B :=
  match c with
  | Ok a => k a
  | Raise e => Raise e
  end.

(** [k in d] and [d.get(k)] on a dictionary object. *)
Fixpoint dict_lookup (k : string) (d : dict) : option pyval :=
  match d with
  | [] => None
  | (k', v) :: d' => if String.eqb k k' then Some v else dict_lookup k d'
  end.

(** [bool(v)]. *)
Definition truthy (v : pyval) : bool :=
  match v with
  | PNone => false
  | PBool b => b
  | PInt z => negb (z =? 0)%Z
  | PStr s => negb (String.eqb s EmptyString)
  | PList l => match l with [] => false | _ => true end
  | PDict d => match d with [] => false | _ => true end
  end.

(** [v == s] for a string literal [s]. *)
Definition eq_str (v : pyval) (s : string) : bool :=
  match v with
  | PStr s' => String.eqb s' s
  | _ => false
  end.

(** [v == z] for an integer literal [z]; Python's [bool] is a subtype of
    [int], so [False == 0] and [True == 1]. *)
Definition eq_int (v : pyval) (z : Z) : bool :=
  match v with
  | PInt z' => (z' =? z)%Z
  | PBool b => ((if b then 1 else 0) =? z)%Z
  | _ => false
  end.

Definition type_name (v : pyval) : string :=
  match v with
  | PNone => "NoneType"
  | PBool _ => "bool"
  | PInt _ => "int"
  | PStr _ => "str"
  | PList _ => "list"
  | PDict _ => "dict"
  end.

Definition attribute_error (v : pyval) (attr : string) : string :=
  "'" +:+ type_name v +:+ "' object has no attribute '" +:+ attr +:+ "'".

(** [str(KeyError(k))] is [repr(k)]; the keys indexed in this code are
    literals without quotes or escapes. *)
Definition key_error (k : string) : string := "'" +:+ k +:+ "'".

(** [v.get(k, default)]: only dictionaries have the method ([str] and
    [list] do not). *)
Definition get (v : pyval) (k : string) (default : pyval) : Result pyval :=
  match v with
  | PDict d => Ok (from_option id default (dict_lookup k d))
  | _ => Raise (attribute_error v "get")
  end.

(** [v.items()]. *)
Definition items (v : pyval) : Result dict :=
  match v with
  | PDict d => Ok d
  | _ => Raise (attribute_error v "items")
  end.

(** [d[k]] on a dictionary. *)
Definition index (d : dict) (k : string) : Result pyval :=
  match dict_lookup k d with
  | Some v => Ok v
  | None => Raise (key_error k)
  end.

(** [str(v)], as an f-string applies it.  The text of a list or of a
    dictionary is the interpreter's [repr]; it is a parameter [repr] of the
    functions that format values. *)
Definition str (repr : pyval → string) (v : pyval) : string :=
  match v with
  | PNone => "None"
  | PBool true => "True"
  | PBool false => "False"
  | PInt z => pretty z
  | PStr s => s
  | PList _ | PDict _ => repr v
  end.

(** [c.lower()] for an ASCII character. *)
Definition lower_ascii (c : ascii) : ascii :=
  let n := nat_of_ascii c in
  if (65 <=? n)%nat && (n <=? 90)%nat then ascii_of_nat (n + 32) else c.

(** The bytes [c1 c2] are U+0130, the capital I with a dot above. *)
Definition is_dotted_capital_i (c1 c2 : ascii) : bool :=
  (nat_of_ascii c1 =? 196)%nat && (nat_of_ascii c2 =? 176)%nat.

(** The bytes [c1 c2 c3] are U+212A, the Kelvin sign. *)
Definition is_kelvin_sign (c1 c2 c3 : ascii) : bool :=
  (nat_of_ascii c1 =? 226)%nat && (nat_of_ascii c2 =? 132)%nat &&
  (nat_of_ascii c3 =? 170)%nat.

(** [s.lower()], as far as the ASCII characters of the result go.  The
    letters A to Z are lowered; U+212A becomes [k] and U+0130 becomes [i]
    followed by U+0307: of the characters outside ASCII these two alone
    have an ASCII character in their lowering.  Another character outside
    ASCII stays as it is, where [str.lower()] may give another character
    outside ASCII for it: the result has the same ASCII characters at the
    same places between the others, and so holds the same ASCII
    keywords. *)
Fixpoint lower (s : string) : string :=
  match s with
  | EmptyString => EmptyString
  | String c1 s1 =>
      match s1 with
      | EmptyString => String (lower_ascii c1) EmptyString
      | String c2 s2 =>
          if is_dotted_capital_i c1 c2 then
            String "i" (String "204" (String "135" (lower s2)))
          else
            match s2 with
            | EmptyString => String (lower_ascii c1) (lower s1)
            | String c3 s3 =>
                if is_kelvin_sign c1 c2 c3 then String "k" (lower s3)
                else String (lower_ascii c1) (lower s1)
            end
      end
  end.

(** [needle in hay] on strings. *)
Fixpoint contains (needle hay : string) : bool :=
  String.prefix needle hay ||
  match hay with
  | EmptyString => false
  | String _ hay' => contains needle hay'
  end.

Definition nl : string := String "010"%char EmptyString.

(** Two characters outside ASCII, in UTF-8: U+212A, the Kelvin sign, and
    U+00A0, the no-break space. *)
Definition kelvin_sign : string :=
  String "226"%char (String "132"%char (String "170"%char EmptyString)).

Definition no_break_space : string :=
  String "194"%char (String "160"%char EmptyString).

(** The text is ASCII: every character is below 128. *)
Fixpoint ascii_text (s : string) : bool :=
  match s with
  | EmptyString => true
  | String c s' => (nat_of_ascii c <? 128)%nat && ascii_text s'
  end.

Notation "'let?' x := c 'in' k" := (rbind c (λ x, k))
  (at level 10, x name, c at level 100, k at level 200).

End Py.

Import Py.

(* ===================================================================== *)
(** * Stateful calls that may raise                                       *)
(* ===================================================================== *)

Module Effects.

(** A call that reads and changes a state and returns or raises.  As in
    Python, the changes made before an exception is raised stay. *)
Definition SE (St A : Type) : Type := St → Result A * St.

Definition ret {St A} (a : A) : SE St A := λ m, (Ok a, m).

Definition bind {St A B} (c : SE St A) (k : A → SE St B) : SE St B :=
  λ m, match c m with
       | (Ok a, m') => k a m'
       | (Raise e, m') => (Raise e, m')
       end.

Definition raise {St A} (e : string) : SE St A := λ m, (Raise e, m).

(** A pure call that may raise, inside a stateful one. *)
Definition lift {St A} (c : Result A) : SE St A := λ m, (c, m).

(** [try: body  except Exception as e: handler(str(e))] *)
Definition try_except {St A} (body : SE St A) (handler : string → SE St A) : SE St A :=
  λ m, match body m with
       | (Ok a, m') => (Ok a, m')
       | (Raise e, m') => handler e m'
       end.

Declare Scope se_scope.
Delimit Scope se_scope with se.
Notation "x <- c ;; k" := (bind c (λ x, k))
  (at level 20, c at level 99, k at level 200) : se_scope.
Notation "c ;; k" := (bind c (λ _, k))
  (at level 100, k at level 200, right associativity) : se_scope.

End Effects.

Import Effects.
Open Scope se_scope.

(* ===================================================================== *)
(** * base_agent.py                                                       *)
(* ===================================================================== *)

Module BaseAgent.

(** The standard response of [create_response]. *)
Record Response := {
  success : bool;
  message : string;
  data : dict;
  resp_agent_id : string;
  timestamp : string;
}.

(** What a step can read and change. *)
Record World (S : Type) := {
  context : dict;      (* the context dictionary handed to [execute] *)
  now : string;        (* [datetime.now().isoformat()] *)
  ext : S;             (* agents' own fields and the outside world *)
}.
Arguments context {S} _.
Arguments now {S} _.
Arguments ext {S} _.

(** An agent object: its identity and its abstract method [execute]. *)
Record Agent (S : Type) := {
  agent_id : string;
  name : string;
  description : string;
  execute : World S → Result Response * World S;
}.
Arguments agent_id {S} _.
Arguments name {S} _.
Arguments description {S} _.
Arguments execute {S} _ _.

(** [create_response(success, message, data=None)]: [data or {}] is the
    dictionary itself, or a fresh empty one for [None] and for [{}]. *)
Definition create_response (self_id : string) (time : string)
    (success : bool) (message : string) (data : option dict) : Response :=
  {| success := success;
     message := message;
     data := from_option id [] data;
     resp_agent_id := self_id;
     timestamp := time |}.

(** The exception text of [call_llm] when the model service fails. *)
Definition llm_unavailable (model : string) : string :=
  "Model " +:+ model +:+ " unavailable. Please try again later.".

End BaseAgent.

Import BaseAgent.

(* ===================================================================== *)
(** * orchestrator_agent.py                                               *)
(* ===================================================================== *)

Module OrchestratorAgent.

Section Model.
Context {S : Type}.

(** The fields of an [OrchestratorAgent] instance. *)
Record Orchestrator := {
  agents : gmap string (Agent S);
  workflow_state : string;
  current_step : Z;
  workflow_steps : list pyval;
  paused : bool;
  pause_reason : option string;
}.

(** The orchestrator, the world its agents act on, and (for the statements
    only) the log of the registry keys whose agent was invoked. *)
Record Machine := {
  orch : Orchestrator;
  world : World S;
  calls : list string;
}.

(** [OrchestratorAgent()] *)
Definition init : Orchestrator :=
  {| agents := ∅;
     workflow_state := "initializing";
     current_step := 0;
     workflow_steps := [];
     paused := false;
     pause_reason := None |}.

Definition self_id : string := "orch_001".

(** ** Methods as state-and-exception computations *)

Definition M (A : Type) : Type := SE Machine A.

Definition read {A} (f : Orchestrator → A) : M A := λ m, (Ok (f (orch m)), m).

Definition update (f : Orchestrator → Orchestrator) : M unit :=
  λ m, (Ok tt, {| orch := f (orch m); world := world m; calls := calls m |}).

Definition set_agents (a : gmap string (Agent S)) (o : Orchestrator) :=
  {| agents := a;
     workflow_state := workflow_state o;
     current_step := current_step o;
     workflow_steps := workflow_steps o;
     paused := paused o;
     pause_reason := pause_reason o |}.

Definition set_workflow_state (s : string) (o : Orchestrator) :=
  {| agents := agents o;
     workflow_state := s;
     current_step := current_step o;
     workflow_steps := workflow_steps o;
     paused := paused o;
     pause_reason := pause_reason o |}.

Definition set_pause (p : bool) (r : option string) (o : Orchestrator) :=
  {| agents := agents o;
     workflow_state := workflow_state o;
     current_step := current_step o;
     workflow_steps := workflow_steps o;
     paused := p;
     pause_reason := r |}.

End Model.

Arguments Orchestrator : clear implicits.
Arguments Machine : clear implicits.
Arguments M : clear implicits.

Section Methods.
Context {S : Type}.
Local Abbreviation M := (M S).

(** [self.create_response(...)], stamped with the current time. *)
Definition create_response (success : bool) (message : string)
    (data : option dict) : M Response :=
  λ m, (Ok (BaseAgent.create_response self_id (now (world m)) success message data), m).

(** [context.get(k)] on the context handed to [execute]. *)
Definition context_get (k : string) : M (option pyval) :=
  λ m, (Ok (dict_lookup k (context (world m))), m).

(** [agent.execute(context)] for the agent registered under [key]. *)
Definition invoke (key : string) (agent : Agent S) : M Response :=
  λ m, let (r, w) := BaseAgent.execute agent (world m) in
       (r, {| orch := orch m; world := w; calls := (calls m ++ [key])%list |}).

(** [self.agents[key]] *)
Definition agents_index (key : string) : M (Agent S) :=
  ags <- read agents ;;
  match ags !! key with
  | Some a => ret a
  | None => raise (key_error key)
  end.

(** [key in self.agents] *)
Definition registered (key : string) : M bool :=
  ags <- read agents ;;
  ret (match ags !! key with Some _ => true | None => false end).

Definition register_agent (agent : Agent S) : M unit :=
  update (λ o, set_agents (<[agent_id agent := agent]> (agents o)) o).

Definition _execute_environment_setup : M Response :=
  present <- registered "env_agent" ;;
  if negb present then
    create_response false "Environment agent not registered" None
  else
    env_agent <- agents_index "env_001" ;;
    result <- invoke "env_001" env_agent ;;
    if success result then
      update (set_workflow_state "definition") ;;
      create_response true
        "⚙️ Environment setup completed. Moving to definition phase."
        (Some [("next_phase", PStr "definition")])
    else ret result.

(** [result.get("data", {}).get("project_defined", False)], as a condition. *)
Definition project_defined (result : Response) : bool :=
  truthy (from_option id (PBool false) (dict_lookup "project_defined" (data result))).

Definition _execute_definition_phase : M Response :=
  present <- registered "coord_001" ;;
  if negb present then
    create_response false "Coordinator agent not registered" None
  else
    coordinator <- agents_index "coord_001" ;;
    result <- invoke "coord_001" coordinator ;;
    if success result && project_defined result then
      update (set_workflow_state "development") ;;
      create_response true
        "🧭 Project definition completed. Starting development phase."
        (Some [("next_phase", PStr "development")])
    else ret result.

(** The development workflow: (registry key, display name, description). *)
Definition dev_steps : list (string * string * string) :=
  [ ("arch_001", "Architect Agent", "Designing system architecture");
    ("core_001", "Core Logic Agent", "Writing Python code");
    ("backup_001", "Backup Agent", "Creating backups");
    ("standards_001", "Standards Agent", "Enforcing coding standards");
    ("test_001", "Testing Agent", "Running tests and validation");
    ("doc_001", "Documentation Agent", "Updating documentation");
    ("ethics_001", "Ethics Agent", "Security and ethics review");
    ("valid_001", "Validator Agent", "Final validation") ].

Definition step_failed_message (agent_name : string) (result : Response) : string :=
  "Development step failed: " +:+ agent_name +:+ " - " +:+ message result.

(** The [for] loop over the steps: [Some r] when its body returned [r],
    [None] when the loop ran to its end. *)
Fixpoint dev_loop (steps : list (string * string * string)) : M (option Response) :=
  match steps with
  | [] => ret None
  | (agent_id, agent_name, _) :: rest =>
      present <- registered agent_id ;;
      if negb present then dev_loop rest
      else
        agent <- agents_index agent_id ;;
        result <- invoke agent_id agent ;;
        if negb (success result) then
          r <- create_response false (step_failed_message agent_name result) None ;;
          ret (Some r)
        else dev_loop rest
  end.

Definition _execute_development_phase : M Response :=
  returned <- dev_loop dev_steps ;;
  match returned with
  | Some r => ret r
  | None =>
      update (set_workflow_state "delivery") ;;
      create_response true
        "🧠 Development phase completed. Moving to delivery phase."
        (Some [("next_phase", PStr "delivery")])
  end.

Definition _execute_delivery_phase : M Response :=
  present <- registered "repo_001" ;;
  if negb present then
    create_response false "Repository agent not registered" None
  else
    repo_agent <- agents_index "repo_001" ;;
    result <- invoke "repo_001" repo_agent ;;
    if success result then
      update (set_workflow_state "completed") ;;
      create_response true
        "🚀 Project delivery completed successfully!"
        (Some [("project_completed", PBool true)])
    else ret result.

Definition pause_workflow (reason : string) : M unit :=
  update (set_pause true (Some reason)).

Definition resume_workflow : M unit :=
  update (set_pause false None).

(** [self.pause_reason] as a value, and as an f-string prints it. *)
Definition reason_value (r : option string) : pyval :=
  match r with Some s => PStr s | None => PNone end.

Definition reason_text (r : option string) : string :=
  match r with Some s => s | None => "None" end.

Definition paused_message (r : option string) : string :=
  "⏸️ Workflow paused: " +:+ reason_text r +:+ ". Type 'Try again' to resume.".

Definition _handle_pause_resume : M Response :=
  user_input <- context_get "user_input" ;;
  if eq_str (from_option id PNone user_input) "Try again" then
    resume_workflow ;;
    create_response true "Workflow resumed. Continuing from last step."
      (Some [("resumed", PBool true)])
  else
    reason <- read pause_reason ;;
    create_response false (paused_message reason)
      (Some [("paused", PBool true); ("reason", reason_value reason)]).

Definition execute_body : M Response :=
  is_paused <- read paused ;;
  if is_paused then _handle_pause_resume
  else
    state <- read workflow_state ;;
    if String.eqb state "initializing" then _execute_environment_setup
    else if String.eqb state "definition" then _execute_definition_phase
    else if String.eqb state "development" then _execute_development_phase
    else if String.eqb state "delivery" then _execute_delivery_phase
    else create_response false ("Unknown workflow state: " +:+ state) None.

(** [OrchestratorAgent.execute(context)], the context being [context (world m)]. *)
Definition execute : M Response :=
  try_except execute_body
    (λ e, create_response false ("Workflow execution failed: " +:+ e) None).

Definition handle_model_unavailable (model : string) : M Response :=
  pause_workflow ("Model " +:+ model +:+ " unavailable") ;;
  create_response false
    ("⏸️ Model " +:+ model +:+ " is unavailable." +:+ nl +:+
     "No fallback will be used to maintain cost control." +:+ nl +:+
     "Type 'Try again' once you want to resume.")
    (Some [("model_unavailable", PBool true); ("model", PStr model)]).

End Methods.

End OrchestratorAgent.

(* ===================================================================== *)
(** * coordinator_agent.py                                                *)
(* ===================================================================== *)

Module CoordinatorAgent.

Section Model.
Context {S : Type}.

(** The coordinator's own state and its language-model exchange are part
    of the world: appending to [self.conversation_history], and
    [_analyze_and_respond(user_input, context)]. *)
Record Ops := {
  history_append : string → pyval → SE (World S) unit;
  _analyze_and_respond : pyval → SE (World S) string;
}.

Definition self_id : string := "coord_001".

Section Methods.
Variable ops : Ops.

Definition create_response (success : bool) (message : string)
    (data : option dict) : SE (World S) Response :=
  λ w, (Ok (BaseAgent.create_response self_id (now w) success message data), w).

(** The text of [_start_conversation], line by line. *)
Definition welcome_message : string :=
  "🧭 Product Coordinator: Hello! I'm here to help you define your Python project." +:+ nl +:+
  nl +:+
  "Let's start by understanding what you want to build:" +:+ nl +:+
  nl +:+
  "1. What type of Python application do you need?" +:+ nl +:+
  "2. What are the main features and functionality?" +:+ nl +:+
  "3. Any specific requirements or constraints?" +:+ nl +:+
  "4. What's the target audience or use case?" +:+ nl +:+
  nl +:+
  "Please describe your project in detail, and I'll help clarify the scope and suggest improvements.".

Definition _start_conversation : SE (World S) Response :=
  create_response true welcome_message (Some [("conversation_started", PBool true)]).

Definition execute : SE (World S) Response :=
  try_except
    (λ w,
      (let user_input :=
         from_option id (PStr EmptyString) (dict_lookup "user_input" (context w)) in
       if negb (truthy user_input) then _start_conversation
       else
         history_append ops "user" user_input ;;
         response <- _analyze_and_respond ops user_input ;;
         history_append ops "assistant" (PStr response) ;;
         create_response true response
           (Some [("conversation_updated", PBool true)])) w)
    (λ e, create_response false ("Coordinator failed: " +:+ e) None).

(** The coordinator as the agent object that is registered. *)
Definition agent : Agent S :=
  {| agent_id := self_id;
     name := "Product Coordinator";
     description := "Converses with human, defines scope, and clarifies goals";
     BaseAgent.execute := execute |}.

End Methods.
End Model.

Arguments Ops : clear implicits.

End CoordinatorAgent.

(* ===================================================================== *)
(** * validator_agent.py                                                  *)
(* ===================================================================== *)

Module ValidatorAgent.

(** The dictionary a [_validate_*] method returns; the one for an unknown
    criterion has no ["recommendations"] key. *)
Record CriterionResult := {
  passed : bool;
  issues : list string;
  recommendations : option (list string);
}.

(** The dictionary [_perform_final_validation] builds. *)
Record Validation := {
  approved : bool;
  criteria : list (string * CriterionResult);
  v_issues : list string;
  v_recommendations : list string;
}.

Definition validation_criteria : list string :=
  ["code_quality"; "documentation"; "testing"; "security"; "ethics"; "functionality"].

Definition critical_keywords : list string :=
  ["syntax error"; "compilation failed"; "cannot run";
   "broken"; "corrupted"; "security vulnerability"].

(** [any(keyword in issue.lower() for keyword in [...])] *)
Definition is_critical (issue : string) : bool :=
  existsb (λ keyword, contains keyword (lower issue)) critical_keywords.

Definition len_is_zero {A} (l : list A) : bool :=
  match l with [] => true | _ => false end.

Section Model.
(** The interpreter's [repr], for the values an f-string may meet. *)
Variable repr : pyval → string.

Fixpoint code_quality_loop (its : dict) (issues : list string) : Result (list string) :=
  match its with
  | [] => Ok issues
  | (tool, result) :: rest =>
      let? status := get result "status" PNone in
      if negb (eq_str status "clean") then
        let? msg := get result "message" (PStr "Issues found") in
        code_quality_loop rest (issues ++ [tool +:+ ": " +:+ str repr msg])%list
      else code_quality_loop rest issues
  end.

Definition _validate_code_quality (validation_results : pyval) : Result CriterionResult :=
  let? standards_results := get validation_results "standards_results" (PDict []) in
  if negb (truthy standards_results) then
    Ok {| passed := true; issues := [];
          recommendations := Some ["Consider running code quality tools"] |}
  else
    let? its := items standards_results in
    let? issues := code_quality_loop its [] in
    Ok {| passed := len_is_zero issues;
          issues := issues;
          recommendations :=
            Some (if len_is_zero issues then []
                  else ["Run code quality tools and fix issues"]) |}.

Definition _validate_documentation (validation_results : pyval) : Result CriterionResult :=
  let? doc_results := get validation_results "documentation_results" (PDict []) in
  if negb (truthy doc_results) then
    Ok {| passed := true; issues := [];
          recommendations := Some ["Consider adding more documentation"] |}
  else
    let? readme := get doc_results "readme_created" (PBool false) in
    let issues := if negb (truthy readme) then ["README.md not created"] else [] in
    let? api := get doc_results "api_docs_created" (PBool false) in
    let issues :=
      if negb (truthy api) then (issues ++ ["API documentation not created"])%list
      else issues in
    Ok {| passed := len_is_zero issues;
          issues := issues;
          recommendations :=
            Some (if len_is_zero issues then []
                  else ["Create comprehensive documentation"]) |}.

Definition _validate_testing (validation_results : pyval) : Result CriterionResult :=
  let? test_results := get validation_results "test_results" (PDict []) in
  if negb (truthy test_results) then
    Ok {| passed := true; issues := [];
          recommendations := Some ["Consider adding more comprehensive tests"] |}
  else
    let? syntax_valid := get test_results "syntax_valid" (PBool false) in
    let issues := if negb (truthy syntax_valid) then ["Syntax validation failed"] else [] in
    let? unit_tests := get test_results "unit_tests" (PDict []) in
    let? return_code := get unit_tests "return_code" PNone in
    let issues :=
      if negb (eq_int return_code 0) then (issues ++ ["Unit tests failed"])%list
      else issues in
    Ok {| passed := len_is_zero issues;
          issues := issues;
          recommendations :=
            Some (if len_is_zero issues then [] else ["Fix failing tests"]) |}.

(** The loop shared in shape by the security and the ethics check:
    [if not result.get("overall_safe", False): issues.append(prefix + path)]. *)
Fixpoint overall_safe_loop (prefix : string) (its : dict) (issues : list string)
    : Result (list string) :=
  match its with
  | [] => Ok issues
  | (file_path, result) :: rest =>
      let? safe := get result "overall_safe" (PBool false) in
      if negb (truthy safe) then
        overall_safe_loop prefix rest (issues ++ [prefix +:+ file_path])%list
      else overall_safe_loop prefix rest issues
  end.

Definition _validate_security (validation_results : pyval) : Result CriterionResult :=
  let? security_results := get validation_results "security_results" (PDict []) in
  if negb (truthy security_results) then
    Ok {| passed := true; issues := [];
          recommendations := Some ["Consider adding security scanning"] |}
  else
    let? its := items security_results in
    let? issues := overall_safe_loop "Security issues in " its [] in
    Ok {| passed := len_is_zero issues;
          issues := issues;
          recommendations :=
            Some (if len_is_zero issues then [] else ["Address security issues"]) |}.

Definition _validate_ethics (validation_results : pyval) : Result CriterionResult :=
  let? ethics_results := get validation_results "ethics_results" (PDict []) in
  if negb (truthy ethics_results) then
    Ok {| passed := true; issues := [];
          recommendations := Some ["Consider adding ethics review"] |}
  else
    let? its := items ethics_results in
    let? issues := overall_safe_loop "Ethical issues in " its [] in
    Ok {| passed := len_is_zero issues;
          issues := issues;
          recommendations :=
            Some (if len_is_zero issues then [] else ["Address ethical issues"]) |}.

Definition _validate_functionality (validation_results : pyval) : Result CriterionResult :=
  Ok {| passed := true; issues := []; recommendations := Some [] |}.

Definition _validate_criterion (criterion : string) (validation_results : pyval)
    : Result CriterionResult :=
  if String.eqb criterion "code_quality" then _validate_code_quality validation_results
  else if String.eqb criterion "documentation" then _validate_documentation validation_results
  else if String.eqb criterion "testing" then _validate_testing validation_results
  else if String.eqb criterion "security" then _validate_security validation_results
  else if String.eqb criterion "ethics" then _validate_ethics validation_results
  else if String.eqb criterion "functionality" then _validate_functionality validation_results
  else Ok {| passed := false;
             issues := ["Unknown criterion: " +:+ criterion];
             recommendations := None |}.

(** [d[k] = v] on a dictionary in insertion order. *)
Fixpoint dict_set {A} (k : string) (v : A) (d : list (string * A)) : list (string * A) :=
  match d with
  | [] => [(k, v)]
  | (k', v') :: d' => if String.eqb k k' then (k, v) :: d' else (k', v') :: dict_set k v d'
  end.

(** The body of the loop of [_perform_final_validation], once
    [_validate_criterion] has returned [result]. *)
Definition record_criterion (criterion : string) (result : CriterionResult)
    (validation : Validation) : Validation :=
  let validation :=
    {| approved := approved validation;
       criteria := dict_set criterion result (criteria validation);
       v_issues := v_issues validation;
       v_recommendations := v_recommendations validation |} in
  if negb (passed result) && negb (len_is_zero (issues result)) then
    let critical_issues := List.filter is_critical (issues result) in
    if negb (len_is_zero critical_issues) then
      {| approved := false;
         criteria := criteria validation;
         v_issues := (v_issues validation ++ critical_issues)%list;
         v_recommendations :=
           (v_recommendations validation ++
            from_option id [] (recommendations result))%list |}
    else
      {| approved := approved validation;
         criteria := criteria validation;
         v_issues := v_issues validation;
         v_recommendations :=
           (v_recommendations validation ++
            from_option id [] (recommendations result))%list |}
  else validation.

Fixpoint validation_loop (cs : list string) (validation_results : pyval)
    (validation : Validation) : Result Validation :=
  match cs with
  | [] => Ok validation
  | criterion :: rest =>
      let? result := _validate_criterion criterion validation_results in
      validation_loop rest validation_results (record_criterion criterion result validation)
  end.

Definition _perform_final_validation (validation_results : pyval) : Result Validation :=
  validation_loop validation_criteria validation_results
    {| approved := true; criteria := []; v_issues := []; v_recommendations := [] |}.

(** The dictionaries as values, for the response's data. *)
Definition strings_value (l : list string) : pyval := PList (map PStr l).

Definition criterion_value (r : CriterionResult) : pyval :=
  PDict ([("passed", PBool (passed r)); ("issues", strings_value (issues r))] ++
         match recommendations r with
         | Some l => [("recommendations", strings_value l)]
         | None => []
         end)%list.

Definition validation_value (v : Validation) : pyval :=
  PDict [("approved", PBool (approved v));
         ("criteria", PDict (map (λ kr, (kr.1, criterion_value kr.2)) (criteria v)));
         ("issues", strings_value (v_issues v));
         ("recommendations", strings_value (v_recommendations v))].

Definition self_id : string := "valid_001".

(** [ValidatorAgent.execute(context)] at time [time]. *)
Definition execute (time : string) (context : dict) : Response :=
  let body :=
    let validation_results :=
      from_option id (PDict []) (dict_lookup "validation_results" context) in
    let? final_validation := _perform_final_validation validation_results in
    let approved := approved final_validation in
    Ok (BaseAgent.create_response self_id time approved
          (if approved then "SUCCESS: Project approved for delivery"
           else "ERROR: Project requires additional work")
          (Some [("validation_results", validation_value final_validation)])) in
  match body with
  | Ok r => r
  | Raise e =>
      BaseAgent.create_response self_id time false ("Final validation failed: " +:+ e) None
  end.

End Model.

End ValidatorAgent.

(* ===================================================================== *)
(** * deployment_agent.py                                                 *)
(* ===================================================================== *)

Module DeploymentAgent.

Section Model.
Context {S : Type}.

(** The three packaging methods (file and process plumbing): each returns
    a result dictionary. *)
Record Ops := {
  _deploy_to_github : SE (World S) dict;
  _deploy_as_executable : SE (World S) dict;
  _deploy_source_only : SE (World S) dict;
}.

Variable ops : Ops.
Variable self_id : string.       (* [agent_id], ["deploy_001"] by default *)
Variable repr : pyval → string.

Definition deployment_options : list string := ["github"; "executable"; "source_only"].

Definition create_response (success : bool) (message : string)
    (data : option dict) : SE (World S) Response :=
  λ w, (Ok (BaseAgent.create_response self_id (now w) success message data), w).

(** [context.get("deployment_choice", "source_only")] *)
Definition deployment_choice (context : dict) : pyval :=
  from_option id (PStr "source_only") (dict_lookup "deployment_choice" context).

(** What follows the choice of a method, given its result. *)
Definition conclude (result : dict) : SE (World S) Response :=
  ok <- lift (index result "success") ;;
  if truthy ok then
    create_response true "SUCCESS: Deployment completed" (Some result)
  else
    msg <- lift (index result "message") ;;
    create_response false ("Deployment failed: " +:+ str repr msg) None.

Definition execute : SE (World S) Response :=
  try_except
    (λ w,
      (let choice := deployment_choice (context w) in
       if eq_str choice "github" then
         result <- _deploy_to_github ops ;; conclude result
       else if eq_str choice "executable" then
         result <- _deploy_as_executable ops ;; conclude result
       else if eq_str choice "source_only" then
         result <- _deploy_source_only ops ;; conclude result
       else create_response false "Invalid deployment option" None) w)
    (λ e, create_response false ("Deployment failed: " +:+ e) None).

End Model.

Arguments Ops : clear implicits.

End DeploymentAgent.

(* ===================================================================== *)
(** * Vocabulary of the statements                                        *)
(* ===================================================================== *)

Module Workflow.

Import OrchestratorAgent.

Section Vocabulary.
Context {S : Type}.

Definition step_key (step : string * string * string) : string := step.1.1.
Definition step_name (step : string * string * string) : string := step.1.2.

(** [all_succeed ags steps w w' ks]: invoked in order from world [w], with
    the unregistered ones passed over, every step of [steps] returns
    [success = True]; [ks] are the keys invoked and [w'] the world left. *)
Inductive all_succeed (ags : gmap string (Agent S))
    : list (string * string * string) → World S → World S → list string → Prop :=
| succeed_nil w :
    all_succeed ags [] w w []
| succeed_absent step rest w w' ks :
    ags !! step_key step = None →
    all_succeed ags rest w w' ks →
    all_succeed ags (step :: rest) w w' ks
| succeed_step step rest agent result w w1 w' ks :
    ags !! step_key step = Some agent →
    BaseAgent.execute agent w = (Ok result, w1) →
    success result = true →
    all_succeed ags rest w1 w' ks →
    all_succeed ags (step :: rest) w w' (step_key step :: ks).

(** The keys of [steps] that have an agent, in order. *)
Definition registered_keys (ags : gmap string (Agent S))
    (steps : list (string * string * string)) : list string :=
  List.filter (λ k, match ags !! k with Some _ => true | None => false end)
              (map step_key steps).

(** The fixed order of the phases, by the values of [workflow_state]. *)
Definition phases : list string :=
  ["initializing"; "definition"; "development"; "delivery"; "completed"].

Definition next_phase (state : string) : option string :=
  if String.eqb state "initializing" then Some "definition"
  else if String.eqb state "definition" then Some "development"
  else if String.eqb state "development" then Some "delivery"
  else if String.eqb state "delivery" then Some "completed"
  else None.

(** The place of a state in that order. *)
Definition phase_rank (state : string) : option nat :=
  if String.eqb state "initializing" then Some 0
  else if String.eqb state "definition" then Some 1
  else if String.eqb state "development" then Some 2
  else if String.eqb state "delivery" then Some 3
  else if String.eqb state "completed" then Some 4
  else None.

(** The machine [m] after the agents under the keys [ks] were invoked,
    leaving the world [w]. *)
Definition logged (m : Machine S) (w : World S) (ks : list string) : Machine S :=
  {| orch := orch m; world := w; calls := calls m ++ ks |}.

(** What a caller can do with an orchestrator between and around the calls
    of [execute]: hand over any context in any world, register agents,
    pause, resume, report a model as unavailable. *)
Inductive reachable : Machine S → Prop :=
| reach_init w :
    reachable {| orch := init; world := w; calls := [] |}
| reach_world m w :
    reachable m →
    reachable {| orch := orch m; world := w; calls := calls m |}
| reach_execute m :
    reachable m → reachable (OrchestratorAgent.execute m).2
| reach_register m agent :
    reachable m → reachable (register_agent agent m).2
| reach_pause m reason :
    reachable m → reachable (pause_workflow reason m).2
| reach_resume m :
    reachable m → reachable (resume_workflow m).2
| reach_unavailable m model :
    reachable m → reachable (handle_model_unavailable model m).2.

(** The answer of an agent is a failure: it has [success = False], or the
    agent raised. *)
Definition failed (answer : Result Response) : Prop :=
  match answer with
  | Ok result => success result = false
  | Raise _ => True
  end.

(** [reaches m key w ks]: a call of [execute] on the running machine [m]
    comes, after it has invoked the agents under the keys [ks], to the
    agent under [key], in the world [w]: the one agent of the setup, of
    the definition or of the delivery phase, or a development step all of
    whose predecessors succeeded. *)
Inductive reaches (m : Machine S) : string → World S → list string → Prop :=
| reaches_setup :
    workflow_state (orch m) = "initializing" →
    is_Some (agents (orch m) !! "env_agent") →
    reaches m "env_001" (world m) []
| reaches_definition :
    workflow_state (orch m) = "definition" →
    reaches m "coord_001" (world m) []
| reaches_development pre step post w ks :
    workflow_state (orch m) = "development" →
    dev_steps = pre ++ step :: post →
    all_succeed (agents (orch m)) pre (world m) w ks →
    reaches m (step_key step) w ks
| reaches_delivery :
    workflow_state (orch m) = "delivery" →
    reaches m "repo_001" (world m) [].

End Vocabulary.

End Workflow.

(** Concrete agents and machines on which the statements are exercised. *)
Module Examples.

Definition succeeding (id : string) : Agent unit :=
  {| agent_id := id; name := id; description := EmptyString;
     execute := λ w, (Ok (BaseAgent.create_response id (now w) true "done" None), w) |}.

Definition failing (id msg : string) : Agent unit :=
  {| agent_id := id; name := id; description := EmptyString;
     execute := λ w, (Ok (BaseAgent.create_response id (now w) false msg None), w) |}.

(** A step that succeeds with the given data payload. *)
Definition answering (id : string) (payload : dict) : Agent unit :=
  {| agent_id := id; name := id; description := EmptyString;
     execute := λ w, (Ok (BaseAgent.create_response id (now w) true "done" (Some payload)), w) |}.

Definition world0 (ctx : dict) : World unit := {| context := ctx; now := "t"; ext := tt |}.

Import OrchestratorAgent.

(** A new orchestrator, facing the context [ctx]. *)
Definition fresh (ctx : dict) : Machine unit :=
  {| orch := init; world := world0 ctx; calls := [] |}.

(** [register_agent] on each agent of [l], in order. *)
Definition registering (l : list (Agent unit)) (m : Machine unit) : Machine unit :=
  fold_left (λ m a, (register_agent a m).2) l m.

(** The machine put into a given state of the workflow. *)
Definition in_state (state : string) (m : Machine unit) : Machine unit :=
  {| orch := set_workflow_state state (orch m); world := world m; calls := calls m |}.

(** Architect succeeds, code generation fails, the testing agent is there
    too; the other development agents are not registered. *)
Definition failing_development : Machine unit :=
  in_state "development"
    (registering [succeeding "arch_001"; failing "core_001" "boom"; succeeding "test_001"]
       (fresh [])).

(** Only the architect is registered. *)
Definition architect_only : Machine unit :=
  in_state "development" (registering [succeeding "arch_001"] (fresh [])).

(** The architect reports the language model as unavailable, in the words
    of [call_llm]. *)
Definition model_down : Machine unit :=
  in_state "development"
    (registering [failing "arch_001" (llm_unavailable "gpt-4o-mini")] (fresh [])).

(** A paused orchestrator and an input. *)
Definition paused_with (input : string) : Machine unit :=
  (pause_workflow "Model gpt-4o-mini unavailable"
     (in_state "development" (fresh [("user_input", PStr input)]))).2.

(** The definition phase with a coordinator that answers [payload]. *)
Definition defining (payload : dict) : Machine unit :=
  in_state "definition" (registering [answering "coord_001" payload] (fresh [])).

(** Every agent the four phases look up, all succeeding; the coordinator
    confirms the project definition. *)
Definition all_registered : Machine unit :=
  registering [succeeding "env_agent"; succeeding "env_001";
               answering "coord_001" [("project_defined", PBool true)];
               succeeding "arch_001"; succeeding "core_001"; succeeding "backup_001";
               succeeding "standards_001"; succeeding "test_001"; succeeding "doc_001";
               succeeding "ethics_001"; succeeding "valid_001"; succeeding "repo_001"]
    (fresh []).

(** [n] calls of [execute] in a row. *)
Fixpoint executed (n : nat) (m : Machine unit) : Machine unit :=
  match n with
  | O => m
  | Datatypes.S n' => (OrchestratorAgent.execute (executed n' m)).2
  end.

End Examples.

(** Vocabulary of the statements on the final validation. *)
Module Validation.

Import ValidatorAgent.

(** A criterion result withholds the approval when it lists a critical issue. *)
Definition blocks (result : CriterionResult) : Prop :=
  ∃ issue, issue ∈ issues result ∧ is_critical issue = true.

(** The keys of [validation_results] the checks read. *)
Definition result_keys : list string :=
  ["standards_results"; "documentation_results"; "test_results";
   "security_results"; "ethics_results"].

(** No data recorded for any criterion: [validation_results] is a
    dictionary in which each of those keys is absent or holds an empty
    value. *)
Definition no_data (validation_results : pyval) : bool :=
  match validation_results with
  | PDict d =>
      forallb (λ key, negb (truthy (from_option id (PDict []) (dict_lookup key d))))
              result_keys
  | _ => false
  end.

Definition advised (advice : string) : CriterionResult :=
  {| passed := true; issues := []; recommendations := Some [advice] |}.

(** What the final validation builds when there is no data. *)
Definition permissive_default : Validation :=
  {| approved := true;
     criteria :=
       [("code_quality", advised "Consider running code quality tools");
        ("documentation", advised "Consider adding more documentation");
        ("testing", advised "Consider adding more comprehensive tests");
        ("security", advised "Consider adding security scanning");
        ("ethics", advised "Consider adding ethics review");
        ("functionality", {| passed := true; issues := []; recommendations := Some [] |})];
     v_issues := [];
     v_recommendations := [] |}.

(** The shape the checks expect of [validation_results]: a dictionary
    whose sections, where they hold anything, are dictionaries (of
    dictionaries, for the sections that are iterated). *)
Definition is_dict (v : pyval) : bool :=
  match v with PDict _ => true | _ => false end.

Definition dict_of_dicts (v : pyval) : bool :=
  match v with
  | PDict d => forallb (λ kv, is_dict kv.2) d
  | _ => false
  end.

Definition empty_or (shape : pyval → bool) (d : dict) (key : string) : bool :=
  let v := from_option id (PDict []) (dict_lookup key d) in
  negb (truthy v) || shape v.

Definition test_results_shape (v : pyval) : bool :=
  match v with
  | PDict d => is_dict (from_option id (PDict []) (dict_lookup "unit_tests" d))
  | _ => false
  end.

Definition well_shaped (validation_results : pyval) : bool :=
  match validation_results with
  | PDict d =>
      empty_or dict_of_dicts d "standards_results" &&
      empty_or is_dict d "documentation_results" &&
      empty_or test_results_shape d "test_results" &&
      empty_or dict_of_dicts d "security_results" &&
      empty_or dict_of_dicts d "ethics_results"
  | _ => false
  end.

End Validation.
Module ValidationExamples.

(** [repr] is not called on these inputs. *)
Definition no_repr : pyval → string := λ _, EmptyString.

Definition style_warnings : pyval :=
  PDict [("standards_results",
          PDict [("flake8", PDict [("status", PStr "warnings");
                                   ("message", PStr "3 minor style warnings")])])].

Definition syntax_error : pyval :=
  PDict [("standards_results",
          PDict [("flake8", PDict [("status", PStr "error");
                                   ("message", PStr "syntax error in module X")])])].

(** The tool reports a broken build in capitals, the K being the Kelvin
    sign. *)
Definition kelvin_broken : pyval :=
  PDict [("standards_results",
          PDict [("flake8",
                  PDict [("status", PStr "error");
                         ("message", PStr ("build is BRO" +:+ kelvin_sign +:+ "EN"))])])].

End ValidationExamples.
Module DeploymentExamples.

Import DeploymentAgent.

(** Packaging methods that succeed at once. *)
Definition packaging (kind : string) : SE (World unit) dict :=
  λ w, (Ok [("success", PBool true); ("deployment_type", PStr kind)], w).

Definition ops : Ops unit :=
  {| _deploy_to_github := packaging "github";
     _deploy_as_executable := packaging "executable";
     _deploy_source_only := packaging "source_only" |}.

Definition deploy (context : dict) : Result Response * World unit :=
  DeploymentAgent.execute ops "deploy_001" (λ _, EmptyString) (Examples.world0 context).

End DeploymentExamples.

(** Further vocabulary on the final validation. *)
Module ValidationPaths.

Import ValidatorAgent.

(** [not result.get("overall_safe", False)] for a result dictionary. *)
Definition flagged_unsafe (result : pyval) : bool :=
  match get result "overall_safe" (PBool false) with
  | Ok v => negb (truthy v)
  | Raise _ => false
  end.

(** The file paths of a results dictionary whose result is flagged. *)
Definition unsafe_paths (its : dict) : list string :=
  map fst (List.filter (λ kv, flagged_unsafe kv.2) its).

(** The section of [validation_results] under [key], as [items()] gives it. *)
Definition section_items (validation_results : pyval) (key : string) : dict :=
  match get validation_results key (PDict []) with
  | Ok (PDict its) => its
  | _ => []
  end.

(** The common shape of [_validate_security] and [_validate_ethics]. *)
Definition flagged_check (key prefix advice remedy : string) (validation_results : pyval)
    : Result CriterionResult :=
  let? results := get validation_results key (PDict []) in
  if negb (truthy results) then
    Ok {| passed := true; issues := []; recommendations := Some [advice] |}
  else
    let? its := items results in
    let? issues := overall_safe_loop prefix its [] in
    Ok {| passed := len_is_zero issues;
          issues := issues;
          recommendations := Some (if len_is_zero issues then [] else [remedy]) |}.

(** What the code-quality check reads in the result of a tool: whether
    the status is clean and, if not, the message. *)
Definition reading (repr : pyval → string) (d : dict) : bool * string :=
  (eq_str (from_option id PNone (dict_lookup "status" d)) "clean",
   str repr (from_option id (PStr "Issues found") (dict_lookup "message" d))).

End ValidationPaths.


(* ===================================================================== *)
(** * standards_agent.py                                                  *)
(* ===================================================================== *)

Module StandardsAgent.

(** How [subprocess.run(argv + files, capture_output=True, text=True)]
    ends inside the [try] of a tool method. *)
Inductive ProcessOutcome :=
| Exited (returncode : Z) (stdout : string)
| NotFound                  (* [FileNotFoundError] *)
| Failed (e : string).      (* any other exception, with [str(e)] *)

Section Model.
Context {S : Type}.

(** The processes the agent starts: the check of a tool on the files,
    and [_apply_automatic_fixes], which catches its own exceptions. *)
Record Ops := {
  subprocess_run : list string → pyval → World S → ProcessOutcome * World S;
  _apply_automatic_fixes : pyval → World S → World S;
}.

Definition self_id : string := "standards_001".

Definition standards_tools : list string := ["black"; "flake8"; "mypy"].

Section Methods.
Variable ops : Ops.

Definition _run_black (files : pyval) (w : World S) : dict * World S :=
  match subprocess_run ops ["black"; "--check"; "--diff"] files w with
  | (Exited returncode stdout, w') =>
      if (returncode =? 0)%Z then
        ([("status", PStr "clean"); ("message", PStr "Code is properly formatted")], w')
      else
        ([("status", PStr "needs_formatting"); ("message", PStr "Code needs formatting");
          ("diff", PStr stdout)], w')
  | (NotFound, w') =>
      ([("error", PStr "Black not found. Please install with: pip install black")], w')
  | (Failed e, w') => ([("error", PStr e)], w')
  end.

Definition _run_flake8 (files : pyval) (w : World S) : dict * World S :=
  match subprocess_run ops ["flake8"] files w with
  | (Exited returncode stdout, w') =>
      if (returncode =? 0)%Z then
        ([("status", PStr "clean"); ("message", PStr "No linting issues found")], w')
      else
        ([("status", PStr "has_issues"); ("message", PStr "Linting issues found");
          ("issues", PStr stdout)], w')
  | (NotFound, w') =>
      ([("error", PStr "Flake8 not found. Please install with: pip install flake8")], w')
  | (Failed e, w') => ([("error", PStr e)], w')
  end.

Definition _run_mypy (files : pyval) (w : World S) : dict * World S :=
  match subprocess_run ops ["mypy"] files w with
  | (Exited returncode stdout, w') =>
      if (returncode =? 0)%Z then
        ([("status", PStr "clean"); ("message", PStr "No type checking issues found")], w')
      else
        ([("status", PStr "has_issues"); ("message", PStr "Type checking issues found");
          ("issues", PStr stdout)], w')
  | (NotFound, w') =>
      ([("error", PStr "MyPy not found. Please install with: pip install mypy")], w')
  | (Failed e, w') => ([("error", PStr e)], w')
  end.

(** The tool methods do not raise, so the [except] of this method is
    never entered. *)
Definition _run_standards_tool (tool : string) (files : pyval) (w : World S)
    : dict * World S :=
  if String.eqb tool "black" then _run_black files w
  else if String.eqb tool "flake8" then _run_flake8 files w
  else if String.eqb tool "mypy" then _run_mypy files w
  else ([("error", PStr ("Unknown tool: " +:+ tool))], w).

(** [for tool in self.standards_tools: results[tool] = ...] *)
Fixpoint run_tools (tools : list string) (files : pyval) (results : dict) (w : World S)
    : dict * World S :=
  match tools with
  | [] => (results, w)
  | tool :: rest =>
      let (tool_results, w') := _run_standards_tool tool files w in
      run_tools rest files (ValidatorAgent.dict_set tool (PDict tool_results) results) w'
  end.

(** [execute(context)]; no statement of its [try] raises. *)
Definition execute (w : World S) : Result Response * World S :=
  let files_to_check :=
    from_option id (PList []) (dict_lookup "generated_files" (context w)) in
  if negb (truthy files_to_check) then
    (Ok (BaseAgent.create_response self_id (now w) false
           "No files provided for standards checking" None), w)
  else
    let (results, w1) := run_tools standards_tools files_to_check [] w in
    let w2 := _apply_automatic_fixes ops files_to_check w1 in
    (Ok (BaseAgent.create_response self_id (now w2) true
           "🧩 Coding standards enforced successfully"
           (Some [("standards_results", PDict results)])), w2).

End Methods.
End Model.

Arguments Ops : clear implicits.

End StandardsAgent.

(* ===================================================================== *)
(** * testing_agent.py                                                    *)
(* ===================================================================== *)

Module TestingAgent.

(** [for file_path, result in syntax_results.items():
       if not result.get("syntax_valid", False): return False] *)
Fixpoint all_syntax_valid (its : dict) : Result bool :=
  match its with
  | [] => Ok true
  | (_, result) :: rest =>
      let? valid := get result "syntax_valid" (PBool false) in
      if negb (truthy valid) then Ok false else all_syntax_valid rest
  end.

(** [run.get("status") == "completed" and run.get("return_code") != 0] *)
Definition completed_with_failures (run : pyval) : Result bool :=
  let? status := get run "status" PNone in
  let? return_code := get run "return_code" PNone in
  Ok (eq_str status "completed" && negb (eq_int return_code 0)).

Definition _evaluate_results (results : pyval) : Result bool :=
  let? syntax_results := get results "syntax_validation" (PDict []) in
  let? its := items syntax_results in
  let? valid := all_syntax_valid its in
  if negb valid then Ok false
  else
    let? unit_tests := get results "unit_tests" (PDict []) in
    let? failed := completed_with_failures unit_tests in
    if failed then Ok false
    else
      let? integration_tests := get results "integration_tests" (PDict []) in
      let? failed := completed_with_failures integration_tests in
      if failed then Ok false else Ok true.

Section Model.
Context {S : Type}.

(** Compiling the files and running the test suites. *)
Record Ops := {
  _validate_syntax : pyval → SE (World S) pyval;
  _run_tests : SE (World S) pyval;
  _run_integration_tests : SE (World S) pyval;
}.

Definition self_id : string := "test_001".

Section Methods.
Variable ops : Ops.

Definition create_response (success : bool) (message : string)
    (data : option dict) : SE (World S) Response :=
  λ w, (Ok (BaseAgent.create_response self_id (now w) success message data), w).

Definition execute : SE (World S) Response :=
  try_except
    (λ w,
      (let files_to_test :=
         from_option id (PList []) (dict_lookup "generated_files" (context w)) in
       if negb (truthy files_to_test) then
         create_response false "No files provided for testing" None
       else
         syntax_results <- _validate_syntax ops files_to_test ;;
         test_results <- _run_tests ops ;;
         integration_results <- _run_integration_tests ops ;;
         let all_results :=
           [("syntax_validation", syntax_results);
            ("unit_tests", test_results);
            ("integration_tests", integration_results)] in
         overall_success <- lift (_evaluate_results (PDict all_results)) ;;
         create_response overall_success
           (if overall_success then "🧪 Testing completed successfully"
            else "🧪 Testing found issues")
           (Some [("test_results", PDict all_results)])) w)
    (λ e, create_response false ("Testing operations failed: " +:+ e) None).

End Methods.
End Model.

Arguments Ops : clear implicits.

End TestingAgent.

(* ===================================================================== *)
(** * documentation_agent.py                                              *)
(* ===================================================================== *)

Module DocumentationAgent.

Section Model.
Context {S : Type}.

(** Writing the files: each method writes its file and returns the path,
    or raises again what it caught. *)
Record Ops := {
  write_readme : pyval → pyval → SE (World S) unit;
  _update_docstrings : pyval → SE (World S) pyval;
  write_changelog : SE (World S) unit;
  write_api_documentation : pyval → SE (World S) unit;
  set_documentation_files : list string → World S → World S;
}.

Definition self_id : string := "doc_001".

Section Methods.
Variable ops : Ops.

Definition create_response (success : bool) (message : string)
    (data : option dict) : SE (World S) Response :=
  λ w, (Ok (BaseAgent.create_response self_id (now w) success message data), w).

Definition _create_readme (project_info generated_files : pyval) : SE (World S) string :=
  write_readme ops project_info generated_files ;; ret "README.md".

Definition _create_changelog : SE (World S) string :=
  write_changelog ops ;; ret "CHANGELOG.md".

Definition _create_api_documentation (generated_files : pyval) : SE (World S) string :=
  write_api_documentation ops generated_files ;; ret "docs/API.md".

Definition execute : SE (World S) Response :=
  try_except
    (λ w,
      (let project_info :=
         from_option id (PDict []) (dict_lookup "project_requirements" (context w)) in
       let generated_files :=
         from_option id (PList []) (dict_lookup "generated_files" (context w)) in
       readme_path <- _create_readme project_info generated_files ;;
       docstring_results <- _update_docstrings ops generated_files ;;
       changelog_path <- _create_changelog ;;
       api_docs_path <- _create_api_documentation generated_files ;;
       let documentation_files := [readme_path; changelog_path; api_docs_path] in
       (λ w, (Ok tt, set_documentation_files ops documentation_files w)) ;;
       create_response true "📘 Documentation updated successfully"
         (Some [("documentation_files", PList (map PStr documentation_files));
                ("docstring_results", docstring_results)])) w)
    (λ e, create_response false ("Documentation operations failed: " +:+ e) None).

End Methods.
End Model.

Arguments Ops : clear implicits.

End DocumentationAgent.


(* ===================================================================== *)
(** * Agent objects with fields of their own                              *)
(* ===================================================================== *)

Module Objects.

Section Lifting.
Context {F E : Type}.

(** A world whose agent-side part is the fields [F] of one agent object;
    what lies outside the object acts on the context, the clock and [E]
    and cannot touch the fields. *)
Definition outside {A} (c : World E → A * World E) : World (F * E) → A * World (F * E) :=
  λ w, let (a, w') := c {| context := context w; now := now w; ext := (ext w).2 |} in
       (a, {| context := context w'; now := now w'; ext := ((ext w).1, ext w') |}).

Definition fields (w : World (F * E)) : F := (ext w).1.

Definition set_fields (f : F) (w : World (F * E)) : World (F * E) :=
  {| context := context w; now := now w; ext := (f, (ext w).2) |}.

End Lifting.

(** [s.lower()] on a value: only strings have the method. *)
Definition py_lower (v : pyval) : Result string :=
  match v with
  | PStr s => Ok (lower s)
  | _ => Raise (attribute_error v "lower")
  end.

(** [l.insert(-1, x)]: before the last element, or first in an empty list. *)
Fixpoint insert_minus_one {A} (x : A) (l : list A) : list A :=
  match l with
  | [] => [x]
  | [y] => [x; y]
  | y :: rest => y :: insert_minus_one x rest
  end.

(** [l[-n:]] for a positive [n]. *)
Definition last_n {A} (n : nat) (l : list A) : list A := drop (List.length l - n) l.

Definition dq : string := String "034"%char EmptyString.

End Objects.

Import Objects.

(* ===================================================================== *)
(** * base_agent.py: the language-model call                              *)
(* ===================================================================== *)

Module LanguageModel.

(** [call_llm(messages, model)]: [client] is the request to the service
    ([chat.completions.create(...).choices[0].message.content]); whatever
    it raises is replaced by one exception that names the model. *)
Definition call_llm {St} (client : list pyval → string → SE St string)
    (messages : list pyval) (model : string) : SE St string :=
  try_except (client messages model) (λ _, raise (llm_unavailable model)).

Definition default_model : string := "gpt-4o-mini".

End LanguageModel.

(* ===================================================================== *)
(** * coordinator_agent.py: the object and its conversation               *)
(* ===================================================================== *)

Module Coordinator.

(** [self.project_requirements] and [self.conversation_history]. *)
Record Fields := {
  project_requirements : dict;
  conversation_history : list pyval;
}.

(** [CoordinatorAgent()] *)
Definition init : Fields := {| project_requirements := []; conversation_history := [] |}.

Definition message_of (role : string) (content : pyval) : pyval :=
  PDict [("role", PStr role); ("content", content)].

Definition system_prompt : string :=
  "You are a Product Coordinator for a Python development project. Your role is to:" +:+ nl +:+
  "1. Understand the user's requirements" +:+ nl +:+
  "2. Ask clarifying questions" +:+ nl +:+
  "3. Suggest improvements" +:+ nl +:+
  "4. Define clear project scope" +:+ nl +:+
  "5. Wait for explicit " +:+ dq +:+ "Start development" +:+ dq +:+
    " command before proceeding" +:+ nl +:+
  nl +:+
  "Be conversational, helpful, and thorough in understanding requirements.".

Definition apology : string :=
  "I apologize, but I encountered an issue processing your request. Please try again.".

Definition _finalize_project_definition (response : string) : string :=
  "🧭 Product Coordinator: " +:+ response +:+
  nl +:+
  nl +:+
  "✅ Project scope confirmed and ready for development!" +:+ nl +:+
  nl +:+
  "The development team will now:" +:+ nl +:+
  "1. Design the system architecture" +:+ nl +:+
  "2. Write the Python code" +:+ nl +:+
  "3. Implement testing and validation" +:+ nl +:+
  "4. Create documentation" +:+ nl +:+
  "5. Set up version control" +:+ nl +:+
  nl +:+
  "Starting development phase now...".

(** [for msg in history[-6:]: messages.insert(-1, msg)] *)
Definition with_history (history messages : list pyval) : list pyval :=
  fold_left (λ messages msg, insert_minus_one msg messages) (last_n 6 history) messages.

(** The messages of the request made for the input [v] with the history
    [history] recorded before it. *)
Definition request_for (history : list pyval) (v : pyval) : list pyval :=
  message_of "system" (PStr system_prompt) ::
  last_n 5 history ++ [message_of "user" v; message_of "user" v].

(** The reply to the input [v], given how the request ended. *)
Definition reply_to (v : pyval) (outcome : Result string) : string :=
  match outcome, v with
  | Ok response, PStr s =>
      if contains "start development" (lower s) || contains "begin development" (lower s)
      then _finalize_project_definition response
      else response
  | _, _ => apology
  end.

Section Model.
Context {E : Type}.
Abbreviation W := (World (Fields * E)).

(** The request to the language-model service. *)
Variable client : list pyval → string → SE (World E) string.

Definition history_append (role : string) (content : pyval) : SE W unit :=
  λ w, (Ok tt,
        set_fields {| project_requirements := project_requirements (fields w);
                      conversation_history :=
                        conversation_history (fields w) ++ [message_of role content] |} w).

Definition _analyze_and_respond (user_input : pyval) : SE W string :=
  try_except
    (λ w,
      (let messages :=
         with_history (conversation_history (fields w))
           [message_of "system" (PStr system_prompt); message_of "user" user_input] in
       response <- LanguageModel.call_llm (λ ms model, outside (client ms model))
                     messages LanguageModel.default_model ;;
       lowered <- lift (py_lower user_input) ;;
       if contains "start development" lowered || contains "begin development" lowered
       then ret (_finalize_project_definition response)
       else ret response) w)
    (λ _, ret apology).

Definition ops : CoordinatorAgent.Ops (Fields * E) :=
  {| CoordinatorAgent.history_append := history_append;
     CoordinatorAgent._analyze_and_respond := _analyze_and_respond |}.

(** [CoordinatorAgent.execute] of this object. *)
Definition execute : SE W Response := CoordinatorAgent.execute ops.

End Model.

End Coordinator.

(* ===================================================================== *)
(** * repository_agent.py                                                 *)
(* ===================================================================== *)

Module RepositoryAgent.

(** [self.git_credentials] and [self.repository_info]. *)
Record Fields := {
  git_credentials : dict;
  repository_info : dict;
}.

(** [RepositoryAgent()] *)
Definition init : Fields := {| git_credentials := []; repository_info := [] |}.

(** How [subprocess.run(argv, check=True)] ends. *)
Inductive RunOutcome :=
| Done
| CalledProcessError (e : string)
| OtherError (e : string).

(** [bool(credentials.get("username") and credentials.get("repository_name"))] *)
Definition has_credentials (credentials : dict) : bool :=
  truthy (from_option id PNone (dict_lookup "username" credentials)) &&
  truthy (from_option id PNone (dict_lookup "repository_name" credentials)).

Section Model.
Context {E : Type}.
Abbreviation W := (World (Fields * E)).

Record Ops := {
  subprocess_run : list string → World E → RunOutcome * World E;
  write_gitignore : SE (World E) unit;
}.

Definition self_id : string := "repo_001".

Section Methods.
Variable ops : Ops.
Variable repr : pyval → string.

Definition create_response (success : bool) (message : string)
    (data : option dict) : SE W Response :=
  λ w, (Ok (BaseAgent.create_response self_id (now w) success message data), w).

(** [subprocess.run(argv, check=True)]: returns, or raises. *)
Definition run (argv : list string) : SE W RunOutcome :=
  λ w, let (r, w') := outside (subprocess_run ops argv) w in (Ok r, w').

(** [try: run(argv)  except CalledProcessError as e: raise Exception(what + e)] *)
Definition run_or (what : string) (argv : list string) : SE W unit :=
  outcome <- run argv ;;
  match outcome with
  | Done => ret tt
  | CalledProcessError e => raise (what +:+ e)
  | OtherError e => raise e
  end.

Definition _has_git_credentials : SE W bool :=
  λ w, (Ok (has_credentials (git_credentials (fields w))), w).

Definition _request_git_credentials : SE W Response :=
  create_response false "Please provide your Git username."
    (Some [("requires_user_input", PBool true); ("input_type", PStr "git_username")]).

Definition set_git_credentials (username repository_name is_public : pyval) (w : W) : W :=
  set_fields {| git_credentials :=
                  [("username", username); ("repository_name", repository_name);
                   ("is_public", is_public)];
                repository_info := repository_info (fields w) |} w.

Definition _initialize_git_repository : SE W unit :=
  run_or "Failed to initialize Git repository: " ["git"; "init"].

Definition _create_gitignore : SE W unit :=
  λ w, outside (write_gitignore ops) w.

(** Both commands are in one [try]. *)
Definition _commit_files : SE W unit :=
  run_or "Failed to commit files: " ["git"; "add"; "."] ;;
  run_or "Failed to commit files: "
    ["git"; "commit"; "-m"; "Initial commit: AI-generated Python project"].

Definition remote_url_of (credentials : dict) : Result string :=
  let? username := index credentials "username" in
  let? repo_name := index credentials "repository_name" in
  Ok ("https://github.com/" +:+ str repr username +:+ "/" +:+ str repr repo_name +:+ ".git").

(** No [try] here: what the command raises is raised as it is. *)
Definition _create_remote_repository : SE W string :=
  remote_url <- (λ w, (remote_url_of (git_credentials (fields w)), w)) ;;
  outcome <- run ["git"; "remote"; "add"; "origin"; remote_url] ;;
  match outcome with
  | Done => ret remote_url
  | CalledProcessError e | OtherError e => raise e
  end.

Definition _push_to_remote (remote_url : string) : SE W unit :=
  run_or "Failed to push to remote: " ["git"; "push"; "-u"; "origin"; "main"].

Definition execute : SE W Response :=
  try_except
    (present <- _has_git_credentials ;;
     if negb present then _request_git_credentials
     else
       _initialize_git_repository ;;
       _create_gitignore ;;
       _commit_files ;;
       remote_url <- _create_remote_repository ;;
       _push_to_remote remote_url ;;
       create_response true "🚀 Repository created and deployed successfully"
         (Some [("repository_url", PStr remote_url)]))
    (λ e, create_response false ("Repository operations failed: " +:+ e) None).

(** The agent as it is registered. *)
Definition agent : Agent (Fields * E) :=
  {| agent_id := self_id;
     name := "Repository & Delivery Agent";
     description := "Manages Git repository creation, commits, and deployment";
     BaseAgent.execute := execute |}.

End Methods.
End Model.

Arguments Ops : clear implicits.

End RepositoryAgent.

(* ===================================================================== *)
(** * ethics_agent.py                                                     *)
(* ===================================================================== *)

Module EthicsAgent.

(** The patterns are texts with their special characters escaped, so a
    match of the regular expression is an occurrence of the text. *)
Definition security_patterns : list string :=
  ["eval\("; "exec\("; "__import__\("; "subprocess\."; "os\.system\("; "shell=True";
   "pickle\.loads\("; "marshal\.loads\("; "compile\("; "input\("; "raw_input\("].

Definition ethical_concerns : list string :=
  ["discrimination"; "bias"; "harmful"; "dangerous"; "illegal"; "unethical"].

(** The text a pattern matches: the pattern without its backslashes. *)
Fixpoint unescape (pattern : string) : string :=
  match pattern with
  | EmptyString => EmptyString
  | String c rest =>
      if Ascii.eqb c "\"%char then
        match rest with
        | EmptyString => EmptyString
        | String c' rest' => String c' (unescape rest')
        end
      else String c (unescape rest)
  end.

(** [len(re.findall(pattern, content))] for such a pattern: the matches
    are counted from the left and do not overlap; [skip] characters of
    the last match are still to be passed. *)
Fixpoint count_from (text : string) (skip : nat) (content : string) : nat :=
  match content with
  | EmptyString => 0
  | String _ rest =>
      match skip with
      | Datatypes.S skip' => count_from text skip' rest
      | O =>
          if String.prefix text content
          then Datatypes.S (count_from text (String.length text - 1) rest)
          else count_from text 0 rest
      end
  end.

Definition count_matches (pattern content : string) : nat :=
  count_from (unescape pattern) 0 content.

Definition _check_security_issues (content : string) : list string :=
  flat_map
    (λ pattern,
       let n := count_matches pattern content in
       if (0 <? n)%nat then
         ["Potential security risk: " +:+ pattern +:+ " found " +:+
          pretty (Z.of_nat n) +:+ " times"]
       else [])
    security_patterns.

Definition _check_ethical_issues (content : string) : list string :=
  let content_lower := lower content in
  flat_map
    (λ concern,
       if contains concern content_lower
       then ["Potential ethical concern: " +:+ concern]
       else [])
    ethical_concerns.

Definition strings_value (l : list string) : pyval := PList (map PStr l).

(** [v == []] *)
Definition eq_empty_list (v : pyval) : bool :=
  match v with PList [] => true | _ => false end.

(** [result.get("security_issues", []) == [] and
     result.get("ethical_issues", []) == []] for a result of [_review_file]. *)
Definition without_findings (result : dict) : bool :=
  eq_empty_list (from_option id (PList []) (dict_lookup "security_issues" result)) &&
  eq_empty_list (from_option id (PList []) (dict_lookup "ethical_issues" result)).

(** The two forms of the result of [_review_file]. *)
Definition reviewed (result : pyval) : Prop :=
  (∃ content,
     result = PDict [("security_issues", strings_value (_check_security_issues content));
                     ("ethical_issues", strings_value (_check_ethical_issues content));
                     ("overall_safe",
                      PBool (ValidatorAgent.len_is_zero (_check_security_issues content) &&
                             ValidatorAgent.len_is_zero (_check_ethical_issues content)))]) ∨
  (∃ e,
     result = PDict [("security_issues", PList []); ("ethical_issues", PList []);
                     ("error", PStr e); ("overall_safe", PBool false)]).

Section Model.
Context {S : Type}.

(** [open(file_path, 'r').read()] *)
Variable read_file : string → SE (World S) string.

Definition self_id : string := "ethics_001".

Definition _review_file (file_path : string) (w : World S) : dict * World S :=
  match read_file file_path w with
  | (Ok content, w') =>
      let security_issues := _check_security_issues content in
      let ethical_issues := _check_ethical_issues content in
      ([("security_issues", strings_value security_issues);
        ("ethical_issues", strings_value ethical_issues);
        ("overall_safe",
         PBool (ValidatorAgent.len_is_zero security_issues &&
                ValidatorAgent.len_is_zero ethical_issues))], w')
  | (Raise e, w') =>
      ([("security_issues", PList []);
        ("ethical_issues", PList []);
        ("error", PStr e);
        ("overall_safe", PBool false)], w')
  end.

(** [for file_path in files_to_review:
       review_results[file_path] = self._review_file(file_path)] *)
Fixpoint review_all (files : list string) (review_results : dict) (w : World S)
    : dict * World S :=
  match files with
  | [] => (review_results, w)
  | file_path :: rest =>
      let (result, w') := _review_file file_path w in
      review_all rest (ValidatorAgent.dict_set file_path (PDict result) review_results) w'
  end.

(** [all(... for result in review_results.values())]; the values are the
    dictionaries [_review_file] built. *)
Definition all_without_findings (review_results : dict) : bool :=
  forallb (λ kv, match kv.2 with PDict result => without_findings result | _ => false end)
          review_results.

(** [execute(context)] for a context whose ["generated_files"] is the list
    of path strings [files_to_review] (the empty list when the key is
    absent); no statement of its [try] raises. *)
Definition execute (files_to_review : list string) (w : World S)
    : Result Response * World S :=
  if ValidatorAgent.len_is_zero files_to_review then
    (Ok (BaseAgent.create_response self_id (now w) false
           "No files provided for ethics review" None), w)
  else
    let (review_results, w') := review_all files_to_review [] w in
    let overall_safe := all_without_findings review_results in
    (Ok (BaseAgent.create_response self_id (now w') overall_safe
           (if overall_safe then "🔒 Security and ethics review passed"
            else "🔒 Security and ethics issues found")
           (Some [("review_results", PDict review_results)])), w').

End Model.

End EthicsAgent.

(* ===================================================================== *)
(** * main.py                                                             *)
(* ===================================================================== *)

Module Main.

(** [result.get("data", {}).get(key, {})] for a response. *)
Definition data_get (result : Response) (key : string) : pyval :=
  from_option id (PDict []) (dict_lookup key (data result)).

(** The dictionary [run_workflow] puts under ["validation_results"]. *)
Definition collect_validation_results
    (standards_result test_result doc_result ethics_result : Response) : dict :=
  [("standards_results", data_get standards_result "standards_results");
   ("test_results", data_get test_result "test_results");
   ("documentation_results", PDict (data doc_result));
   ("security_results", data_get ethics_result "review_results");
   ("ethics_results", data_get ethics_result "review_results")].

(** [c.isspace()] for a character of one byte: the ASCII white space. *)
Definition is_space (c : ascii) : bool :=
  let n := nat_of_ascii c in
  ((9 <=? n) && (n <=? 13) || (28 <=? n) && (n <=? 32))%nat.

(** [c.isspace()] for a character of two bytes [c1 c2]: U+0085 and
    U+00A0. *)
Definition is_space2 (c1 c2 : ascii) : bool :=
  let n2 := nat_of_ascii c2 in
  ((nat_of_ascii c1 =? 194) && ((n2 =? 133) || (n2 =? 160)))%nat.

(** [c.isspace()] for a character of three bytes [c1 c2 c3]: U+1680,
    U+2000 to U+200A, U+2028, U+2029, U+202F, U+205F and U+3000.  No
    character of four bytes is white space. *)
Definition is_space3 (c1 c2 c3 : ascii) : bool :=
  let n1 := nat_of_ascii c1 in
  let n2 := nat_of_ascii c2 in
  let n3 := nat_of_ascii c3 in
  ((n1 =? 225) && (n2 =? 154) && (n3 =? 128) ||
   (n1 =? 226) && (n2 =? 128) &&
     ((128 <=? n3) && (n3 <=? 138) || (n3 =? 168) || (n3 =? 169) || (n3 =? 175)) ||
   (n1 =? 226) && (n2 =? 129) && (n3 =? 159) ||
   (n1 =? 227) && (n2 =? 128) && (n3 =? 128))%nat.

(** [s.lstrip()]: the white space characters the text begins with are
    removed. *)
Fixpoint lstrip (s : string) : string :=
  match s with
  | EmptyString => EmptyString
  | String c1 s1 =>
      if is_space c1 then lstrip s1
      else
        match s1 with
        | EmptyString => s
        | String c2 s2 =>
            if is_space2 c1 c2 then lstrip s2
            else
              match s2 with
              | EmptyString => s
              | String c3 s3 => if is_space3 c1 c2 c3 then lstrip s3 else s
              end
        end
  end.

(** [s.rstrip()]: the text is cut where only white space follows. *)
Fixpoint rstrip (s : string) : string :=
  match s with
  | EmptyString => EmptyString
  | String c rest =>
      match lstrip s with
      | EmptyString => EmptyString
      | _ => String c (rstrip rest)
      end
  end.

(** [s.strip()] *)
Definition strip (s : string) : string := rstrip (lstrip s).

(** The loop that asks for the deployment option: [lines] are the lines
    the user still types; beyond the last of them [input()] raises
    [EOFError].  The result is the choice and the lines left. *)
Fixpoint ask_deployment_choice (lines : list string) : Result (string * list string) :=
  match lines with
  | [] => Raise "EOF when reading a line"
  | line :: rest =>
      let choice := strip line in
      if String.eqb choice "1" then Ok ("github", rest)
      else if String.eqb choice "2" then Ok ("executable", rest)
      else if String.eqb choice "3" then Ok ("source_only", rest)
      else ask_deployment_choice rest
  end.

(** [context["deployment_choice"] = deployment_choice] *)
Definition set_deployment_choice {S} (choice : string) (w : World S) : World S :=
  {| context := ValidatorAgent.dict_set "deployment_choice" (PStr choice) (context w);
     now := now w; ext := ext w |}.

End Main.


(** The loop of [run_workflow] that collects the project definition. *)
Module ProjectDefinition.

Import Main.

(** [context[key] = v] *)
Definition set_context {S} (key : string) (v : pyval) (w : World S) : World S :=
  {| context := ValidatorAgent.dict_set key v (context w); now := now w; ext := ext w |}.

(** ["requirements" in s or "need" in s or "want" in s], on the lowered input. *)
Definition mentions_requirements (lowered : string) : bool :=
  contains "requirements" lowered || contains "need" lowered || contains "want" lowered.

(** [" ".join(l)] *)
Fixpoint join_spaces (l : list string) : string :=
  match l with
  | [] => EmptyString
  | [s] => s
  | s :: rest => s +:+ " " +:+ join_spaces rest
  end.

(** The local [conversation_history]: each message with its role and its
    content, both strings. *)
Definition history_value (history : list (string * string)) : pyval :=
  PList (map (λ msg, Coordinator.message_of msg.1 (PStr msg.2)) history).

(** [[msg["content"] for msg in conversation_history if msg["role"] == "user"]] *)
Definition user_contents (history : list (string * string)) : list string :=
  map snd (List.filter (λ msg, String.eqb msg.1 "user") history).

Section Model.
Context {S : Type}.

(** [self.agents["coord_001"].execute(self.context)] *)
Variable coordinator : SE (World S) Response.

(** [lines] are the lines the user still types; the result is the
    dictionary [project_requirements] and the lines left. *)
Fixpoint definition_loop (lines : list string) (conversation_history : list (string * string))
    (project_requirements : dict) : SE (World S) (dict * list string) :=
  match lines with
  | [] => raise "EOF when reading a line"
  | line :: rest =>
      let user_input := strip line in
      if String.eqb user_input EmptyString then
        definition_loop rest conversation_history project_requirements
      else
        (λ w, (Ok tt, set_context "user_input" (PStr user_input) w)) ;;
        coord_result <- coordinator ;;
        let conversation_history :=
          conversation_history ++
          [("user", user_input); ("assistant", message coord_result)] in
        let project_requirements :=
          if mentions_requirements (lower user_input)
          then ValidatorAgent.dict_set "description" (PStr user_input) project_requirements
          else project_requirements in
        if contains "start development" (lower user_input) then
          ret (ValidatorAgent.dict_set "user_description"
                 (PStr (join_spaces (user_contents conversation_history)))
                 (ValidatorAgent.dict_set "conversation_history"
                    (history_value conversation_history) project_requirements),
               rest)
        else definition_loop rest conversation_history project_requirements
  end.

End Model.

End ProjectDefinition.


(** The callers that register agents of one kind only. *)
Module Registry.

Import OrchestratorAgent.

Section Vocabulary.
Context {S : Type}.

(** [Workflow.reachable], when every agent that is registered satisfies
    [allowed]. *)
Inductive reachable_with (allowed : Agent S → Prop) : Machine S → Prop :=
| with_init w :
    reachable_with allowed {| orch := init; world := w; calls := [] |}
| with_world m w :
    reachable_with allowed m →
    reachable_with allowed {| orch := orch m; world := w; calls := calls m |}
| with_execute m :
    reachable_with allowed m → reachable_with allowed (OrchestratorAgent.execute m).2
| with_register m agent :
    allowed agent →
    reachable_with allowed m → reachable_with allowed (register_agent agent m).2
| with_pause m reason :
    reachable_with allowed m → reachable_with allowed (pause_workflow reason m).2
| with_resume m :
    reachable_with allowed m → reachable_with allowed (resume_workflow m).2
| with_unavailable m model :
    reachable_with allowed m → reachable_with allowed (handle_model_unavailable model m).2.

End Vocabulary.

End Registry.


(** Concrete agents, processes and inputs for the further statements. *)
Module AgentExamples.

Import Examples OrchestratorAgent.

(** An agent whose [execute] raises. *)
Definition raising (id e : string) : Agent unit :=
  {| agent_id := id; name := id; description := EmptyString;
     BaseAgent.execute := λ w, (Raise e, w) |}.

(** The architect succeeds, the code generation raises. *)
Definition raising_development : Machine unit :=
  in_state "development"
    (registering [succeeding "arch_001"; raising "core_001" "disk full"] (fresh [])).

(** The ids under which [initialize_agents] registers its twelve agents. *)
Definition own_ids : list string :=
  ["env_001"; "coord_001"; "arch_001"; "core_001"; "standards_001"; "backup_001";
   "test_001"; "doc_001"; "ethics_001"; "valid_001"; "repo_001"; "deploy_001"].

Definition registered_by_main : Machine unit :=
  registering (map succeeding own_ids) (fresh []).

(** The orchestrator of [all_registered] after three calls: in delivery. *)
Definition delivering : Machine unit := executed 3 all_registered.

(** A coordinator whose model answers "ok" and that keeps no history. *)
Definition plain_coordinator : CoordinatorAgent.Ops unit :=
  {| CoordinatorAgent.history_append := λ _ _, ret tt;
     CoordinatorAgent._analyze_and_respond := λ _, ret "ok" |}.

Definition defining_with_coordinator : Machine unit :=
  in_state "definition"
    (registering [CoordinatorAgent.agent plain_coordinator]
       (fresh [("user_input", PStr "start development")])).

(** Git commands that all succeed. *)
Definition git_done : RepositoryAgent.Ops unit :=
  {| RepositoryAgent.subprocess_run := λ _ w, (RepositoryAgent.Done, w);
     RepositoryAgent.write_gitignore := ret tt |}.

(** The delivery phase with a new repository agent. *)
Definition delivering_without_credentials : Machine (RepositoryAgent.Fields * unit) :=
  {| orch :=
       set_workflow_state "delivery"
         (set_agents {["repo_001" := RepositoryAgent.agent git_done (λ _, EmptyString)]} init);
     world := {| context := []; now := "t"; ext := (RepositoryAgent.init, tt) |};
     calls := [] |}.

(** A repository agent after [set_git_credentials("ada", "todo")]. *)
Definition with_credentials : World (RepositoryAgent.Fields * unit) :=
  RepositoryAgent.set_git_credentials (PStr "ada") (PStr "todo") (PBool true)
    {| context := []; now := "t"; ext := (RepositoryAgent.init, tt) |}.

(** One generated file. *)
Definition with_files : World unit :=
  world0 [("generated_files", PList [PStr "main.py"])].

(** None of the standards tools is installed. *)
Definition no_tools : StandardsAgent.Ops unit :=
  {| StandardsAgent.subprocess_run := λ _ _ w, (StandardsAgent.NotFound, w);
     StandardsAgent._apply_automatic_fixes := λ _ w, w |}.

(** The file compiles and the unit tests pass. *)
Definition passing_tests : TestingAgent.Ops unit :=
  {| TestingAgent._validate_syntax :=
       λ _, ret (PDict [("main.py", PDict [("syntax_valid", PBool true); ("error", PNone)])]);
     TestingAgent._run_tests :=
       ret (PDict [("status", PStr "completed"); ("return_code", PInt 0)]);
     TestingAgent._run_integration_tests :=
       ret (PDict [("status", PStr "no_integration_tests");
                   ("message", PStr "No integration tests found")]) |}.

(** Every documentation file is written. *)
Definition writing : DocumentationAgent.Ops unit :=
  {| DocumentationAgent.write_readme := λ _ _, ret tt;
     DocumentationAgent._update_docstrings := λ _, ret (PDict []);
     DocumentationAgent.write_changelog := ret tt;
     DocumentationAgent.write_api_documentation := λ _, ret tt;
     DocumentationAgent.set_documentation_files := λ _ w, w |}.

(** A file system with one readable file. *)
Definition one_file : string → SE (World unit) string :=
  λ path w,
    if String.eqb path "main.py" then (Ok "print(1)", w)
    else (Raise ("[Errno 2] No such file or directory: '" +:+ path +:+ "'"), w).

(** The answers of the four steps on [with_files], the review being of
    [main.py] and of a file that does not exist. *)
Definition standards_answer : Response :=
  BaseAgent.create_response "standards_001" "t" true
    "🧩 Coding standards enforced successfully"
    (Some [("standards_results",
            PDict [("black",
                    PDict [("error",
                            PStr "Black not found. Please install with: pip install black")]);
                   ("flake8",
                    PDict [("error",
                            PStr "Flake8 not found. Please install with: pip install flake8")]);
                   ("mypy",
                    PDict [("error",
                            PStr "MyPy not found. Please install with: pip install mypy")])])]).

Definition testing_answer : Response :=
  BaseAgent.create_response "test_001" "t" true "🧪 Testing completed successfully"
    (Some [("test_results",
            PDict [("syntax_validation",
                    PDict [("main.py", PDict [("syntax_valid", PBool true); ("error", PNone)])]);
                   ("unit_tests", PDict [("status", PStr "completed"); ("return_code", PInt 0)]);
                   ("integration_tests",
                    PDict [("status", PStr "no_integration_tests");
                           ("message", PStr "No integration tests found")])])]).

Definition documentation_answer : Response :=
  BaseAgent.create_response "doc_001" "t" true "📘 Documentation updated successfully"
    (Some [("documentation_files",
            PList [PStr "README.md"; PStr "CHANGELOG.md"; PStr "docs/API.md"]);
           ("docstring_results", PDict [])]).

Definition reviewed_files : list string := ["main.py"; "broken_link.py"].

Definition review_answer : Response :=
  BaseAgent.create_response "ethics_001" "t" true "🔒 Security and ethics review passed"
    (Some [("review_results",
            PDict [("main.py",
                    PDict [("security_issues", PList []); ("ethical_issues", PList []);
                           ("overall_safe", PBool true)]);
                   ("broken_link.py",
                    PDict [("security_issues", PList []); ("ethical_issues", PList []);
                           ("error",
                            PStr "[Errno 2] No such file or directory: 'broken_link.py'");
                           ("overall_safe", PBool false)])])]).

(** What [run_workflow] collects from these answers. *)
Definition collected : dict :=
  Main.collect_validation_results standards_answer testing_answer documentation_answer
    review_answer.

(** A language model that answers, and one that is down. *)
Definition answering_model : list pyval → string → SE (World unit) string :=
  λ _ _, ret "Noted.".

Definition model_off : list pyval → string → SE (World unit) string :=
  λ _ _, raise "Connection error.".

(** A new coordinator facing an input. *)
Definition facing (input : pyval) : World (Coordinator.Fields * unit) :=
  {| context := [("user_input", input)]; now := "t"; ext := (Coordinator.init, tt) |}.

(** A coordinator that has recorded four exchanges. *)
Definition exchanges : list pyval :=
  flat_map (λ n, [Coordinator.message_of "user" (PStr ("question " +:+ pretty n));
                  Coordinator.message_of "assistant" (PStr ("answer " +:+ pretty n))])
           [1; 2; 3; 4]%Z.

Definition in_conversation (input : pyval) : World (Coordinator.Fields * unit) :=
  {| context := [("user_input", input)]; now := "t";
     ext := ({| Coordinator.project_requirements := [];
                Coordinator.conversation_history := exchanges |}, tt) |}.

End AgentExamples.

(* ===================================================================== *)
(** * The development phase                                               *)
(* ===================================================================== *)

Module DevelopmentPhase.

Import OrchestratorAgent Workflow.

Section Facts.
Context {S : Type}.
Implicit Types (m : Machine S) (w : World S) (agent : Agent S) (result : Response).

Lemma logged_nil m : logged m (world m) [] = m.
Proof. destruct m as [o w c]. unfold logged. cbn. by rewrite app_nil_r. Qed.

Lemma logged_logged m w w' ks ks' :
  logged (logged m w ks) w' ks' = logged m w' (ks ++ ks').
Proof. unfold logged. cbn. by rewrite app_assoc. Qed.

(** One turn of the loop, by the four things that can happen in it. *)
Lemma dev_loop_absent step rest m :
  agents (orch m) !! step_key step = None →
  dev_loop (step :: rest) m = dev_loop rest m.
Proof.
  destruct step as [[k nm] d]. cbn [step_key fst]. intros Hk.
  cbn [dev_loop]. unfold bind, registered, read, ret. cbn. by rewrite Hk.
Qed.

Lemma dev_loop_success step rest m agent result w :
  agents (orch m) !! step_key step = Some agent →
  BaseAgent.execute agent (world m) = (Ok result, w) →
  success result = true →
  dev_loop (step :: rest) m = dev_loop rest (logged m w [step_key step]).
Proof.
  destruct step as [[k nm] d]. cbn [step_key fst]. intros Hk Hrun Hok.
  cbn [dev_loop]. unfold bind, registered, agents_index, invoke, read, ret. cbn.
  rewrite Hk. cbn. rewrite Hk. cbn. rewrite Hrun, Hok. reflexivity.
Qed.

Lemma dev_loop_failure step rest m agent result w :
  agents (orch m) !! step_key step = Some agent →
  BaseAgent.execute agent (world m) = (Ok result, w) →
  success result = false →
  dev_loop (step :: rest) m =
    (Ok (Some (BaseAgent.create_response self_id (now w) false
                 (step_failed_message (step_name step) result) None)),
     logged m w [step_key step]).
Proof.
  destruct step as [[k nm] d]. cbn [step_key step_name fst snd]. intros Hk Hrun Hok.
  cbn [dev_loop]. unfold bind, registered, agents_index, invoke, read, ret. cbn.
  rewrite Hk. cbn. rewrite Hk. cbn. rewrite Hrun, Hok. reflexivity.
Qed.

Lemma dev_loop_raise step rest m agent e w :
  agents (orch m) !! step_key step = Some agent →
  BaseAgent.execute agent (world m) = (Raise e, w) →
  dev_loop (step :: rest) m = (Raise e, logged m w [step_key step]).
Proof.
  destruct step as [[k nm] d]. cbn [step_key fst]. intros Hk Hrun.
  cbn [dev_loop]. unfold bind, registered, agents_index, invoke, read, ret. cbn.
  rewrite Hk. cbn. rewrite Hk. cbn. rewrite Hrun. reflexivity.
Qed.

(** Steps that all succeed are run through, one after the other. *)
Lemma dev_loop_all_succeed pre post m w ks :
  all_succeed (agents (orch m)) pre (world m) w ks →
  dev_loop (pre ++ post) m = dev_loop post (logged m w ks).
Proof.
  remember (agents (orch m)) as ags eqn:Hags. remember (world m) as w0 eqn:Hw0.
  intros Hall. revert m Hags Hw0.
  induction Hall as [w0|step rest w0 w' ks Hk _ IH|step rest agent result w0 w1 w' ks Hk Hrun Hok _ IH];
    intros m -> ->.
  - by rewrite logged_nil.
  - cbn [app]. rewrite dev_loop_absent by done. by apply IH.
  - cbn [app]. rewrite (dev_loop_success _ _ _ _ _ _ Hk Hrun Hok).
    rewrite (IH (logged m w1 [step_key step])) by done.
    by rewrite logged_logged.
Qed.

(** The keys invoked by steps that all succeed are the registered ones. *)
Lemma all_succeed_keys ags steps w w' ks :
  all_succeed ags steps w w' ks → ks = registered_keys ags steps.
Proof.
  induction 1 as [|step rest w0 w1 ks Hk _ IH|step rest agent result w0 w1 w2 ks Hk _ _ _ IH];
    unfold registered_keys in *; cbn.
  - done.
  - by rewrite Hk.
  - rewrite Hk. by f_equal.
Qed.

Lemma registered_keys_subseteq (ags : gmap string (Agent S)) steps k :
  k ∈ registered_keys ags steps → k ∈ map step_key steps.
Proof.
  intros Hk. apply list_elem_of_In in Hk. apply list_elem_of_In.
  unfold registered_keys in Hk. apply filter_In in Hk. tauto.
Qed.

Lemma dev_steps_keys_NoDup : NoDup (map step_key dev_steps).
Proof. apply (bool_decide_unpack _). vm_compute. exact I. Qed.

Lemma dev_steps_names_NoDup : NoDup (map step_name dev_steps).
Proof. apply (bool_decide_unpack _). vm_compute. exact I. Qed.

(** [execute] on a running orchestrator in the development state is the
    development phase inside the [try]. *)
Lemma execute_development m :
  paused (orch m) = false →
  workflow_state (orch m) = "development" →
  OrchestratorAgent.execute m =
    try_except _execute_development_phase
      (λ e, create_response false ("Workflow execution failed: " +:+ e) None) m.
Proof.
  intros Hp Hs. unfold OrchestratorAgent.execute, try_except, execute_body, bind, read.
  cbn. rewrite Hp, Hs. reflexivity.
Qed.

(** C1.  When step [step] of the development workflow is the first whose
    agent returns [success = False] (every registered step before it
    returned [success = True]), [execute] has invoked exactly the registered
    steps up to and including [step], once each and in order, and none of
    the later ones; it answers [success = False] with a message that names
    the failed step, and the workflow state is unchanged. *)
Theorem development_stops_at_first_failure m pre step post agent result w1 w2 ks :
  paused (orch m) = false →
  workflow_state (orch m) = "development" →
  dev_steps = pre ++ step :: post →
  all_succeed (agents (orch m)) pre (world m) w1 ks →
  agents (orch m) !! step_key step = Some agent →
  BaseAgent.execute agent w1 = (Ok result, w2) →
  success result = false →
  let invoked := (registered_keys (agents (orch m)) pre ++ [step_key step])%list in
  OrchestratorAgent.execute m =
    (Ok (BaseAgent.create_response self_id (now w2) false
           ("Development step failed: " +:+ step_name step +:+ " - " +:+ message result)
           None),
     logged m w2 invoked) ∧
  NoDup invoked ∧
  (∀ later, later ∈ post → step_key later ∉ invoked) ∧
  (∀ other, other ∈ dev_steps → step_name other = step_name step → other = step).
Proof.
  intros Hp Hs Hsplit Hall Hk Hrun Hfail invoked.
  pose proof (all_succeed_keys _ _ _ _ _ Hall) as Hks.
  assert (Hnodup : NoDup (map step_key pre ++ step_key step :: map step_key post)).
  { pose proof dev_steps_keys_NoDup as H. rewrite Hsplit, map_app in H. exact H. }
  apply NoDup_app in Hnodup as (Hpre & Hmid & Hpost).
  apply NoDup_cons in Hpost as [Hstep Hpost].
  split; [|split; [|split]].
  - rewrite (execute_development _ Hp Hs).
    unfold try_except, _execute_development_phase, bind.
    rewrite Hsplit, (dev_loop_all_succeed _ _ _ _ _ Hall).
    rewrite (dev_loop_failure _ _ _ agent result w2); [|done..].
    cbn. unfold ret, invoked. rewrite logged_logged, Hks. reflexivity.
  - unfold invoked. apply NoDup_app. split; [|split].
    + unfold registered_keys. apply NoDup_ListNoDup, List.NoDup_filter, NoDup_ListNoDup, Hpre.
    + intros k Hin Hk'. apply list_elem_of_singleton in Hk'. subst k.
      apply (Hmid (step_key step)); [by eapply registered_keys_subseteq|]. left.
    + apply NoDup_singleton.
  - intros later Hlater Hin. unfold invoked in Hin.
    assert (Hl : step_key later ∈ map step_key post) by (by apply list_elem_of_fmap_2).
    apply elem_of_app in Hin as [Hin|Hin].
    + apply (Hmid (step_key later)); [by eapply registered_keys_subseteq|]. by right.
    + apply list_elem_of_singleton in Hin. apply Hstep. by rewrite <- Hin.
  - intros other Hother Hname.
    pose proof dev_steps_names_NoDup as Hn.
    assert (Hstep_in : step ∈ dev_steps).
    { rewrite Hsplit. apply elem_of_app. right. left. }
    apply list_elem_of_lookup in Hother as [i Hi].
    apply list_elem_of_lookup in Hstep_in as [j Hj].
    assert (i = j) as ->.
    { eapply NoDup_lookup; [exact Hn| |].
      - by rewrite list_lookup_fmap, Hi.
      - rewrite list_lookup_fmap, Hj. cbn. by rewrite Hname. }
    congruence.
Qed.

End Facts.
End DevelopmentPhase.

(* ===================================================================== *)
(** * What one call of [execute] can change                               *)
(* ===================================================================== *)

Module ExecuteFrame.

Import OrchestratorAgent Workflow DevelopmentPhase.

Section Facts.
Context {S : Type}.
Implicit Types (m : Machine S) (o : Orchestrator S) (w : World S).

(** The loop changes neither the orchestrator nor the log it found, and
    invokes registered steps of its list only. *)
Lemma dev_loop_frame steps m :
  ∃ r w ks, dev_loop steps m = (r, logged m w ks) ∧
    (∀ k, k ∈ ks → is_Some (agents (orch m) !! k) ∧ k ∈ map step_key steps) ∧
    (∀ resp, r = Ok (Some resp) → success resp = false).
Proof.
  revert m. induction steps as [|step rest IH]; intros m.
  - exists (Ok None), (world m), []. split; [by rewrite logged_nil|]. split; [|done].
    intros k Hk. by apply elem_of_nil in Hk.
  - destruct (agents (orch m) !! step_key step) as [agent|] eqn:Hk.
    + destruct (BaseAgent.execute agent (world m)) as [[result|e] w] eqn:Hrun.
      * destruct (success result) eqn:Hok.
        -- rewrite (dev_loop_success _ _ _ _ _ _ Hk Hrun Hok).
           destruct (IH (logged m w [step_key step])) as (r & w' & ks & -> & Hks & Hr).
           exists r, w', (step_key step :: ks). split; [by rewrite logged_logged|].
           split; [|done].
           intros k [->|Hin]%elem_of_cons.
           ++ split; [by rewrite Hk|cbn; left].
           ++ destruct (Hks k Hin) as [? ?]. split; [done|cbn; by right].
        -- rewrite (dev_loop_failure _ _ _ _ _ _ Hk Hrun Hok).
           eexists _, w, [step_key step]. split; [done|]. split.
           ++ intros k ->%list_elem_of_singleton. split; [by rewrite Hk|cbn; left].
           ++ by intros resp [= <-].
      * rewrite (dev_loop_raise _ _ _ _ _ _ Hk Hrun).
        eexists _, w, [step_key step]. split; [done|]. split; [|done].
        intros k ->%list_elem_of_singleton. split; [by rewrite Hk|cbn; left].
    + rewrite (dev_loop_absent _ _ _ Hk).
      destruct (IH m) as (r & w' & ks & -> & Hks & Hr). exists r, w', ks.
      split; [done|]. split; [|done].
      intros k Hin. destruct (Hks k Hin) as [? ?]. split; [done|cbn; by right].
Qed.

(** The three single-step phases, as one case analysis each. *)
Lemma environment_setup_cases m :
  _execute_environment_setup m =
    match agents (orch m) !! "env_agent" with
    | None =>
        (Ok (BaseAgent.create_response self_id (now (world m)) false
               "Environment agent not registered" None), m)
    | Some _ =>
        match agents (orch m) !! "env_001" with
        | None => (Raise (key_error "env_001"), m)
        | Some agent =>
            match BaseAgent.execute agent (world m) with
            | (Ok result, w) =>
                if success result then
                  (Ok (BaseAgent.create_response self_id (now w) true
                         "⚙️ Environment setup completed. Moving to definition phase."
                         (Some [("next_phase", PStr "definition")])),
                   {| orch := set_workflow_state "definition" (orch m);
                      world := w; calls := calls m ++ ["env_001"] |})
                else (Ok result, logged m w ["env_001"])
            | (Raise e, w) => (Raise e, logged m w ["env_001"])
            end
        end
    end.
Proof.
  unfold _execute_environment_setup, bind, registered, agents_index, invoke,
    read, update, ret, raise, create_response. cbn.
  destruct (agents (orch m) !! "env_agent") eqn:H1; cbn; [|done].
  destruct (agents (orch m) !! "env_001") as [agent|] eqn:H2; cbn; [|done].
  destruct (BaseAgent.execute agent (world m)) as [[result|e] w]; cbn; [|done].
  by destruct (success result).
Qed.

Lemma definition_phase_cases m :
  _execute_definition_phase m =
    match agents (orch m) !! "coord_001" with
    | None =>
        (Ok (BaseAgent.create_response self_id (now (world m)) false
               "Coordinator agent not registered" None), m)
    | Some coordinator =>
        match BaseAgent.execute coordinator (world m) with
        | (Ok result, w) =>
            if success result && project_defined result then
              (Ok (BaseAgent.create_response self_id (now w) true
                     "🧭 Project definition completed. Starting development phase."
                     (Some [("next_phase", PStr "development")])),
               {| orch := set_workflow_state "development" (orch m);
                  world := w; calls := calls m ++ ["coord_001"] |})
            else (Ok result, logged m w ["coord_001"])
        | (Raise e, w) => (Raise e, logged m w ["coord_001"])
        end
    end.
Proof.
  unfold _execute_definition_phase, bind, registered, agents_index, invoke,
    read, update, ret, raise, create_response. cbn.
  destruct (agents (orch m) !! "coord_001") as [agent|] eqn:H1; cbn; [|done].
  rewrite H1. cbn.
  destruct (BaseAgent.execute agent (world m)) as [[result|e] w]; cbn; [|done].
  by destruct (success result && project_defined result).
Qed.

Lemma delivery_phase_cases m :
  _execute_delivery_phase m =
    match agents (orch m) !! "repo_001" with
    | None =>
        (Ok (BaseAgent.create_response self_id (now (world m)) false
               "Repository agent not registered" None), m)
    | Some repo_agent =>
        match BaseAgent.execute repo_agent (world m) with
        | (Ok result, w) =>
            if success result then
              (Ok (BaseAgent.create_response self_id (now w) true
                     "🚀 Project delivery completed successfully!"
                     (Some [("project_completed", PBool true)])),
               {| orch := set_workflow_state "completed" (orch m);
                  world := w; calls := calls m ++ ["repo_001"] |})
            else (Ok result, logged m w ["repo_001"])
        | (Raise e, w) => (Raise e, logged m w ["repo_001"])
        end
    end.
Proof.
  unfold _execute_delivery_phase, bind, registered, agents_index, invoke,
    read, update, ret, raise, create_response. cbn.
  destruct (agents (orch m) !! "repo_001") as [agent|] eqn:H1; cbn; [|done].
  rewrite H1. cbn.
  destruct (BaseAgent.execute agent (world m)) as [[result|e] w]; cbn; [|done].
  by destruct (success result).
Qed.

(** The development phase: the loop either returned a failure response or
    raised, the orchestrator being as it was, or ran to its end. *)
Lemma development_phase_cases m :
  ∃ w ks, (∀ k, k ∈ ks → is_Some (agents (orch m) !! k) ∧ k ∈ map step_key dev_steps) ∧
    ((∃ r, _execute_development_phase m = (r, logged m w ks) ∧
           ∀ resp, r = Ok resp → success resp = false) ∨
     _execute_development_phase m =
       (Ok (BaseAgent.create_response self_id (now w) true
              "🧠 Development phase completed. Moving to delivery phase."
              (Some [("next_phase", PStr "delivery")])),
        {| orch := set_workflow_state "delivery" (orch m);
           world := w; calls := calls m ++ ks |})).
Proof.
  destruct (dev_loop_frame dev_steps m) as (r & w & ks & Hloop & Hks & Hr).
  exists w, ks. split; [done|].
  unfold _execute_development_phase, bind. rewrite Hloop.
  destruct r as [[resp|]|e]; cbn.
  - left. eexists. split; [done|]. intros ? [= <-]. by apply Hr.
  - by right.
  - left. eexists. split; [done|]. done.
Qed.

(** [execute] on a running orchestrator in the definition state is the
    definition phase inside the [try]. *)
Lemma execute_definition m :
  paused (orch m) = false →
  workflow_state (orch m) = "definition" →
  OrchestratorAgent.execute m =
    try_except _execute_definition_phase
      (λ e, create_response false ("Workflow execution failed: " +:+ e) None) m.
Proof.
  intros Hp Hs. unfold OrchestratorAgent.execute, try_except, execute_body, bind, read.
  cbn. rewrite Hp, Hs. reflexivity.
Qed.

(** [execute] on a paused orchestrator. *)
Lemma execute_paused m :
  paused (orch m) = true →
  OrchestratorAgent.execute m =
    if eq_str (from_option id PNone (dict_lookup "user_input" (context (world m)))) "Try again"
    then (Ok (BaseAgent.create_response self_id (now (world m)) true
                "Workflow resumed. Continuing from last step."
                (Some [("resumed", PBool true)])),
          {| orch := set_pause false None (orch m); world := world m; calls := calls m |})
    else (Ok (BaseAgent.create_response self_id (now (world m)) false
                (paused_message (pause_reason (orch m)))
                (Some [("paused", PBool true);
                       ("reason", reason_value (pause_reason (orch m)))])),
          m).
Proof.
  intros Hp.
  unfold OrchestratorAgent.execute, try_except, execute_body, bind, read. cbn. rewrite Hp.
  unfold _handle_pause_resume, bind, context_get, resume_workflow, update, read,
    create_response. cbn.
  by destruct (eq_str _ _).
Qed.

(** [execute] on a running orchestrator whose state is none of the four
    phases with work to do. *)
Lemma execute_no_phase m :
  paused (orch m) = false →
  next_phase (workflow_state (orch m)) = None →
  OrchestratorAgent.execute m =
    (Ok (BaseAgent.create_response self_id (now (world m)) false
           ("Unknown workflow state: " +:+ workflow_state (orch m)) None), m).
Proof.
  intros Hp Hn.
  unfold OrchestratorAgent.execute, try_except, execute_body, bind, read. cbn. rewrite Hp.
  unfold next_phase in Hn.
  destruct (String.eqb _ "initializing"); [done|].
  destruct (String.eqb _ "definition"); [done|].
  destruct (String.eqb _ "development"); [done|].
  destruct (String.eqb _ "delivery"); [done|].
  reflexivity.
Qed.

(** [execute] on a running orchestrator always returns a response; it
    leaves the orchestrator as it was, or, with a response that has
    [success = True], in the next phase.  It invokes registered agents only. *)
Lemma execute_running m :
  paused (orch m) = false →
  ∃ resp w ks,
    (∀ k, k ∈ ks → is_Some (agents (orch m) !! k)) ∧
    (OrchestratorAgent.execute m = (Ok resp, logged m w ks) ∨
     ∃ s, next_phase (workflow_state (orch m)) = Some s ∧ success resp = true ∧
          OrchestratorAgent.execute m =
            (Ok resp, {| orch := set_workflow_state s (orch m);
                         world := w; calls := calls m ++ ks |})).
Proof.
  intros Hp.
  destruct (next_phase (workflow_state (orch m))) as [s|] eqn:Hn.
  2:{ eexists _, (world m), []. split; [by intros k ?%elem_of_nil|]. left.
      rewrite logged_nil. by apply execute_no_phase. }
  assert (Hone : ∀ key, ∀ k, k ∈ [key] → is_Some (agents (orch m) !! key) →
                        is_Some (agents (orch m) !! k)).
  { by intros key k ->%list_elem_of_singleton. }
  unfold OrchestratorAgent.execute, try_except, execute_body, bind, read. cbn. rewrite Hp.
  unfold next_phase in Hn.
  destruct (String.eqb_spec (workflow_state (orch m)) "initializing") as [Hs|_].
  { injection Hn as <-. rewrite environment_setup_cases.
    destruct (agents (orch m) !! "env_agent").
    2:{ eexists _, (world m), []. split; [by intros k ?%elem_of_nil|]. left.
        by rewrite logged_nil. }
    destruct (agents (orch m) !! "env_001") as [agent|] eqn:Hk.
    2:{ eexists _, (world m), []. split; [by intros k ?%elem_of_nil|]. left.
        by rewrite logged_nil. }
    destruct (BaseAgent.execute agent (world m)) as [[result|e] w].
    2:{ eexists _, w, ["env_001"]. split; [intros k Hin; by eapply Hone|]. by left. }
    destruct (success result).
    - eexists _, w, ["env_001"]. split; [intros k Hin; by eapply Hone|]. right.
      eexists. split; [done|]. split; [|reflexivity]. reflexivity.
    - eexists _, w, ["env_001"]. split; [intros k Hin; by eapply Hone|]. by left. }
  destruct (String.eqb_spec (workflow_state (orch m)) "definition") as [Hs|_].
  { injection Hn as <-. rewrite definition_phase_cases.
    destruct (agents (orch m) !! "coord_001") as [agent|] eqn:Hk.
    2:{ eexists _, (world m), []. split; [by intros k ?%elem_of_nil|]. left.
        by rewrite logged_nil. }
    destruct (BaseAgent.execute agent (world m)) as [[result|e] w].
    2:{ eexists _, w, ["coord_001"]. split; [intros k Hin; by eapply Hone|]. by left. }
    destruct (success result && project_defined result).
    - eexists _, w, ["coord_001"]. split; [intros k Hin; by eapply Hone|]. right.
      eexists. split; [done|]. split; [|reflexivity]. reflexivity.
    - eexists _, w, ["coord_001"]. split; [intros k Hin; by eapply Hone|]. by left. }
  destruct (String.eqb_spec (workflow_state (orch m)) "development") as [Hs|_].
  { injection Hn as <-.
    destruct (development_phase_cases m) as (w & ks & Hks & [(r & -> & Hr)| ->]).
    - destruct r as [resp|e]; eexists _, w, ks; (split; [intros k Hin; by apply Hks|]); by left.
    - eexists _, w, ks. split; [intros k Hin; by apply Hks|]. right.
      eexists. split; [done|]. split; [|reflexivity]. reflexivity. }
  destruct (String.eqb_spec (workflow_state (orch m)) "delivery") as [Hs|_]; [|done].
  injection Hn as <-. rewrite delivery_phase_cases.
  destruct (agents (orch m) !! "repo_001") as [agent|] eqn:Hk.
  2:{ eexists _, (world m), []. split; [by intros k ?%elem_of_nil|]. left.
      by rewrite logged_nil. }
  destruct (BaseAgent.execute agent (world m)) as [[result|e] w].
  2:{ eexists _, w, ["repo_001"]. split; [intros k Hin; by eapply Hone|]. by left. }
  destruct (success result).
  - eexists _, w, ["repo_001"]. split; [intros k Hin; by eapply Hone|]. right.
    eexists. split; [done|]. split; [|reflexivity]. reflexivity.
  - eexists _, w, ["repo_001"]. split; [intros k Hin; by eapply Hone|]. by left.
Qed.

End Facts.
End ExecuteFrame.

(* ===================================================================== *)
(** * The orchestrator's state machine                                    *)
(* ===================================================================== *)

Module StateMachine.

Import OrchestratorAgent Workflow DevelopmentPhase ExecuteFrame.

Section Facts.
Context {S : Type}.
Implicit Types (m : Machine S) (o : Orchestrator S) (w : World S).

Lemma eq_str_true v s : eq_str v s = true ↔ v = PStr s.
Proof.
  destruct v; cbn; try (split; [discriminate|congruence]).
  rewrite String.eqb_eq. split; congruence.
Qed.

Lemma phase_rank_lookup s i : phase_rank s = Some i ↔ phases !! i = Some s.
Proof.
  unfold phase_rank, phases. split.
  - destruct (String.eqb_spec s "initializing") as [->|]; [by intros [= <-]|].
    destruct (String.eqb_spec s "definition") as [->|]; [by intros [= <-]|].
    destruct (String.eqb_spec s "development") as [->|]; [by intros [= <-]|].
    destruct (String.eqb_spec s "delivery") as [->|]; [by intros [= <-]|].
    destruct (String.eqb_spec s "completed") as [->|]; [by intros [= <-]|done].
  - do 5 (destruct i as [|i]; [by intros [= <-]|]). done.
Qed.

Lemma next_phase_rank s s' :
  next_phase s = Some s' →
  ∃ i, phase_rank s = Some i ∧ phase_rank s' = Some (Datatypes.S i).
Proof.
  unfold next_phase, phase_rank.
  destruct (String.eqb s "initializing"); [intros [= <-]; by eexists|].
  destruct (String.eqb s "definition"); [intros [= <-]; by eexists|].
  destruct (String.eqb s "development"); [intros [= <-]; by eexists|].
  destruct (String.eqb s "delivery"); [intros [= <-]; by eexists|].
  discriminate.
Qed.

(** One call of [execute] keeps [workflow_state] or moves it to the next
    phase, and never touches the registry. *)
Lemma execute_state m :
  let m' := (OrchestratorAgent.execute m).2 in
  agents (orch m') = agents (orch m) ∧
  (workflow_state (orch m') = workflow_state (orch m) ∨
   next_phase (workflow_state (orch m)) = Some (workflow_state (orch m'))).
Proof.
  destruct (paused (orch m)) eqn:Hp.
  - rewrite (execute_paused _ Hp). destruct (eq_str _ _); cbn; by split; [|left].
  - destruct (execute_running _ Hp) as (resp & w & ks & _ & [->|(s & Hn & _ & ->)]); cbn.
    + by split; [|left].
    + by split; [|right].
Qed.

Lemma reachable_rank m : reachable m → is_Some (phase_rank (workflow_state (orch m))).
Proof.
  induction 1 as [w|m w _ IH|m _ IH|m agent _ IH|m reason _ IH|m _ IH|m model _ IH]; try done.
  - destruct (execute_state m) as [_ [->|Hn]]; [done|].
    destruct (next_phase_rank _ _ Hn) as (i & _ & ->). done.
Qed.

(** The setup phase tests the registry for the key ["env_agent"], not for
    the key ["env_001"] it then reads: an orchestrator whose agents are
    registered under their own ids only does not leave the first state. *)
Lemma setup_tests_key_env_agent m :
  paused (orch m) = false →
  workflow_state (orch m) = "initializing" →
  agents (orch m) !! "env_agent" = None →
  OrchestratorAgent.execute m =
    (Ok (BaseAgent.create_response self_id (now (world m)) false
           "Environment agent not registered" None), m).
Proof.
  intros Hp Hs Hk.
  assert (Hrun : OrchestratorAgent.execute m =
    try_except _execute_environment_setup
      (λ e, create_response false ("Workflow execution failed: " +:+ e) None) m).
  { unfold OrchestratorAgent.execute, try_except, execute_body, bind, read.
    cbn. by rewrite Hp, Hs. }
  rewrite Hrun. unfold try_except. by rewrite environment_setup_cases, Hk.
Qed.

(** C5.  From any state a caller can bring the orchestrator to, one call
    of [execute] leaves the phase where it is in the order initializing,
    definition, development, delivery, completed, or moves it to the very
    next one: no phase is skipped and none is gone back to; the other entry
    points do not change the phase.  In the state completed a call of
    [execute] invokes no agent, changes neither the world nor the phase,
    and, when the orchestrator is not paused, changes nothing at all and is
    answered with [success = False]. *)
Theorem phases_follow_fixed_order m :
  reachable m →
  let outcome := OrchestratorAgent.execute m in
  (∃ i j, phase_rank (workflow_state (orch m)) = Some i ∧
          phase_rank (workflow_state (orch outcome.2)) = Some j ∧
          (j = i ∨ j = Datatypes.S i)) ∧
  (∀ agent reason model,
     workflow_state (orch (register_agent agent m).2) = workflow_state (orch m) ∧
     workflow_state (orch (pause_workflow reason m).2) = workflow_state (orch m) ∧
     workflow_state (orch (resume_workflow m).2) = workflow_state (orch m) ∧
     workflow_state (orch (handle_model_unavailable model m).2) = workflow_state (orch m)) ∧
  (workflow_state (orch m) = "completed" →
     workflow_state (orch outcome.2) = "completed" ∧
     world outcome.2 = world m ∧ calls outcome.2 = calls m ∧
     (paused (orch m) = false →
        outcome.2 = m ∧ ∃ resp, outcome.1 = Ok resp ∧ success resp = false ∧
          message resp = "Unknown workflow state: completed")).
Proof.
  intros Hreach outcome. split; [|split; [done|]].
  - destruct (reachable_rank _ Hreach) as [i Hi].
    destruct (execute_state m) as [_ [Heq|Hn]]; fold outcome in Heq || fold outcome in Hn.
    + exists i, i. rewrite Heq. auto.
    + destruct (next_phase_rank _ _ Hn) as (i' & Hi' & Hj). exists i', (Datatypes.S i'). auto.
  - intros Hs. unfold outcome. destruct (paused (orch m)) eqn:Hp.
    + rewrite (execute_paused _ Hp). destruct (eq_str _ _); cbn; by repeat split.
    + rewrite execute_no_phase by (done || by rewrite Hs). cbn. rewrite Hs.
      split; [done|]. split; [done|]. split; [done|]. intros _. split; [done|].
      eexists. by repeat split.
Qed.

(** C2, as the code has it.  While the orchestrator is paused, the input
    that is exactly the string ["Try again"] clears the pause (flag and
    reason) and is answered with [success = True]; every other input,
    whatever its case, is answered with [success = False], the stored reason
    standing unchanged in the message and under ["reason"] in the data, and
    leaves the orchestrator, paused, as it was. *)
Theorem pause_cleared_by_exact_phrase_only m :
  paused (orch m) = true →
  let input := from_option id PNone (dict_lookup "user_input" (context (world m))) in
  let outcome := OrchestratorAgent.execute m in
  (input = PStr "Try again" →
     paused (orch outcome.2) = false ∧ pause_reason (orch outcome.2) = None ∧
     ∃ resp, outcome.1 = Ok resp ∧ success resp = true) ∧
  (input ≠ PStr "Try again" →
     outcome.2 = m ∧
     ∃ resp, outcome.1 = Ok resp ∧ success resp = false ∧
       message resp = "⏸️ Workflow paused: " +:+ reason_text (pause_reason (orch m))
                        +:+ ". Type 'Try again' to resume." ∧
       dict_lookup "reason" (data resp) = Some (reason_value (pause_reason (orch m))) ∧
       dict_lookup "paused" (data resp) = Some (PBool true)).
Proof.
  intros Hp input outcome. unfold outcome. rewrite (execute_paused _ Hp). fold input.
  split; intros Hin.
  - apply eq_str_true in Hin. rewrite Hin. cbn. repeat split. by eexists.
  - destruct (eq_str input "Try again") eqn:He; [by apply eq_str_true in He|].
    cbn. split; [done|]. eexists. by repeat split.
Qed.

(** A failing step is answered with [success = False], and nothing is
    invoked after it. *)
Lemma failing_step_answer m key agent w1 ks answer w2 :
  paused (orch m) = false →
  reaches m key w1 ks →
  agents (orch m) !! key = Some agent →
  BaseAgent.execute agent w1 = (answer, w2) →
  failed answer →
  ∃ resp, OrchestratorAgent.execute m = (Ok resp, logged m w2 (ks ++ [key])) ∧
          success resp = false.
Proof.
  intros Hp Hreach Hk Hrun Hfail.
  destruct Hreach as [Hs [sentinel Hsent]|Hs|pre step post w ks Hs Hsplit Hall|Hs].
  - assert (Hexec : OrchestratorAgent.execute m =
      try_except _execute_environment_setup
        (λ e, create_response false ("Workflow execution failed: " +:+ e) None) m).
    { unfold OrchestratorAgent.execute, try_except, execute_body, bind, read.
      cbn. by rewrite Hp, Hs. }
    rewrite Hexec. unfold try_except. rewrite environment_setup_cases, Hsent, Hk, Hrun.
    destruct answer as [result|e]; cbn in Hfail |- *.
    + rewrite Hfail. by eexists.
    + by eexists.
  - rewrite (execute_definition _ Hp Hs). unfold try_except.
    rewrite definition_phase_cases, Hk, Hrun.
    destruct answer as [result|e]; cbn in Hfail |- *.
    + rewrite Hfail. cbn. by eexists.
    + by eexists.
  - rewrite (execute_development _ Hp Hs).
    unfold try_except, _execute_development_phase, bind.
    rewrite Hsplit, (dev_loop_all_succeed _ _ _ _ _ Hall).
    destruct answer as [result|e]; cbn in Hfail.
    + rewrite (dev_loop_failure _ _ _ agent result w2); [|done..].
      cbn. rewrite logged_logged. by eexists.
    + rewrite (dev_loop_raise _ _ _ agent e w2); [|done..].
      cbn. rewrite logged_logged. by eexists.
  - assert (Hexec : OrchestratorAgent.execute m =
      try_except _execute_delivery_phase
        (λ e, create_response false ("Workflow execution failed: " +:+ e) None) m).
    { unfold OrchestratorAgent.execute, try_except, execute_body, bind, read.
      cbn. by rewrite Hp, Hs. }
    rewrite Hexec. unfold try_except. rewrite delivery_phase_cases, Hk, Hrun.
    destruct answer as [result|e]; cbn in Hfail |- *.
    + rewrite Hfail. by eexists.
    + by eexists.
Qed.

(** C3, as the code has it.  No failure of a step pauses the orchestrator:
    a call of [execute] on an orchestrator that is not paused, whatever its
    steps return or raise, leaves it not paused with the reason it had, and
    when the call is answered with [success = False] the orchestrator is
    unchanged (same phase).  A failure of a step is surfaced as such: when
    the agent the call comes to (the agent of the setup, of the definition
    or of the delivery phase, or a development step whose predecessors
    succeeded) returns [success = False] or raises, the call is answered
    with [success = False], no agent is invoked after it, and the
    orchestrator is as it was, in the same phase and not paused.  The pause
    is set by [pause_workflow] alone, which
    [handle_model_unavailable(model)] calls: the reason becomes
    ["Model {model} unavailable"], the phase stays, the answer has
    [success = False]. *)
Theorem failed_step_does_not_pause m :
  paused (orch m) = false →
  let outcome := OrchestratorAgent.execute m in
  (paused (orch outcome.2) = false ∧
   pause_reason (orch outcome.2) = pause_reason (orch m) ∧
   ∃ resp, outcome.1 = Ok resp ∧ (success resp = false → orch outcome.2 = orch m)) ∧
  (∀ key agent w1 ks answer w2,
     reaches m key w1 ks →
     agents (orch m) !! key = Some agent →
     BaseAgent.execute agent w1 = (answer, w2) →
     failed answer →
     ∃ resp, outcome.1 = Ok resp ∧ success resp = false ∧
             outcome.2 = logged m w2 (ks ++ [key])) ∧
  (∀ model,
     let reported := handle_model_unavailable model m in
     paused (orch reported.2) = true ∧
     pause_reason (orch reported.2) = Some ("Model " +:+ model +:+ " unavailable") ∧
     workflow_state (orch reported.2) = workflow_state (orch m) ∧
     ∃ resp, reported.1 = Ok resp ∧ success resp = false).
Proof.
  intros Hp outcome. split; [|split].
  - unfold outcome.
    destruct (execute_running _ Hp) as (resp & w & ks & _ & [->|(s & Hn & Hok & ->)]); cbn.
    + repeat split; try done. by eexists.
    + repeat split; try done. eexists. split; [done|]. congruence.
  - intros key agent w1 ks answer w2 Hreach Hk Hrun Hfail. unfold outcome.
    destruct (failing_step_answer _ _ _ _ _ _ _ Hp Hreach Hk Hrun Hfail) as (resp & -> & Hno).
    by exists resp.
  - intros model. cbn. repeat split. by eexists.
Qed.

(** C4.  In the definition phase, a coordinator outcome with
    [success = True] whose data does not assert ["project_defined"] leaves
    the orchestrator in the definition state (the outcome is handed back as
    it is); the state becomes development exactly when the registered
    coordinator returns an outcome that has [success = True] and asserts
    the flag; in every other case the state is still definition. *)
Theorem definition_needs_confirmation m :
  paused (orch m) = false →
  workflow_state (orch m) = "definition" →
  let outcome := OrchestratorAgent.execute m in
  (∀ coordinator result w,
     agents (orch m) !! "coord_001" = Some coordinator →
     BaseAgent.execute coordinator (world m) = (Ok result, w) →
     success result = true → project_defined result = false →
     workflow_state (orch outcome.2) = "definition" ∧ outcome.1 = Ok result) ∧
  (workflow_state (orch outcome.2) = "development" ↔
     ∃ coordinator result w,
       agents (orch m) !! "coord_001" = Some coordinator ∧
       BaseAgent.execute coordinator (world m) = (Ok result, w) ∧
       success result = true ∧ project_defined result = true) ∧
  (workflow_state (orch outcome.2) = "development" ∨
   workflow_state (orch outcome.2) = "definition").
Proof.
  intros Hp Hs outcome.
  unfold outcome. rewrite (execute_definition _ Hp Hs).
  unfold try_except. rewrite definition_phase_cases. clear outcome.
  destruct (agents (orch m) !! "coord_001") as [agent|] eqn:Hk; cbn.
  2:{ rewrite Hs. split; [done|]. split; [|by right].
      split; [done|]. by intros (? & ? & ? & ? & _). }
  destruct (BaseAgent.execute agent (world m)) as [[result|e] w] eqn:Hrun; cbn.
  2:{ rewrite Hs. split; [|split; [split; [done|]|by right]].
      - intros c r w0 [= <-] Hr. congruence.
      - intros (c & r & w0 & [= <-] & Hr & _). congruence. }
  destruct (success result) eqn:Hok; cbn.
  2:{ rewrite Hs. split; [|split; [split; [done|]|by right]].
      - intros c r w0 [= <-] Hr. rewrite Hrun in Hr. injection Hr as <- <-. congruence.
      - intros (c & r & w0 & [= <-] & Hr & ? & _).
        rewrite Hrun in Hr. injection Hr as <- <-. congruence. }
  destruct (project_defined result) eqn:Hpd; cbn.
  - split; [|split; [split; [|done]|by left]].
    + intros c r w0 [= <-] Hr. rewrite Hrun in Hr. injection Hr as <- <-. congruence.
    + intros _. by exists agent, result, w.
  - rewrite Hs. split; [|split; [split; [done|]|by right]].
    + intros c r w0 [= <-] Hr. rewrite Hrun in Hr. injection Hr as <- <-. done.
    + intros (c & r & w0 & [= <-] & Hr & _ & ?).
      rewrite Hrun in Hr. injection Hr as <- <-. congruence.
Qed.

(** C8, as the code has it.  [register_agent] never fails and has no seal:
    in every state of the orchestrator, before or after calls of [execute],
    it stores the agent under its [agent_id], replacing the agent that was
    there, and changes nothing else.  [execute] itself never changes the
    registry. *)
Theorem register_agent_always_stores m agent :
  register_agent agent m =
    (Ok tt, {| orch := set_agents (<[agent_id agent := agent]> (agents (orch m))) (orch m);
               world := world m; calls := calls m |}) ∧
  agents (orch (register_agent agent m).2) !! agent_id agent = Some agent ∧
  (∀ key, key ≠ agent_id agent →
     agents (orch (register_agent agent m).2) !! key = agents (orch m) !! key) ∧
  agents (orch (OrchestratorAgent.execute m).2) = agents (orch m).
Proof.
  split; [done|]. cbn. split; [by rewrite lookup_insert_eq|].
  split; [intros key Hne; by rewrite lookup_insert_ne|].
  apply execute_state.
Qed.

(** A step without an agent is passed over: the loop behaves as if the
    step were not in the list. *)
Lemma dev_loop_without pre step post m :
  agents (orch m) !! step_key step = None →
  dev_loop (pre ++ step :: post) m = dev_loop (pre ++ post) m.
Proof.
  revert m. induction pre as [|first pre IH]; intros m Hk; cbn [app].
  - by apply dev_loop_absent.
  - destruct (agents (orch m) !! step_key first) as [agent|] eqn:Hfirst.
    + destruct (BaseAgent.execute agent (world m)) as [[result|e] w] eqn:Hrun.
      * destruct (success result) eqn:Hok.
        -- rewrite !(dev_loop_success _ _ _ _ _ _ Hfirst Hrun Hok). by apply IH.
        -- by rewrite !(dev_loop_failure _ _ _ _ _ _ Hfirst Hrun Hok).
      * by rewrite !(dev_loop_raise _ _ _ _ _ _ Hfirst Hrun).
    + rewrite !(dev_loop_absent _ _ _ Hfirst). by apply IH.
Qed.

(** C9.  A development step whose key has no agent in the registry is
    never invoked and causes no error: the call invokes registered agents
    only, and when every registered step succeeds the phase is answered
    with [success = True] and the state becomes delivery, the step never
    having run. *)
Theorem unregistered_step_is_skipped m key :
  paused (orch m) = false →
  workflow_state (orch m) = "development" →
  key ∈ map step_key dev_steps →
  agents (orch m) !! key = None →
  let outcome := OrchestratorAgent.execute m in
  (∃ ks, calls outcome.2 = calls m ++ ks ∧ key ∉ ks) ∧
  (∀ w ks, all_succeed (agents (orch m)) dev_steps (world m) w ks →
     (key ∉ ks) ∧
     outcome =
       (Ok (BaseAgent.create_response self_id (now w) true
              "🧠 Development phase completed. Moving to delivery phase."
              (Some [("next_phase", PStr "delivery")])),
        {| orch := set_workflow_state "delivery" (orch m);
           world := w; calls := calls m ++ ks |})).
Proof.
  intros Hp Hs _ Hk outcome. split.
  - unfold outcome.
    destruct (execute_running _ Hp) as (resp & w & ks & Hks & [->|(s & _ & _ & ->)]);
      cbn; exists ks; (split; [done|]); intros Hin; apply Hks in Hin;
      rewrite Hk in Hin; by destruct Hin.
  - intros w ks Hall. split.
    + rewrite (all_succeed_keys _ _ _ _ _ Hall). unfold registered_keys.
      intros [_ Hin]%list_elem_of_In%filter_In. by rewrite Hk in Hin.
    + unfold outcome. rewrite (execute_development _ Hp Hs).
      unfold try_except, _execute_development_phase, bind.
      rewrite <- (app_nil_r dev_steps), (dev_loop_all_succeed _ _ _ _ _ Hall).
      reflexivity.
Qed.

End Facts.

(** ** The statements on concrete orchestrators *)

Import Examples.

Lemma development_stops_at_first_failure_witness :
  OrchestratorAgent.execute failing_development =
    (Ok (BaseAgent.create_response "orch_001" "t" false
           "Development step failed: Core Logic Agent - boom" None),
     logged failing_development (world0 []) ["arch_001"; "core_001"]).
Proof.
  refine (proj1 (development_stops_at_first_failure failing_development
    [("arch_001", "Architect Agent", "Designing system architecture")]
    ("core_001", "Core Logic Agent", "Writing Python code")
    (drop 2 dev_steps) (failing "core_001" "boom")
    (BaseAgent.create_response "core_001" "t" false "boom" None)
    (world0 []) (world0 []) ["arch_001"] _ _ _ _ _ _ _));
    try (vm_compute; reflexivity).
  apply (succeed_step _ ("arch_001", "Architect Agent", "Designing system architecture") []
           (succeeding "arch_001") (BaseAgent.create_response "arch_001" "t" true "done" None)
           (world0 []) (world0 []) (world0 []) []);
    try (vm_compute; reflexivity).
  apply succeed_nil.
Defined.

Lemma phases_follow_fixed_order_witness :
  workflow_state (orch (executed 4 all_registered)) = "completed" ∧
  (OrchestratorAgent.execute (executed 4 all_registered)).2 = executed 4 all_registered.
Proof.
  assert (Hreach : reachable (executed 4 all_registered)).
  { do 4 apply (reach_execute (S := unit)).
    unfold all_registered, registering. cbn [fold_left].
    do 12 apply (reach_register (S := unit)). apply reach_init. }
  assert (Hs : workflow_state (orch (executed 4 all_registered)) = "completed")
    by (vm_compute; reflexivity).
  assert (Hp : paused (orch (executed 4 all_registered)) = false)
    by (vm_compute; reflexivity).
  split; [exact Hs|].
  apply (proj2 (proj2 (phases_follow_fixed_order _ Hreach)) Hs), Hp.
Defined.

Lemma pause_cleared_by_exact_phrase_only_witness :
  paused (orch (OrchestratorAgent.execute (paused_with "Try again")).2) = false ∧
  (OrchestratorAgent.execute (paused_with "resume please")).2 = paused_with "resume please".
Proof.
  split.
  - apply (proj1 (pause_cleared_by_exact_phrase_only (paused_with "Try again") eq_refl)).
    vm_compute. reflexivity.
  - apply (proj2 (pause_cleared_by_exact_phrase_only (paused_with "resume please") eq_refl)).
    vm_compute. discriminate.
Defined.

(** C2 as stated fails: the lower-case spelling of the phrase is equal to
    it when case is ignored, yet it is rejected and the pause stays. *)
Lemma pause_phrase_is_case_sensitive :
  lower "try again" = lower "Try again" ∧
  paused (orch (paused_with "try again")) = true ∧
  OrchestratorAgent.execute (paused_with "try again") =
    (Ok (BaseAgent.create_response "orch_001" "t" false
           ("⏸️ Workflow paused: Model gpt-4o-mini unavailable. " +:+
            "Type 'Try again' to resume.")
           (Some [("paused", PBool true);
                  ("reason", PStr "Model gpt-4o-mini unavailable")])),
     paused_with "try again") ∧
  paused (orch (OrchestratorAgent.execute (paused_with "try again")).2) = true.
Proof. repeat split; vm_compute; reflexivity. Qed.

Lemma failed_step_does_not_pause_witness :
  paused (orch (OrchestratorAgent.execute model_down).2) = false ∧
  (∃ resp, (OrchestratorAgent.execute model_down).1 = Ok resp ∧ success resp = false ∧
           (OrchestratorAgent.execute model_down).2 =
             logged model_down (world0 []) ["arch_001"]) ∧
  paused (orch (handle_model_unavailable "gpt-4o-mini" model_down).2) = true.
Proof.
  split; [|split].
  - apply (proj1 (failed_step_does_not_pause model_down eq_refl)).
  - refine (proj1 (proj2 (failed_step_does_not_pause model_down eq_refl))
              "arch_001" (failing "arch_001" (llm_unavailable "gpt-4o-mini")) (world0 []) []
              (Ok (BaseAgent.create_response "arch_001" "t" false
                     (llm_unavailable "gpt-4o-mini") None)) (world0 []) _ _ _ _);
      try (vm_compute; reflexivity).
    apply (reaches_development model_down []
             ("arch_001", "Architect Agent", "Designing system architecture")
             (drop 1 dev_steps) (world0 []) []);
      [vm_compute; reflexivity|reflexivity|apply succeed_nil].
  - apply (proj2 (proj2 (failed_step_does_not_pause model_down eq_refl)) "gpt-4o-mini").
Defined.

(** C3 as stated fails: the architect fails because the model service is
    unavailable, in the words [call_llm] uses for it; the call is answered
    with a failure and the orchestrator is not paused, no reason stored. *)
Lemma unavailable_model_does_not_pause :
  OrchestratorAgent.execute model_down =
    (Ok (BaseAgent.create_response "orch_001" "t" false
           ("Development step failed: Architect Agent - " +:+
            "Model gpt-4o-mini unavailable. Please try again later.") None),
     logged model_down (world0 []) ["arch_001"]) ∧
  paused (orch (OrchestratorAgent.execute model_down).2) = false ∧
  pause_reason (orch (OrchestratorAgent.execute model_down).2) = None ∧
  workflow_state (orch (OrchestratorAgent.execute model_down).2) = "development".
Proof. repeat split; vm_compute; reflexivity. Qed.

Lemma definition_needs_confirmation_witness :
  workflow_state (orch (OrchestratorAgent.execute
                          (defining [("conversation_updated", PBool true)])).2) = "definition" ∧
  workflow_state (orch (OrchestratorAgent.execute
                          (defining [("project_defined", PBool true)])).2) = "development".
Proof.
  split.
  - refine (proj1 (proj1 (definition_needs_confirmation
      (defining [("conversation_updated", PBool true)]) eq_refl eq_refl)
      (answering "coord_001" [("conversation_updated", PBool true)])
      (BaseAgent.create_response "coord_001" "t" true "done"
         (Some [("conversation_updated", PBool true)])) (world0 []) _ _ _ _));
      vm_compute; reflexivity.
  - apply (proj1 (proj2 (definition_needs_confirmation
      (defining [("project_defined", PBool true)]) eq_refl eq_refl))).
    exists (answering "coord_001" [("project_defined", PBool true)]),
      (BaseAgent.create_response "coord_001" "t" true "done"
         (Some [("project_defined", PBool true)])), (world0 []).
    repeat split; vm_compute; reflexivity.
Defined.

(** C8 as stated fails: registering under an occupied key succeeds and
    replaces the agent, and registering after [execute] has run succeeds
    as well; no error is raised in either case. *)
Lemma register_agent_overwrites_and_stays_open :
  agents (orch architect_only) !! "arch_001" = Some (succeeding "arch_001") ∧
  (register_agent (failing "arch_001" "replaced") architect_only).1 = Ok tt ∧
  agents (orch (register_agent (failing "arch_001" "replaced") architect_only).2)
    !! "arch_001" = Some (failing "arch_001" "replaced") ∧
  calls (OrchestratorAgent.execute architect_only).2 = ["arch_001"] ∧
  (register_agent (succeeding "late_001") (OrchestratorAgent.execute architect_only).2).1
    = Ok tt ∧
  agents (orch (register_agent (succeeding "late_001")
                  (OrchestratorAgent.execute architect_only).2).2)
    !! "late_001" = Some (succeeding "late_001").
Proof. repeat split; vm_compute; reflexivity. Qed.

Lemma unregistered_step_is_skipped_witness :
  OrchestratorAgent.execute architect_only =
    (Ok (BaseAgent.create_response "orch_001" "t" true
           "🧠 Development phase completed. Moving to delivery phase."
           (Some [("next_phase", PStr "delivery")])),
     {| orch := set_workflow_state "delivery" (orch architect_only);
        world := world0 []; calls := ["arch_001"] |}).
Proof.
  assert (Hk : agents (orch architect_only) !! "core_001" = None)
    by (vm_compute; reflexivity).
  refine (proj2 (proj2 (unregistered_step_is_skipped architect_only "core_001"
    eq_refl eq_refl _ Hk) (world0 []) ["arch_001"] _)).
  - apply (bool_decide_unpack _). vm_compute. exact I.
  - apply (succeed_step _ ("arch_001", "Architect Agent", "Designing system architecture")
             (drop 1 dev_steps) (succeeding "arch_001")
             (BaseAgent.create_response "arch_001" "t" true "done" None)
             (world0 []) (world0 []) (world0 []) []);
      try (vm_compute; reflexivity).
    repeat (apply succeed_absent; [vm_compute; reflexivity|]). apply succeed_nil.
Defined.

End StateMachine.

(* ===================================================================== *)
(** * The final validation                                                *)
(* ===================================================================== *)

Module FinalValidation.

Import ValidatorAgent Validation.

(** ** Keywords and case *)

(** An ASCII character is lowered by itself, whatever follows it. *)
Lemma lower_ascii_head c s :
  (nat_of_ascii c <? 128)%nat = true → lower (String c s) = String (lower_ascii c) (lower s).
Proof.
  intros Hc%Nat.ltb_lt. cbn [lower]. destruct s as [|c2 s2]; [done|].
  assert (H1 : is_dotted_capital_i c c2 = false).
  { unfold is_dotted_capital_i. destruct (Nat.eqb_spec (nat_of_ascii c) 196); [lia|done]. }
  rewrite H1. destruct s2 as [|c3 s3]; [done|].
  assert (H2 : is_kelvin_sign c c2 c3 = false).
  { unfold is_kelvin_sign. destruct (Nat.eqb_spec (nat_of_ascii c) 226); [lia|done]. }
  by rewrite H2.
Qed.

Lemma prefix_lower needle hay :
  ascii_text needle = true →
  String.prefix needle hay = true → String.prefix (lower needle) (lower hay) = true.
Proof.
  revert hay. induction needle as [|a needle IH]; intros hay Ha; [intros _; by destruct (lower hay)|].
  cbn [ascii_text] in Ha. apply andb_true_iff in Ha as [Ha Hn].
  destruct hay as [|b hay]; [done|]. cbn [String.prefix].
  destruct (ascii_dec a b) as [<-|]; [|done]. intros H.
  rewrite !lower_ascii_head by done. cbn [String.prefix].
  destruct (ascii_dec (lower_ascii a) (lower_ascii a)); [by apply IH|done].
Qed.

Lemma contains_cons needle c hay :
  contains needle hay = true → contains needle (String c hay) = true.
Proof. intros H. cbn [contains]. rewrite H. apply orb_true_r. Qed.

(** A character outside ASCII does not begin an ASCII text. *)
Lemma prefix_not_ascii needle c hay :
  ascii_text needle = true → (nat_of_ascii c <? 128)%nat = false →
  String.prefix needle (String c hay) = true → needle = EmptyString.
Proof.
  destruct needle as [|a needle]; [done|]. cbn [ascii_text String.prefix].
  intros [Ha _]%andb_true_iff Hc. destruct (ascii_dec a c) as [->|]; [|done].
  by rewrite Ha in Hc.
Qed.

Lemma contains_no_text hay : contains EmptyString hay = true.
Proof. by destruct hay. Qed.

Lemma contains_lower_length n needle hay :
  (String.length hay ≤ n)%nat → ascii_text needle = true →
  contains needle hay = true → contains (lower needle) (lower hay) = true.
Proof.
  intros Hlen Hn. revert hay Hlen.
  induction n as [|n IH]; intros hay Hlen.
  { destruct hay; [|cbn in Hlen; lia]. cbn [contains]. rewrite orb_false_r.
    intros H. apply prefix_lower in H; [|done]. cbn [lower contains] in *. by rewrite H. }
  destruct hay as [|c1 s1].
  { cbn [contains]. rewrite orb_false_r.
    intros H. apply prefix_lower in H; [|done]. cbn [lower contains] in *. by rewrite H. }
  cbn [String.length] in Hlen. cbn [contains]. intros [H|H]%orb_true_iff.
  { apply prefix_lower in H; [|done].
    destruct (lower (String c1 s1)); cbn [contains]; by rewrite H. }
  assert (Hs1 : contains (lower needle) (lower s1) = true) by (apply IH; [lia|done]).
  cbn [lower]. destruct s1 as [|c2 s2]; [by apply contains_cons|].
  destruct (is_dotted_capital_i c1 c2) eqn:Hd.
  { apply contains_cons, contains_cons, contains_cons.
    cbn [contains] in H. apply orb_true_iff in H as [H|H].
    - apply prefix_not_ascii in H as ->; [apply contains_no_text|done|].
      unfold is_dotted_capital_i in Hd. apply andb_true_iff in Hd as [_ Hd%Nat.eqb_eq].
      by rewrite Hd.
    - apply IH; [cbn [String.length] in Hlen; lia|done]. }
  destruct s2 as [|c3 s3]; [by apply contains_cons|].
  destruct (is_kelvin_sign c1 c2 c3) eqn:Hk; [|by apply contains_cons].
  apply contains_cons.
  unfold is_kelvin_sign in Hk.
  apply andb_true_iff in Hk as [[_ H2%Nat.eqb_eq]%andb_true_iff H3%Nat.eqb_eq].
  cbn [contains] in H. apply orb_true_iff in H as [H|[H|H]%orb_true_iff].
  - apply prefix_not_ascii in H as ->; [apply contains_no_text|done|]. by rewrite H2.
  - apply prefix_not_ascii in H as ->; [apply contains_no_text|done|]. by rewrite H3.
  - apply IH; [cbn [String.length] in Hlen; lia|done].
Qed.

(** An ASCII text that a text contains is in the lowered text, lowered. *)
Lemma contains_lower needle hay :
  ascii_text needle = true →
  contains needle hay = true → contains (lower needle) (lower hay) = true.
Proof. apply (contains_lower_length (String.length hay)). lia. Qed.

(** Lowering goes through an ASCII text put in front. *)
Lemma lower_app_ascii front s :
  ascii_text front = true → lower (front +:+ s) = lower front +:+ lower s.
Proof.
  induction front as [|c front IH]; [done|]. cbn [ascii_text].
  intros [Hc Hfront]%andb_true_iff.
  change (String c front +:+ s) with (String c (front +:+ s)).
  rewrite !lower_ascii_head by done. cbn. by rewrite IH.
Qed.

Lemma is_critical_iff issue :
  is_critical issue = true ↔
  ∃ keyword, keyword ∈ critical_keywords ∧ contains keyword (lower issue) = true.
Proof.
  unfold is_critical. rewrite existsb_exists. split.
  - intros (k & Hin & Hk). exists k. by rewrite list_elem_of_In.
  - intros (k & Hin & Hk). exists k. by rewrite <- list_elem_of_In.
Qed.

(** An issue that contains a keyword as it is spelled is critical. *)
Lemma is_critical_literal keyword issue :
  keyword ∈ critical_keywords → contains keyword issue = true → is_critical issue = true.
Proof.
  intros Hin Hc. apply is_critical_iff. exists keyword. split; [done|].
  assert (Hk : ascii_text keyword = true ∧ lower keyword = keyword).
  { unfold critical_keywords in Hin.
    repeat (apply elem_of_cons in Hin as [->|Hin]; [by vm_compute|]).
    by apply elem_of_nil in Hin. }
  destruct Hk as [Ha Hl]. apply contains_lower in Hc; [|done]. by rewrite <- Hl.
Qed.

Section Facts.
Variable repr : pyval → string.

(** ** One criterion *)

Lemma len_is_zero_nil {A} (l : list A) : len_is_zero l = true ↔ l = [].
Proof. by destruct l. Qed.

(** Every check of the six passes exactly when it found no issue. *)
Lemma validate_criterion_passed criterion vr result :
  criterion ∈ validation_criteria →
  _validate_criterion repr criterion vr = Ok result →
  passed result = len_is_zero (issues result).
Proof.
  intros Hin. unfold validation_criteria in Hin.
  repeat (apply elem_of_cons in Hin as [->|Hin]); [..|by apply elem_of_nil in Hin];
    cbn [_validate_criterion String.eqb Ascii.eqb Bool.eqb];
    unfold _validate_code_quality, _validate_documentation, _validate_testing,
      _validate_security, _validate_ethics, _validate_functionality, rbind;
    repeat (match goal with
            | |- context [match ?x with _ => _ end] =>
                lazymatch x with
                | context [len_is_zero] => fail
                | _ => destruct x
                end
            end; try discriminate);
    by intros [= <-].
Qed.

Lemma record_criterion_approved criterion result validation :
  approved (record_criterion criterion result validation) = false ↔
  approved validation = false ∨ (passed result = false ∧ blocks result).
Proof.
  unfold record_criterion, blocks.
  destruct (passed result); cbn.
  { split; [by left|]. by intros [?|[? _]]. }
  destruct (issues result) as [|i is_] eqn:Hi; cbn [len_is_zero negb andb].
  { split; [by left|]. intros [?|[_ (? & []%elem_of_nil & _)]]. done. }
  destruct (List.filter is_critical (i :: is_)) as [|c cs] eqn:Hf; cbn.
  - split; [by left|]. intros [?|[_ (issue & Hin & Hc)]]; [done|].
    assert (In issue (List.filter is_critical (i :: is_))) as Hin'.
    { apply filter_In. by rewrite <- list_elem_of_In. }
    rewrite Hf in Hin'. destruct Hin'.
  - split; [|done]. intros _. right. split; [done|].
    assert (In c (List.filter is_critical (i :: is_))) as Hin' by (rewrite Hf; by left).
    apply filter_In in Hin' as [Hin' Hc]. exists c. by rewrite list_elem_of_In.
Qed.

(** ** The loop over the criteria *)

Lemma validation_loop_approved cs vr v0 v :
  validation_loop repr cs vr v0 = Ok v →
  approved v = false ↔
  approved v0 = false ∨
  ∃ criterion result, criterion ∈ cs ∧ _validate_criterion repr criterion vr = Ok result ∧
                      passed result = false ∧ blocks result.
Proof.
  revert v0. induction cs as [|c cs IH]; intros v0; cbn [validation_loop].
  - intros [= <-]. split; [by left|]. intros [?|(? & ? & []%elem_of_nil & _)]. done.
  - unfold rbind. destruct (_validate_criterion repr c vr) as [r|e] eqn:Hc; [|done].
    intros Hloop. rewrite (IH _ Hloop), record_criterion_approved. split.
    + intros [[?|[? ?]]|(c' & r' & Hin & ? & ? & ?)].
      * by left.
      * right. exists c, r. split; [left|done].
      * right. exists c', r'. split; [by right|done].
    + intros [?|(c' & r' & [->|Hin]%elem_of_cons & Hc' & ? & ?)].
      * by left; left.
      * rewrite Hc in Hc'. injection Hc' as <-. by left; right.
      * right. by exists c', r'.
Qed.

Lemma record_criterion_issues criterion result validation :
  Forall (λ i, is_critical i = true) (v_issues validation) →
  Forall (λ i, is_critical i = true) (v_issues (record_criterion criterion result validation)).
Proof.
  intros Hall. unfold record_criterion.
  destruct (negb (passed result) && negb (len_is_zero (issues result))); [|done].
  destruct (negb (len_is_zero (List.filter is_critical (issues result)))); [|done].
  cbn. apply Forall_app. split; [done|].
  apply Forall_forall. intros i Hin%list_elem_of_In%filter_In. tauto.
Qed.

Lemma validation_loop_issues cs vr v0 v :
  validation_loop repr cs vr v0 = Ok v →
  Forall (λ i, is_critical i = true) (v_issues v0) →
  Forall (λ i, is_critical i = true) (v_issues v).
Proof.
  revert v0. induction cs as [|c cs IH]; intros v0; cbn [validation_loop].
  - by intros [= <-].
  - unfold rbind. destruct (_validate_criterion repr c vr) as [r|e]; [|done].
    intros Hloop Hall. apply (IH _ Hloop). by apply record_criterion_issues.
Qed.

(** A criterion that did not pass hands its recommendations on. *)
Lemma record_criterion_recommendations criterion result validation :
  v_recommendations (record_criterion criterion result validation) =
    if negb (passed result) && negb (len_is_zero (issues result))
    then v_recommendations validation ++ from_option id [] (recommendations result)
    else v_recommendations validation.
Proof.
  unfold record_criterion.
  destruct (negb (passed result) && negb (len_is_zero (issues result))); [|done].
  by destruct (negb (len_is_zero (List.filter is_critical (issues result)))).
Qed.

Lemma validation_loop_recommendations cs vr v0 v :
  validation_loop repr cs vr v0 = Ok v →
  (∀ rec, rec ∈ v_recommendations v0 → rec ∈ v_recommendations v) ∧
  ∀ criterion result rec,
    criterion ∈ cs → criterion ∈ validation_criteria →
    _validate_criterion repr criterion vr = Ok result →
    passed result = false → rec ∈ from_option id [] (recommendations result) →
    rec ∈ v_recommendations v.
Proof.
  revert v0. induction cs as [|c cs IH]; intros v0; cbn [validation_loop].
  - intros [= <-]. split; [done|]. by intros ? ? ? []%elem_of_nil.
  - unfold rbind. destruct (_validate_criterion repr c vr) as [r|e] eqn:Hc; [|done].
    intros Hloop. destruct (IH _ Hloop) as [Hkeep Hadd]. split.
    + intros rec Hin. apply Hkeep. rewrite record_criterion_recommendations.
      destruct (_ && _); [|done]. apply elem_of_app. by left.
    + intros c' r' rec [->|Hin]%elem_of_cons Hcrit Hc' Hp Hrec; [|by eapply Hadd].
      rewrite Hc in Hc'. injection Hc' as <-.
      apply Hkeep. rewrite record_criterion_recommendations.
      pose proof (validate_criterion_passed _ _ _ Hcrit Hc) as Hlen.
      rewrite Hp in Hlen. rewrite Hp, <- Hlen. cbn. apply elem_of_app. by right.
Qed.

(** ** When the validation returns *)

Lemma code_quality_loop_returns its acc :
  forallb (λ kv, is_dict kv.2) its = true →
  ∃ issues, code_quality_loop repr its acc = Ok issues.
Proof.
  revert acc. induction its as [|[tool result] its IH]; intros acc; cbn.
  - by eexists.
  - intros [Hd Hrest]%andb_true_iff. destruct result; try done. cbn.
    destruct (negb (eq_str _ _)); by apply IH.
Qed.

Lemma overall_safe_loop_returns prefix its acc :
  forallb (λ kv, is_dict kv.2) its = true →
  ∃ issues, overall_safe_loop prefix its acc = Ok issues.
Proof.
  revert acc. induction its as [|[path result] its IH]; intros acc; cbn.
  - by eexists.
  - intros [Hd Hrest]%andb_true_iff. destruct result; try done. cbn.
    destruct (negb (truthy _)); by apply IH.
Qed.

(** On an input of the expected shape no check raises. *)
Lemma validate_criterion_returns criterion vr :
  well_shaped vr = true → ∃ result, _validate_criterion repr criterion vr = Ok result.
Proof.
  destruct vr as [| | | | |d]; try done. cbn [well_shaped].
  rewrite !andb_true_iff. unfold empty_or. intros ((((H1 & H2) & H3) & H4) & H5).
  unfold _validate_criterion.
  destruct (String.eqb criterion "code_quality").
  { unfold _validate_code_quality. cbn [get rbind].
    set (v := from_option id (PDict []) (dict_lookup "standards_results" d)) in *.
    destruct (truthy v); cbn [negb orb] in *; [|by eexists].
    destruct v; try done.
    cbn in H1 |- *. destruct (code_quality_loop_returns _ [] H1) as [issues ->]. by eexists. }
  destruct (String.eqb criterion "documentation").
  { unfold _validate_documentation. cbn [get rbind].
    set (v := from_option id (PDict []) (dict_lookup "documentation_results" d)) in *.
    destruct (truthy v); cbn [negb orb] in *; [|by eexists].
    destruct v; try done.
    cbn. by eexists. }
  destruct (String.eqb criterion "testing").
  { unfold _validate_testing. cbn [get rbind].
    set (v := from_option id (PDict []) (dict_lookup "test_results" d)) in *.
    destruct (truthy v); cbn [negb orb] in *; [|by eexists].
    destruct v as [| | | | |td];
      try done.
    cbn in H3 |- *.
    destruct (from_option id (PDict []) (dict_lookup "unit_tests" td)); try done.
    cbn. by eexists. }
  destruct (String.eqb criterion "security").
  { unfold _validate_security. cbn [get rbind].
    set (v := from_option id (PDict []) (dict_lookup "security_results" d)) in *.
    destruct (truthy v); cbn [negb orb] in *; [|by eexists].
    destruct v; try done.
    cbn in H4 |- *. destruct (overall_safe_loop_returns "Security issues in " _ [] H4)
      as [issues ->]. by eexists. }
  destruct (String.eqb criterion "ethics").
  { unfold _validate_ethics. cbn [get rbind].
    set (v := from_option id (PDict []) (dict_lookup "ethics_results" d)) in *.
    destruct (truthy v); cbn [negb orb] in *; [|by eexists].
    destruct v; try done.
    cbn in H5 |- *. destruct (overall_safe_loop_returns "Ethical issues in " _ [] H5)
      as [issues ->]. by eexists. }
  destruct (String.eqb criterion "functionality"); by eexists.
Qed.

Lemma validation_loop_returns cs vr v0 :
  well_shaped vr = true → ∃ v, validation_loop repr cs vr v0 = Ok v.
Proof.
  intros Hshape. revert v0. induction cs as [|c cs IH]; intros v0; cbn [validation_loop].
  - by eexists.
  - destruct (validate_criterion_returns c vr Hshape) as [r ->]. cbn. apply IH.
Qed.

Lemma perform_final_validation_returns vr :
  well_shaped vr = true → ∃ v, _perform_final_validation repr vr = Ok v.
Proof. apply validation_loop_returns. Qed.

(** C6.  On validation results of the expected shape the final
    validation returns, and whenever it returns, its [approved] flag is false
    exactly when the result of one of the six criteria lists an issue whose
    lower-cased text contains one of the six critical keywords.  The text
    "3 minor style warnings" is not critical, and every text that contains
    "syntax error" is.  The issues the validation lists as blocking are
    critical ones only, and the recommendations of every criterion that did
    not pass are among the recommendations of the validation, whether or not
    the approval is withheld. *)
Theorem approval_withheld_for_critical_issues_only vr :
  (well_shaped vr = true → ∃ v, _perform_final_validation repr vr = Ok v) ∧
  is_critical "3 minor style warnings" = false ∧
  (∀ issue, contains "syntax error" issue = true → is_critical issue = true) ∧
  ∀ v,
    _perform_final_validation repr vr = Ok v →
    (approved v = false ↔
       ∃ criterion result issue,
         criterion ∈ validation_criteria ∧
         _validate_criterion repr criterion vr = Ok result ∧
         issue ∈ issues result ∧
         ∃ keyword, keyword ∈ critical_keywords ∧ contains keyword (lower issue) = true) ∧
    (∀ issue, issue ∈ v_issues v → is_critical issue = true) ∧
    (∀ criterion result rec,
       criterion ∈ validation_criteria →
       _validate_criterion repr criterion vr = Ok result →
       passed result = false → rec ∈ from_option id [] (recommendations result) →
       rec ∈ v_recommendations v).
Proof.
  split; [apply perform_final_validation_returns|]. split; [done|]. split.
  { intros issue Hc. apply (is_critical_literal "syntax error"); [|done].
    unfold critical_keywords. left. }
  intros v Hv. unfold _perform_final_validation in Hv. repeat split.
  - intros Ha. apply (validation_loop_approved _ _ _ _ Hv) in Ha as [Ha|Ha]; [done|].
    destruct Ha as (c & r & Hin & Hc & _ & i & Hi & Hcrit).
    exists c, r, i. repeat split; try done. by apply is_critical_iff.
  - intros (c & r & i & Hin & Hc & Hi & Hk).
    apply (validation_loop_approved _ _ _ _ Hv). right. exists c, r.
    repeat split; try done.
    + rewrite (validate_criterion_passed _ _ _ Hin Hc). destruct (issues r); [|done].
      by apply elem_of_nil in Hi.
    + exists i. split; [done|]. by apply is_critical_iff.
  - intros issue Hin.
    pose proof (validation_loop_issues _ _ _ _ Hv (List.Forall_nil _)) as Hall.
    rewrite Forall_forall in Hall. by apply Hall.
  - intros c r rec Hin Hc Hp Hrec.
    by apply (proj2 (validation_loop_recommendations _ _ _ _ Hv) c r rec).
Qed.

(** ** No data *)

Lemma no_data_section d key :
  no_data (PDict d) = true → key ∈ result_keys →
  truthy (from_option id (PDict []) (dict_lookup key d)) = false.
Proof.
  cbn [no_data]. rewrite forallb_forall. intros Hall Hin.
  apply list_elem_of_In, Hall, negb_true_iff in Hin. done.
Qed.

(** C7, as the code has it.  When no data is recorded for any criterion,
    each of the six criteria is recorded with [passed = True] and no issue;
    the five criteria that read data carry one advisory recommendation
    each, the criterion functionality carries none; the validation is
    approved, with no blocking issue and no recommendation of its own, and
    the validator answers [success = True]. *)
Theorem no_data_passes_every_criterion vr :
  no_data vr = true →
  _perform_final_validation repr vr = Ok permissive_default ∧
  (∀ criterion result,
     (criterion, result) ∈ criteria permissive_default →
     passed result = true ∧ issues result = [] ∧
     (criterion ≠ "functionality" → ∃ advice, recommendations result = Some [advice]) ∧
     (criterion = "functionality" → recommendations result = Some [])) ∧
  map fst (criteria permissive_default) = validation_criteria ∧
  approved permissive_default = true ∧
  ∀ time context,
    from_option id (PDict []) (dict_lookup "validation_results" context) = vr →
    success (ValidatorAgent.execute repr time context) = true ∧
    message (ValidatorAgent.execute repr time context) =
      "SUCCESS: Project approved for delivery".
Proof.
  intros Hno.
  assert (Hrun : _perform_final_validation repr vr = Ok permissive_default).
  { destruct vr as [| | | | |d]; try done.
    assert (Hkey : ∀ key, key ∈ result_keys →
              truthy (from_option id (PDict []) (dict_lookup key d)) = false)
      by (intros; by apply no_data_section).
    unfold _perform_final_validation, validation_criteria.
    cbn [validation_loop _validate_criterion String.eqb Ascii.eqb Bool.eqb].
    unfold _validate_code_quality, _validate_documentation, _validate_testing,
      _validate_security, _validate_ethics, _validate_functionality.
    cbn [get rbind].
    rewrite !Hkey by (unfold result_keys; repeat constructor).
    reflexivity. }
  split; [done|]. split; [|split; [done|split; [done|]]].
  - intros c r Hin. unfold permissive_default in Hin. cbn [criteria] in Hin.
    repeat (apply elem_of_cons in Hin as [[= -> ->]|Hin];
            [cbn; repeat split; try done; by eexists|]).
    by apply elem_of_nil in Hin.
  - intros time context Hctx. unfold ValidatorAgent.execute.
    rewrite Hctx, Hrun. done.
Qed.

End Facts.

Import ValidationExamples.

Lemma approval_withheld_for_critical_issues_only_witness :
  (∃ v, _perform_final_validation no_repr style_warnings = Ok v ∧ approved v = true) ∧
  (∃ v, _perform_final_validation no_repr syntax_error = Ok v ∧ approved v = false).
Proof.
  destruct (approval_withheld_for_critical_issues_only no_repr style_warnings)
    as (Hret1 & _ & _ & Hall1).
  destruct (approval_withheld_for_critical_issues_only no_repr syntax_error)
    as (Hret2 & _ & _ & Hall2).
  destruct (Hret1 eq_refl) as [v1 H1]. destruct (Hret2 eq_refl) as [v2 H2].
  destruct (Hall1 _ H1) as [Hiff1 _]. destruct (Hall2 _ H2) as [Hiff2 _].
  split.
  - exists v1. split; [done|]. destruct (approved v1) eqn:Ha; [done|].
    vm_compute in H1. injection H1 as <-. discriminate Ha.
  - exists v2. split; [done|]. apply Hiff2.
    exists "code_quality", {| passed := false; issues := ["flake8: syntax error in module X"];
                              recommendations := Some ["Run code quality tools and fix issues"] |},
      "flake8: syntax error in module X".
    split; [left|]. split; [vm_compute; reflexivity|]. split; [left|].
    exists "syntax error". split; [left|vm_compute; reflexivity].
Defined.

(** Text outside ASCII.  [str.lower()] turns the Kelvin sign into [k]: an
    issue that spells BROKEN with it is critical, and the approval is
    withheld. *)
Example kelvin_sign_withholds_approval :
  lower ("BRO" +:+ kelvin_sign +:+ "EN") = "broken" ∧
  is_critical ("flake8: build is BRO" +:+ kelvin_sign +:+ "EN") = true ∧
  match _perform_final_validation no_repr kelvin_broken with
  | Ok v => approved v = false
  | Raise _ => False
  end.
Proof. repeat split; vm_compute; reflexivity. Qed.

Lemma no_data_passes_every_criterion_witness :
  _perform_final_validation no_repr (PDict []) = Ok permissive_default ∧
  success (ValidatorAgent.execute no_repr "t" []) = true.
Proof.
  pose proof (no_data_passes_every_criterion no_repr (PDict []) eq_refl) as (H1 & _ & _ & _ & H2).
  split; [exact H1|]. by apply H2.
Defined.

(** C7 as stated fails: with no data at all, the criterion functionality
    passes without any recommendation. *)
Lemma functionality_carries_no_advice :
  ¬ (∀ criterion, criterion ∈ validation_criteria →
       ∃ result advice more,
         _validate_criterion no_repr criterion (PDict []) = Ok result ∧
         passed result = true ∧
         recommendations result = Some (advice :: more)).
Proof.
  intros Hall. destruct (Hall "functionality") as (r & advice & more & Hr & _ & Hrec).
  - unfold validation_criteria. repeat constructor.
  - vm_compute in Hr. injection Hr as <-. discriminate Hrec.
Qed.

End FinalValidation.

(* ===================================================================== *)
(** * The deployment choice                                               *)
(* ===================================================================== *)

Module Deployment.

Import DeploymentAgent.

Section Facts.
Context {S : Type}.
Variable ops : Ops S.
Variable self_id : string.
Variable repr : pyval → string.

Local Abbreviation handler :=
  (λ e, create_response self_id false ("Deployment failed: " +:+ e) None).
Local Abbreviation execute := (DeploymentAgent.execute ops self_id repr).
Local Abbreviation conclude := (DeploymentAgent.conclude self_id repr).

(** The answers that follow a packaging method. *)
Lemma concluded_message (method : SE (World S) dict) w resp w' :
  try_except (result <- method ;; conclude result) handler w = (Ok resp, w') →
  message resp = "SUCCESS: Deployment completed" ∨
  ∃ text, message resp = "Deployment failed: " +:+ text.
Proof.
  unfold try_except, bind, DeploymentAgent.conclude, lift, create_response, bind.
  destruct (method w) as [[result|e] w1]; cbn.
  2:{ intros [= <- <-]. right. by eexists. }
  destruct (index result "success") as [ok|e]; cbn.
  2:{ intros [= <- <-]. right. by eexists. }
  destruct (truthy ok); cbn.
  { intros [= <- <-]. by left. }
  destruct (index result "message") as [msg|e]; cbn;
    intros [= <- <-]; right; by eexists.
Qed.

Lemma eq_str_false v s : eq_str v s = false ↔ v ≠ PStr s.
Proof.
  destruct v; cbn; try (split; [discriminate|done]).
  rewrite String.eqb_neq. split; congruence.
Qed.

(** [execute], by the value of the choice. *)
Lemma execute_by_choice w :
  execute w =
    let choice := deployment_choice (context w) in
    if eq_str choice "github" then
      try_except (result <- _deploy_to_github ops ;; conclude result) handler w
    else if eq_str choice "executable" then
      try_except (result <- _deploy_as_executable ops ;; conclude result) handler w
    else if eq_str choice "source_only" then
      try_except (result <- _deploy_source_only ops ;; conclude result) handler w
    else (Ok (BaseAgent.create_response self_id (now w) false
                "Invalid deployment option" None), w).
Proof.
  unfold DeploymentAgent.execute, try_except. cbn.
  destruct (eq_str _ "github"); [done|].
  destruct (eq_str _ "executable"); [done|].
  by destruct (eq_str _ "source_only").
Qed.

(** C10.  Without a ["deployment_choice"] in the context, [execute] is the
    source-only deployment, and succeeds when that method reports success;
    a choice that is present and is none of ["github"], ["executable"],
    ["source_only"] is answered, with nothing deployed, by [success = False]
    and the message "Invalid deployment option"; and that message is given
    in this case only. *)
Theorem missing_choice_deploys_source_only w :
  (dict_lookup "deployment_choice" (context w) = None →
     execute w =
       try_except (result <- _deploy_source_only ops ;; conclude result) handler w ∧
     ∀ result w' flag,
       _deploy_source_only ops w = (Ok result, w') →
       dict_lookup "success" result = Some flag → truthy flag = true →
       execute w =
         (Ok (BaseAgent.create_response self_id (now w') true
                "SUCCESS: Deployment completed" (Some result)), w')) ∧
  (∀ choice,
     dict_lookup "deployment_choice" (context w) = Some choice →
     (∀ option, option ∈ deployment_options → choice ≠ PStr option) →
     execute w =
       (Ok (BaseAgent.create_response self_id (now w) false
              "Invalid deployment option" None), w)) ∧
  (∀ resp w',
     execute w = (Ok resp, w') →
     message resp = "Invalid deployment option" →
     success resp = false ∧ w' = w ∧
     ∃ choice,
       dict_lookup "deployment_choice" (context w) = Some choice ∧
       ∀ option, option ∈ deployment_options → choice ≠ PStr option).
Proof.
  rewrite execute_by_choice. unfold deployment_choice. split; [|split].
  - intros ->. cbn. split; [done|]. intros result w' flag Hrun Hflag Hok.
    unfold try_except, bind, DeploymentAgent.conclude, lift, index, create_response, bind.
    rewrite Hrun. cbn. rewrite Hflag. cbn. by rewrite Hok.
  - intros choice -> Hout. cbn.
    rewrite (proj2 (eq_str_false choice "github")) by (apply Hout; repeat constructor).
    rewrite (proj2 (eq_str_false choice "executable")) by (apply Hout; repeat constructor).
    rewrite (proj2 (eq_str_false choice "source_only")) by (apply Hout; repeat constructor).
    done.
  - intros resp w'. cbn zeta.
    destruct (eq_str _ "github") eqn:H1.
    { intros [Hm|[text Hm]]%concluded_message Hinv; rewrite Hinv in Hm; discriminate. }
    destruct (eq_str _ "executable") eqn:H2.
    { intros [Hm|[text Hm]]%concluded_message Hinv; rewrite Hinv in Hm; discriminate. }
    destruct (eq_str _ "source_only") eqn:H3.
    { intros [Hm|[text Hm]]%concluded_message Hinv; rewrite Hinv in Hm; discriminate. }
    intros [= <- <-] _. split; [done|]. split; [done|].
    destruct (dict_lookup "deployment_choice" (context w)) as [choice|]; [|done].
    exists choice. split; [done|]. cbn in H1, H2, H3.
    intros option Hin. unfold deployment_options in Hin.
    repeat (apply elem_of_cons in Hin as [->|Hin]; [by apply eq_str_false|]).
    by apply elem_of_nil in Hin.
Qed.

End Facts.

Import DeploymentExamples.

Lemma missing_choice_deploys_source_only_witness :
  deploy [] =
    (Ok (BaseAgent.create_response "deploy_001" "t" true "SUCCESS: Deployment completed"
           (Some [("success", PBool true); ("deployment_type", PStr "source_only")])),
     Examples.world0 []) ∧
  deploy [("deployment_choice", PStr "docker")] =
    (Ok (BaseAgent.create_response "deploy_001" "t" false "Invalid deployment option" None),
     Examples.world0 [("deployment_choice", PStr "docker")]) ∧
  deploy [("deployment_choice", PNone)] =
    (Ok (BaseAgent.create_response "deploy_001" "t" false "Invalid deployment option" None),
     Examples.world0 [("deployment_choice", PNone)]).
Proof.
  split; [|split].
  - apply (proj2 (proj1 (missing_choice_deploys_source_only ops "deploy_001" (λ _, EmptyString)
             (Examples.world0 [])) eq_refl)
             [("success", PBool true); ("deployment_type", PStr "source_only")]
             (Examples.world0 []) (PBool true)); reflexivity.
  - apply (proj1 (proj2 (missing_choice_deploys_source_only ops "deploy_001" (λ _, EmptyString)
             (Examples.world0 [("deployment_choice", PStr "docker")]))) (PStr "docker"));
      [reflexivity|].
    intros option Hin. unfold DeploymentAgent.deployment_options in Hin.
    repeat (apply elem_of_cons in Hin as [->|Hin]; [discriminate|]).
    by apply elem_of_nil in Hin.
  - apply (proj1 (proj2 (missing_choice_deploys_source_only ops "deploy_001" (λ _, EmptyString)
             (Examples.world0 [("deployment_choice", PNone)]))) PNone);
      [reflexivity|]. discriminate.
Defined.

End Deployment.

(* ===================================================================== *)
(** * The coordinator and the definition phase                            *)
(* ===================================================================== *)

Module DefinitionPhase.

Import OrchestratorAgent ExecuteFrame.

Section Facts.
Context {S : Type}.
Variable ops : CoordinatorAgent.Ops S.

(** The coordinator always answers, and its data never asserts
    ["project_defined"]. *)
Lemma coordinator_never_confirms w :
  ∃ resp w', CoordinatorAgent.execute ops w = (Ok resp, w') ∧
             project_defined resp = false.
Proof.
  unfold CoordinatorAgent.execute, try_except, bind, CoordinatorAgent._start_conversation,
    CoordinatorAgent.create_response.
  destruct (negb (truthy _)); [by eexists _, _|].
  destruct (CoordinatorAgent.history_append ops "user" _ w) as [[[]|e] w1]; [|by eexists _, _].
  destruct (CoordinatorAgent._analyze_and_respond ops _ w1) as [[response|e] w2];
    [|by eexists _, _].
  destruct (CoordinatorAgent.history_append ops "assistant" _ w2) as [[[]|e] w3];
    by eexists _, _.
Qed.

(** With this coordinator registered, no call of [execute] takes the
    orchestrator out of the definition state. *)
Lemma definition_never_left_with_coordinator (m : Machine S) :
  agents (orch m) !! "coord_001" = Some (CoordinatorAgent.agent ops) →
  workflow_state (orch m) = "definition" →
  workflow_state (orch (OrchestratorAgent.execute m).2) = "definition".
Proof.
  intros Hk Hs. destruct (paused (orch m)) eqn:Hp.
  { rewrite (execute_paused _ Hp). by destruct (eq_str _ _). }
  rewrite (execute_definition _ Hp Hs). unfold try_except.
  rewrite definition_phase_cases, Hk. cbn.
  destruct (coordinator_never_confirms (world m)) as (resp & w' & -> & Hpd).
  rewrite Hpd, andb_false_r. done.
Qed.

End Facts.
End DefinitionPhase.


(* ===================================================================== *)
(** * Further facts on the orchestrator                                   *)
(* ===================================================================== *)

Module OrchestratorFacts.

Import OrchestratorAgent Workflow DevelopmentPhase ExecuteFrame.

Section Facts.
Context {S : Type}.
Implicit Types (m : Machine S) (o : Orchestrator S) (w : World S).

Lemma execute_setup m :
  paused (orch m) = false →
  workflow_state (orch m) = "initializing" →
  OrchestratorAgent.execute m =
    try_except _execute_environment_setup
      (λ e, create_response false ("Workflow execution failed: " +:+ e) None) m.
Proof.
  intros Hp Hs. unfold OrchestratorAgent.execute, try_except, execute_body, bind, read.
  cbn. rewrite Hp, Hs. reflexivity.
Qed.

Lemma execute_delivery m :
  paused (orch m) = false →
  workflow_state (orch m) = "delivery" →
  OrchestratorAgent.execute m =
    try_except _execute_delivery_phase
      (λ e, create_response false ("Workflow execution failed: " +:+ e) None) m.
Proof.
  intros Hp Hs. unfold OrchestratorAgent.execute, try_except, execute_body, bind, read.
  cbn. rewrite Hp, Hs. reflexivity.
Qed.

(** X1.  The setup phase is left for the definition phase exactly when the
    registry holds an agent under the key ["env_agent"] and the agent under
    the key ["env_001"] returns [success = True].  Without the first key the
    phase is refused; with the first key and without the second the lookup
    fails and the call reports the key. *)
Theorem setup_needs_both_keys m :
  paused (orch m) = false →
  workflow_state (orch m) = "initializing" →
  (workflow_state (orch (OrchestratorAgent.execute m).2) = "definition" ↔
     ∃ agent result w,
       is_Some (agents (orch m) !! "env_agent") ∧
       agents (orch m) !! "env_001" = Some agent ∧
       BaseAgent.execute agent (world m) = (Ok result, w) ∧ success result = true) ∧
  (agents (orch m) !! "env_agent" = None →
     OrchestratorAgent.execute m =
       (Ok (BaseAgent.create_response self_id (now (world m)) false
              "Environment agent not registered" None), m)) ∧
  (is_Some (agents (orch m) !! "env_agent") → agents (orch m) !! "env_001" = None →
     OrchestratorAgent.execute m =
       (Ok (BaseAgent.create_response self_id (now (world m)) false
              "Workflow execution failed: 'env_001'" None), m)).
Proof.
  intros Hp Hs. rewrite (execute_setup _ Hp Hs). unfold try_except.
  rewrite environment_setup_cases.
  destruct (agents (orch m) !! "env_agent") as [sentinel|] eqn:H1.
  2:{ cbn. rewrite Hs. split; [|split; [done|by intros []]].
      split; [done|]. by intros (? & ? & ? & [] & _). }
  destruct (agents (orch m) !! "env_001") as [agent|] eqn:H2.
  2:{ cbn. rewrite Hs. split; [|split; [done|done]].
      split; [done|]. by intros (? & ? & ? & _ & ? & _). }
  split; [|split; [done|done]].
  destruct (BaseAgent.execute agent (world m)) as [[result|e] w] eqn:Hrun.
  2:{ cbn. rewrite Hs. split; [done|]. intros (? & ? & ? & _ & [= <-] & Hr & _).
      rewrite Hrun in Hr. done. }
  destruct (success result) eqn:Hok; cbn.
  - split; [|done]. intros _. exists agent, result, w. by repeat split.
  - rewrite Hs. split; [done|]. intros (? & ? & ? & _ & [= <-] & Hr & ?).
    rewrite Hrun in Hr. injection Hr as <- <-. congruence.
Qed.

(** X2.  The delivery phase: the state becomes completed exactly when the
    agent under ["repo_001"] returns [success = True]; without that agent
    the phase is refused; a failure of the agent is handed back as it is. *)
Theorem delivery_completes_on_repository_success m :
  paused (orch m) = false →
  workflow_state (orch m) = "delivery" →
  (workflow_state (orch (OrchestratorAgent.execute m).2) = "completed" ↔
     ∃ agent result w,
       agents (orch m) !! "repo_001" = Some agent ∧
       BaseAgent.execute agent (world m) = (Ok result, w) ∧ success result = true) ∧
  (agents (orch m) !! "repo_001" = None →
     OrchestratorAgent.execute m =
       (Ok (BaseAgent.create_response self_id (now (world m)) false
              "Repository agent not registered" None), m)) ∧
  (∀ agent result w,
     agents (orch m) !! "repo_001" = Some agent →
     BaseAgent.execute agent (world m) = (Ok result, w) → success result = false →
     OrchestratorAgent.execute m = (Ok result, logged m w ["repo_001"])).
Proof.
  intros Hp Hs. rewrite (execute_delivery _ Hp Hs). unfold try_except.
  rewrite delivery_phase_cases.
  destruct (agents (orch m) !! "repo_001") as [agent|] eqn:H1.
  2:{ cbn. rewrite Hs. split; [|split; [done|done]].
      split; [done|]. by intros (? & ? & ? & ? & _). }
  destruct (BaseAgent.execute agent (world m)) as [[result|e] w] eqn:Hrun.
  2:{ cbn. rewrite Hs. split; [|split; [done|]].
      - split; [done|]. intros (? & ? & ? & [= <-] & Hr & _). rewrite Hrun in Hr. done.
      - intros ? ? ? [= <-] Hr. rewrite Hrun in Hr. done. }
  destruct (success result) eqn:Hok; cbn.
  - split; [|split; [done|]].
    + split; [|done]. intros _. by exists agent, result, w.
    + intros ? ? ? [= <-] Hr. rewrite Hrun in Hr. injection Hr as <- <-. congruence.
  - rewrite Hs. split; [|split; [done|]].
    + split; [done|]. intros (? & ? & ? & [= <-] & Hr & ?).
      rewrite Hrun in Hr. injection Hr as <- <-. congruence.
    + intros ? ? ? [= <-] Hr. rewrite Hrun in Hr. by injection Hr as <- <-.
Qed.

(** X3.  Pausing and resuming is a round trip: on an orchestrator that was not
    paused, [resume_workflow] after [pause_workflow] gives back the
    orchestrator as it was, and so does a call of [execute] with the input
    ["Try again"] after [handle_model_unavailable]; that call invokes no
    agent and is answered with [success = True]. *)
Theorem pause_then_resume_restores m reason model :
  paused (orch m) = false →
  pause_reason (orch m) = None →
  (resume_workflow (pause_workflow reason m).2).2 = m ∧
  (dict_lookup "user_input" (context (world m)) = Some (PStr "Try again") →
     OrchestratorAgent.execute (handle_model_unavailable model m).2 =
       (Ok (BaseAgent.create_response self_id (now (world m)) true
              "Workflow resumed. Continuing from last step."
              (Some [("resumed", PBool true)])), m)).
Proof.
  destruct m as [[ags ws cs wss p r] w c]. cbn. intros -> ->. split; [done|].
  intros Hin. rewrite execute_paused by done. cbn. by rewrite Hin.
Qed.

(** X4.  While the orchestrator is paused, a call of [execute] invokes no
    agent and changes neither the world, the phase nor the registry,
    whatever the input. *)
Theorem paused_call_does_no_work m :
  paused (orch m) = true →
  let m' := (OrchestratorAgent.execute m).2 in
  calls m' = calls m ∧ world m' = world m ∧
  workflow_state (orch m') = workflow_state (orch m) ∧
  agents (orch m') = agents (orch m).
Proof.
  intros Hp. cbn. rewrite (execute_paused _ Hp). by destruct (eq_str _ _).
Qed.

(** The loop runs to its end exactly when every registered step succeeds. *)
Lemma dev_loop_completes steps m m' :
  dev_loop steps m = (Ok None, m') →
  ∃ w ks, all_succeed (agents (orch m)) steps (world m) w ks ∧ m' = logged m w ks.
Proof.
  revert m. induction steps as [|step rest IH]; intros m.
  - cbn. intros [= <-]. exists (world m), []. split; [constructor|by rewrite logged_nil].
  - destruct (agents (orch m) !! step_key step) as [agent|] eqn:Hk.
    + destruct (BaseAgent.execute agent (world m)) as [[result|e] w] eqn:Hrun.
      * destruct (success result) eqn:Hok.
        -- rewrite (dev_loop_success _ _ _ _ _ _ Hk Hrun Hok). intros Hloop.
           destruct (IH _ Hloop) as (w' & ks & Hall & ->).
           exists w', (step_key step :: ks). split; [by econstructor|].
           by rewrite logged_logged.
        -- by rewrite (dev_loop_failure _ _ _ _ _ _ Hk Hrun Hok).
      * by rewrite (dev_loop_raise _ _ _ _ _ _ Hk Hrun).
    + rewrite (dev_loop_absent _ _ _ Hk). intros Hloop.
      destruct (IH _ Hloop) as (w' & ks & Hall & ->).
      exists w', ks. split; [by constructor|done].
Qed.

(** X5.  The development phase is left for the delivery phase exactly when
    every registered development step returns [success = True]. *)
Theorem development_completes_iff_all_succeed m :
  paused (orch m) = false →
  workflow_state (orch m) = "development" →
  workflow_state (orch (OrchestratorAgent.execute m).2) = "delivery" ↔
  ∃ w ks, all_succeed (agents (orch m)) dev_steps (world m) w ks.
Proof.
  intros Hp Hs. rewrite (execute_development _ Hp Hs).
  unfold try_except, _execute_development_phase, bind. split.
  - destruct (dev_loop dev_steps m) as [[[resp|]|e] m'] eqn:Hloop; cbn.
    + destruct (dev_loop_frame dev_steps m) as (r & w & ks & Hl & _).
      rewrite Hloop in Hl. injection Hl as _ ->. cbn. by rewrite Hs.
    + intros _. destruct (dev_loop_completes _ _ _ Hloop) as (w & ks & Hall & _).
      by exists w, ks.
    + destruct (dev_loop_frame dev_steps m) as (r & w & ks & Hl & _).
      rewrite Hloop in Hl. injection Hl as _ ->. cbn. by rewrite Hs.
  - intros (w & ks & Hall).
    rewrite <- (app_nil_r dev_steps), (dev_loop_all_succeed _ _ _ _ _ Hall). done.
Qed.

(** The agents invoked by the loop are an initial segment of the
    registered keys, in the order of the list of steps. *)
Lemma dev_loop_prefix steps m :
  ∃ w ks, (dev_loop steps m).2 = logged m w ks ∧
          ks `prefix_of` registered_keys (agents (orch m)) steps.
Proof.
  revert m. induction steps as [|step rest IH]; intros m.
  - exists (world m), []. split; [by rewrite logged_nil|]. by exists [].
  - unfold registered_keys. cbn [map List.filter].
    destruct (agents (orch m) !! step_key step) as [agent|] eqn:Hk.
    + destruct (BaseAgent.execute agent (world m)) as [[result|e] w] eqn:Hrun.
      * destruct (success result) eqn:Hok.
        -- rewrite (dev_loop_success _ _ _ _ _ _ Hk Hrun Hok).
           destruct (IH (logged m w [step_key step])) as (w' & ks & -> & Hpre).
           exists w', (step_key step :: ks). split; [by rewrite logged_logged|].
           by apply prefix_cons.
        -- rewrite (dev_loop_failure _ _ _ _ _ _ Hk Hrun Hok).
           exists w, [step_key step]. split; [done|]. apply prefix_cons, prefix_nil.
      * rewrite (dev_loop_raise _ _ _ _ _ _ Hk Hrun).
        exists w, [step_key step]. split; [done|]. apply prefix_cons, prefix_nil.
    + rewrite (dev_loop_absent _ _ _ Hk). apply IH.
Qed.

(** X6.  In the development phase the agents are invoked in the fixed order of
    the workflow: the keys invoked by one call are an initial segment of
    the registered keys among architect, code, backup, standards, tests,
    documentation, ethics, validation, whatever the steps return or raise. *)
Theorem development_invokes_in_fixed_order m :
  paused (orch m) = false →
  workflow_state (orch m) = "development" →
  ∃ ks, calls (OrchestratorAgent.execute m).2 = calls m ++ ks ∧
        ks `prefix_of` registered_keys (agents (orch m)) dev_steps.
Proof.
  intros Hp Hs. rewrite (execute_development _ Hp Hs).
  unfold try_except, _execute_development_phase, bind.
  destruct (dev_loop_prefix dev_steps m) as (w & ks & Hm & Hpre).
  exists ks. split; [|done].
  destruct (dev_loop dev_steps m) as [[[resp|]|e] m']; cbn in Hm |- *; by subst m'.
Qed.

(** X7.  An exception raised by a development step does not leave [execute]:
    when the first step that does not succeed raises [e], the call is
    answered with [success = False] and the message "Workflow execution
    failed: e", no later step is invoked, and the orchestrator is
    unchanged. *)
Theorem raised_exception_is_reported m pre step post agent e w1 w2 ks :
  paused (orch m) = false →
  workflow_state (orch m) = "development" →
  dev_steps = pre ++ step :: post →
  all_succeed (agents (orch m)) pre (world m) w1 ks →
  agents (orch m) !! step_key step = Some agent →
  BaseAgent.execute agent w1 = (Raise e, w2) →
  OrchestratorAgent.execute m =
    (Ok (BaseAgent.create_response self_id (now w2) false
           ("Workflow execution failed: " +:+ e) None),
     logged m w2 (ks ++ [step_key step])).
Proof.
  intros Hp Hs Hsplit Hall Hk Hrun. rewrite (execute_development _ Hp Hs).
  unfold try_except, _execute_development_phase, bind.
  rewrite Hsplit, (dev_loop_all_succeed _ _ _ _ _ Hall).
  rewrite (dev_loop_raise _ _ _ agent e w2); [|done..].
  cbn. by rewrite logged_logged.
Qed.

End Facts.

(** ** The statements on concrete orchestrators *)

Import Examples AgentExamples.

Lemma setup_needs_both_keys_witness :
  workflow_state (orch (OrchestratorAgent.execute all_registered).2) = "definition" ∧
  OrchestratorAgent.execute registered_by_main =
    (Ok (BaseAgent.create_response "orch_001" "t" false
           "Environment agent not registered" None), registered_by_main).
Proof.
  split.
  - assert (Hp : paused (orch all_registered) = false) by (vm_compute; reflexivity).
    assert (Hs : workflow_state (orch all_registered) = "initializing")
      by (vm_compute; reflexivity).
    apply (proj1 (setup_needs_both_keys all_registered Hp Hs)).
    exists (succeeding "env_001"),
      (BaseAgent.create_response "env_001" "t" true "done" None), (world0 []).
    split; [exists (succeeding "env_agent"); vm_compute; reflexivity|].
    repeat split; vm_compute; reflexivity.
  - assert (Hp : paused (orch registered_by_main) = false) by (vm_compute; reflexivity).
    assert (Hs : workflow_state (orch registered_by_main) = "initializing")
      by (vm_compute; reflexivity).
    apply (proj1 (proj2 (setup_needs_both_keys registered_by_main Hp Hs))).
    vm_compute. reflexivity.
Defined.

Lemma delivery_completes_on_repository_success_witness :
  workflow_state (orch (OrchestratorAgent.execute delivering).2) = "completed".
Proof.
  assert (Hp : paused (orch delivering) = false) by (vm_compute; reflexivity).
  assert (Hs : workflow_state (orch delivering) = "delivery") by (vm_compute; reflexivity).
  apply (proj1 (delivery_completes_on_repository_success delivering Hp Hs)).
  exists (succeeding "repo_001"),
    (BaseAgent.create_response "repo_001" "t" true "done" None), (world0 []).
  repeat split; vm_compute; reflexivity.
Defined.

Lemma pause_then_resume_restores_witness :
  (resume_workflow (pause_workflow "later" (fresh [("user_input", PStr "Try again")])).2).2 =
    fresh [("user_input", PStr "Try again")] ∧
  OrchestratorAgent.execute
    (handle_model_unavailable "gpt-4o-mini" (fresh [("user_input", PStr "Try again")])).2 =
    (Ok (BaseAgent.create_response "orch_001" "t" true
           "Workflow resumed. Continuing from last step." (Some [("resumed", PBool true)])),
     fresh [("user_input", PStr "Try again")]).
Proof.
  assert (Hp : paused (orch (fresh [("user_input", PStr "Try again")])) = false)
    by (vm_compute; reflexivity).
  assert (Hr : pause_reason (orch (fresh [("user_input", PStr "Try again")])) = None)
    by (vm_compute; reflexivity).
  split.
  - apply (proj1 (pause_then_resume_restores (fresh [("user_input", PStr "Try again")])
                    "later" "gpt-4o-mini" Hp Hr)).
  - apply (proj2 (pause_then_resume_restores (fresh [("user_input", PStr "Try again")])
                    "later" "gpt-4o-mini" Hp Hr)).
    vm_compute. reflexivity.
Defined.

Lemma paused_call_does_no_work_witness :
  calls (OrchestratorAgent.execute (paused_with "hello")).2 = [] ∧
  workflow_state (orch (OrchestratorAgent.execute (paused_with "hello")).2) = "development".
Proof.
  assert (Hp : paused (orch (paused_with "hello")) = true) by (vm_compute; reflexivity).
  destruct (paused_call_does_no_work (paused_with "hello") Hp) as (Hc & _ & Hs & _).
  split; [exact Hc|exact Hs].
Defined.

Lemma development_completes_iff_all_succeed_witness :
  workflow_state (orch (OrchestratorAgent.execute architect_only).2) = "delivery".
Proof.
  assert (Hp : paused (orch architect_only) = false) by (vm_compute; reflexivity).
  assert (Hs : workflow_state (orch architect_only) = "development")
    by (vm_compute; reflexivity).
  apply (proj2 (development_completes_iff_all_succeed architect_only Hp Hs)).
  exists (world0 []), ["arch_001"].
  apply (succeed_step _ ("arch_001", "Architect Agent", "Designing system architecture")
           (drop 1 dev_steps) (succeeding "arch_001")
           (BaseAgent.create_response "arch_001" "t" true "done" None)
           (world0 []) (world0 []) (world0 []) []);
    try (vm_compute; reflexivity).
  repeat (apply succeed_absent; [vm_compute; reflexivity|]). apply succeed_nil.
Defined.

Lemma development_invokes_in_fixed_order_witness :
  ∃ ks, calls (OrchestratorAgent.execute failing_development).2 =
          calls failing_development ++ ks ∧
        ks `prefix_of` registered_keys (agents (orch failing_development)) dev_steps.
Proof.
  assert (Hp : paused (orch failing_development) = false) by (vm_compute; reflexivity).
  assert (Hs : workflow_state (orch failing_development) = "development")
    by (vm_compute; reflexivity).
  exact (development_invokes_in_fixed_order failing_development Hp Hs).
Defined.

Lemma raised_exception_is_reported_witness :
  OrchestratorAgent.execute raising_development =
    (Ok (BaseAgent.create_response "orch_001" "t" false
           "Workflow execution failed: disk full" None),
     logged raising_development (world0 []) ["arch_001"; "core_001"]).
Proof.
  refine (raised_exception_is_reported raising_development
    [("arch_001", "Architect Agent", "Designing system architecture")]
    ("core_001", "Core Logic Agent", "Writing Python code")
    (drop 2 dev_steps) (raising "core_001" "disk full") "disk full"
    (world0 []) (world0 []) ["arch_001"] _ _ _ _ _ _);
    try (vm_compute; reflexivity).
  apply (succeed_step _ ("arch_001", "Architect Agent", "Designing system architecture") []
           (succeeding "arch_001") (BaseAgent.create_response "arch_001" "t" true "done" None)
           (world0 []) (world0 []) (world0 []) []);
    try (vm_compute; reflexivity).
  apply succeed_nil.
Defined.

End OrchestratorFacts.

(* ===================================================================== *)
(** * Agents registered under their own ids                           *)
(* ===================================================================== *)

Module RegistryFacts.

Import OrchestratorAgent Workflow Registry ExecuteFrame.

Section Facts.
Context {S : Type}.
Implicit Types (m : Machine S).

Lemma never_started_invariant m :
  reachable_with (λ agent, agent_id agent ≠ "env_agent") m →
  workflow_state (orch m) = "initializing" ∧
  agents (orch m) !! "env_agent" = None ∧
  calls m = [].
Proof.
  induction 1 as [w|m w _ IH|m _ IH|m agent Hid _ IH|m reason _ IH|m _ IH|m model _ IH];
    try (destruct IH as (Hs & Hk & Hc)).
  - done.
  - done.
  - destruct (paused (orch m)) eqn:Hp.
    + rewrite (execute_paused _ Hp). by destruct (eq_str _ _).
    + by rewrite (StateMachine.setup_tests_key_env_agent _ Hp Hs Hk).
  - cbn. split; [done|]. split; [|done]. by rewrite lookup_insert_ne.
  - done.
  - done.
  - done.
Qed.

(** X8.  With agents registered under their own ids, none of which is
    ["env_agent"], the workflow never starts: whatever the caller does with
    the orchestrator, it stays in the state initializing, no agent is ever
    invoked, and every call of [execute] on the running orchestrator is
    answered "Environment agent not registered". *)
Theorem own_ids_never_leave_initializing m :
  reachable_with (λ agent, agent_id agent ≠ "env_agent") m →
  workflow_state (orch m) = "initializing" ∧
  calls m = [] ∧
  (paused (orch m) = false →
   OrchestratorAgent.execute m =
     (Ok (BaseAgent.create_response self_id (now (world m)) false
            "Environment agent not registered" None), m)).
Proof.
  intros (Hs & Hk & Hc)%never_started_invariant. split; [done|]. split; [done|].
  intros Hp. by apply StateMachine.setup_tests_key_env_agent.
Qed.

End Facts.

Import Examples AgentExamples.

Lemma own_ids_never_leave_initializing_witness :
  workflow_state (orch (executed 2 registered_by_main)) = "initializing" ∧
  calls (executed 2 registered_by_main) = [].
Proof.
  assert (Hreach : reachable_with (λ agent : Agent unit, agent_id agent ≠ "env_agent")
                     (executed 2 registered_by_main)).
  { do 2 apply (with_execute (S := unit)).
    unfold registered_by_main, registering, own_ids. cbn [map fold_left].
    do 12 (apply (with_register (S := unit)); [discriminate|]). apply with_init. }
  destruct (own_ids_never_leave_initializing _ Hreach) as (Hs & Hc & _).
  split; [exact Hs|exact Hc].
Defined.

Lemma definition_never_left_with_coordinator_witness :
  workflow_state (orch (OrchestratorAgent.execute defining_with_coordinator).2) = "definition".
Proof.
  apply (DefinitionPhase.definition_never_left_with_coordinator plain_coordinator
           defining_with_coordinator); vm_compute; reflexivity.
Defined.

End RegistryFacts.


(* ===================================================================== *)
(** * Further facts on the final validation                               *)
(* ===================================================================== *)

Module ValidationFacts.

Import ValidatorAgent Validation ValidationPaths FinalValidation.

(** The fixed words in front of a file path do not make an issue critical. *)
Lemma security_prefix_not_critical path :
  is_critical ("Security issues in " +:+ path) = is_critical path.
Proof.
  unfold is_critical. rewrite lower_app_ascii by reflexivity.
  generalize (lower path). intros lowered. vm_compute. reflexivity.
Qed.

Lemma ethics_prefix_not_critical path :
  is_critical ("Ethical issues in " +:+ path) = is_critical path.
Proof.
  unfold is_critical. rewrite lower_app_ascii by reflexivity.
  generalize (lower path). intros lowered. vm_compute. reflexivity.
Qed.

Lemma validate_security_unfold vr :
  _validate_security vr =
    flagged_check "security_results" "Security issues in "
      "Consider adding security scanning" "Address security issues" vr.
Proof. reflexivity. Qed.

Lemma validate_ethics_unfold vr :
  _validate_ethics vr =
    flagged_check "ethics_results" "Ethical issues in "
      "Consider adding ethics review" "Address ethical issues" vr.
Proof. reflexivity. Qed.

(** The issues of the loop over a results dictionary: one per flagged
    path, in order. *)
Lemma overall_safe_loop_issues prefix its acc issues :
  overall_safe_loop prefix its acc = Ok issues →
  issues = acc ++ map (λ path, prefix +:+ path) (unsafe_paths its).
Proof.
  revert acc. induction its as [|[path result] its IH]; intros acc; cbn.
  - intros [= <-]. by rewrite app_nil_r.
  - unfold unsafe_paths, flagged_unsafe. cbn [List.filter snd].
    destruct (get result "overall_safe" (PBool false)) as [safe|e]; [|done]. cbn.
    destruct (negb (truthy safe)); cbn.
    + intros H. rewrite (IH _ H), <- app_assoc. done.
    + apply IH.
Qed.

(** Whether the loop returns does not depend on the prefix. *)
Lemma overall_safe_loop_any_prefix prefix prefix' its acc acc' issues :
  overall_safe_loop prefix its acc = Ok issues →
  ∃ issues', overall_safe_loop prefix' its acc' = Ok issues'.
Proof.
  revert acc acc'. induction its as [|[path result] its IH]; intros acc acc'; cbn.
  - by eexists.
  - destruct (get result "overall_safe" (PBool false)) as [safe|e]; [|done]. cbn.
    destruct (negb (truthy safe)); apply IH.
Qed.

Lemma flagged_check_shape key prefix advice remedy vr result :
  flagged_check key prefix advice remedy vr = Ok result →
  issues result = map (λ path, prefix +:+ path) (unsafe_paths (section_items vr key)) ∧
  passed result = len_is_zero (unsafe_paths (section_items vr key)).
Proof.
  unfold flagged_check, section_items, rbind.
  destruct (get vr key (PDict [])) as [sec|e]; [|done].
  destruct (truthy sec) eqn:Ht; cbn [negb].
  2:{ intros [= <-]. assert (Hno : match sec with PDict its => its | _ => [] end = []).
      { destruct sec as [| | | | |[|? ?]]; done. }
      by rewrite Hno. }
  destruct sec as [| | | | |its]; try done. cbn [items].
  destruct (overall_safe_loop _ its []) as [found|e] eqn:Hloop; [|done].
  apply overall_safe_loop_issues in Hloop. cbn [app] in Hloop. subst found.
  intros [= <-]. cbn [issues passed]. split; [done|]. by destruct (unsafe_paths its).
Qed.

Lemma doc_test_issue_not_critical vr result issue :
  _validate_documentation vr = Ok result ∨ _validate_testing vr = Ok result →
  issue ∈ issues result →
  is_critical issue = false.
Proof.
  intros [H|H]; revert H;
    unfold _validate_documentation, _validate_testing, rbind;
    repeat (match goal with
            | |- context [match ?x with _ => _ end] =>
                lazymatch x with
                | context [len_is_zero] => fail
                | _ => destruct x
                end
            end; try discriminate);
    intros [= <-]; cbn [issues];
    intros Hin; repeat (apply elem_of_cons in Hin as [->|Hin]; [by vm_compute|]);
    by apply elem_of_nil in Hin.
Qed.

(** A key that is not in a dictionary is added at its end. *)
Lemma dict_set_fresh {A} k (x : A) d :
  k ∉ map fst d → dict_set k x d = d ++ [(k, x)].
Proof.
  induction d as [|[k' x'] d IH]; cbn; [done|].
  intros Hk. destruct (String.eqb_spec k k') as [->|Hne].
  - exfalso. apply Hk. left.
  - rewrite IH; [done|]. intros Hin. apply Hk. by right.
Qed.

Lemma map_fst_zip {A B} (l : list A) (k : list B) :
  List.length l = List.length k → map fst (zip l k) = l.
Proof.
  revert k. induction l as [|a l IH]; intros [|b k]; cbn; try done.
  intros [= Hlen]. by rewrite IH.
Qed.

Section Facts.
Variable repr : pyval → string.

Lemma record_criterion_keys criterion result validation :
  criteria (record_criterion criterion result validation) =
    dict_set criterion result (criteria validation).
Proof.
  unfold record_criterion.
  destruct (negb (passed result) && negb (len_is_zero (issues result))); [|done].
  by destruct (negb (len_is_zero (List.filter is_critical (issues result)))).
Qed.

Lemma validation_loop_keys cs vr v0 v :
  validation_loop repr cs vr v0 = Ok v →
  NoDup (map fst (criteria v0) ++ cs) →
  ∃ rs, Forall2 (λ c r, _validate_criterion repr c vr = Ok r) cs rs ∧
        criteria v = criteria v0 ++ zip cs rs.
Proof.
  revert v0. induction cs as [|c cs IH]; intros v0; cbn [validation_loop].
  - intros [= <-] _. exists []. split; [constructor|]. by rewrite app_nil_r.
  - unfold rbind. destruct (_validate_criterion repr c vr) as [r|e] eqn:Hc; [|done].
    intros Hloop Hnd.
    assert (Hfresh : c ∉ map fst (criteria v0)).
    { apply NoDup_app in Hnd as (_ & Hdis & _). intros Hin. apply (Hdis c Hin). left. }
    assert (Hkeys : criteria (record_criterion c r v0) = criteria v0 ++ [(c, r)]).
    { rewrite record_criterion_keys. by apply dict_set_fresh. }
    destruct (IH _ Hloop) as (rs & Hall & Hv).
    { rewrite Hkeys, map_app, <- app_assoc. exact Hnd. }
    exists (r :: rs). split; [by constructor|].
    rewrite Hv, Hkeys, <- app_assoc. done.
Qed.

(** X11.  Every returned validation records the six criteria, each once and in
    the fixed order, with the result its check returned, whatever the
    recorded data. *)
Theorem every_criterion_is_recorded vr v :
  _perform_final_validation repr vr = Ok v →
  map fst (criteria v) = validation_criteria ∧
  ∀ criterion result, (criterion, result) ∈ criteria v →
    _validate_criterion repr criterion vr = Ok result.
Proof.
  intros Hv. destruct (validation_loop_keys _ _ _ _ Hv) as (rs & Hall & Hc).
  { apply (bool_decide_unpack _). vm_compute. exact I. }
  change (criteria v = zip validation_criteria rs) in Hc. rewrite Hc. split.
  - apply map_fst_zip, (Forall2_length _ _ _ Hall).
  - intros c r Hin. apply list_elem_of_lookup in Hin as [i Hi].
    apply lookup_zip_with_Some in Hi as (c' & r' & [= <- <-] & Hci & Hri).
    by apply (Forall2_lookup_lr _ _ _ _ _ _ Hall Hci Hri).
Qed.

(** X12.  The documentation check and the testing check never list a critical
    issue: whatever the recorded data, missing documentation, failed
    syntax validation and failed unit tests do not withhold the approval. *)
Theorem documentation_and_testing_never_block vr result issue :
  _validate_documentation vr = Ok result ∨ _validate_testing vr = Ok result →
  issue ∈ issues result →
  is_critical issue = false.
Proof. apply doc_test_issue_not_critical. Qed.

(** X13.  What the security check and the ethics check return when they
    return: each passes exactly when no file of its results is flagged as
    not safe, and lists one issue per flagged file, in order; such an issue
    is critical exactly when the path of the file is. *)
Theorem flagged_files_are_the_issues vr :
  (∀ result,
     _validate_security vr = Ok result →
     let paths := unsafe_paths (section_items vr "security_results") in
     issues result = map (λ path, "Security issues in " +:+ path) paths ∧
     (passed result = true ↔ paths = [])) ∧
  (∀ result,
     _validate_ethics vr = Ok result →
     let paths := unsafe_paths (section_items vr "ethics_results") in
     issues result = map (λ path, "Ethical issues in " +:+ path) paths ∧
     (passed result = true ↔ paths = [])) ∧
  (∀ path, is_critical ("Security issues in " +:+ path) = is_critical path ∧
           is_critical ("Ethical issues in " +:+ path) = is_critical path).
Proof.
  split; [|split].
  - intros result. rewrite validate_security_unfold.
    intros [Hi Hp]%flagged_check_shape. cbn zeta. split; [done|].
    rewrite Hp. apply len_is_zero_nil.
  - intros result. rewrite validate_ethics_unfold.
    intros [Hi Hp]%flagged_check_shape. cbn zeta. split; [done|].
    rewrite Hp. apply len_is_zero_nil.
  - intros path. split; [apply security_prefix_not_critical|apply ethics_prefix_not_critical].
Qed.

(** X14.  When the security results and the ethics results are one and the same
    dictionary, the two checks return together, pass together and list
    the same files. *)
Theorem shared_results_give_shared_verdict d security :
  dict_lookup "security_results" d = dict_lookup "ethics_results" d →
  _validate_security (PDict d) = Ok security →
  ∃ ethics paths,
    _validate_ethics (PDict d) = Ok ethics ∧
    passed ethics = passed security ∧
    issues security = map (λ path, "Security issues in " +:+ path) paths ∧
    issues ethics = map (λ path, "Ethical issues in " +:+ path) paths.
Proof.
  intros Hsame Hsec.
  assert (Hitems : section_items (PDict d) "ethics_results" =
                   section_items (PDict d) "security_results").
  { unfold section_items. cbn. by rewrite Hsame. }
  assert (Heth : ∃ ethics, _validate_ethics (PDict d) = Ok ethics).
  { revert Hsec. rewrite validate_security_unfold, validate_ethics_unfold.
    unfold flagged_check, rbind. cbn [get]. rewrite Hsame.
    destruct (negb (truthy _)); [by eexists|].
    destruct (items _) as [its|e]; [|done].
    destruct (overall_safe_loop _ its []) as [found|e] eqn:Hloop; [|done]. intros _.
    destruct (overall_safe_loop_any_prefix _ "Ethical issues in " _ _ [] _ Hloop)
      as [found' ->].
    by eexists. }
  destruct Heth as [ethics Heth].
  exists ethics, (unsafe_paths (section_items (PDict d) "security_results")).
  split; [done|].
  rewrite validate_security_unfold in Hsec. rewrite validate_ethics_unfold in Heth.
  apply flagged_check_shape in Hsec as [Hsi Hsp].
  apply flagged_check_shape in Heth as [Hei Hep].
  rewrite Hitems in Hei, Hep. by rewrite Hep, Hsp.
Qed.

(** X15.  A [validation_results] entry that is present and is not a dictionary
    is not read as empty: the validator answers [success = False] and
    reports the attribute error. *)
Theorem non_dictionary_results_are_reported time context v :
  dict_lookup "validation_results" context = Some v →
  is_dict v = false →
  ValidatorAgent.execute repr time context =
    BaseAgent.create_response ValidatorAgent.self_id time false
      ("Final validation failed: '" +:+ type_name v +:+ "' object has no attribute 'get'")
      None.
Proof.
  intros Hv Hd. unfold ValidatorAgent.execute. rewrite Hv. cbn [from_option id].
  by destruct v.
Qed.

Lemma approval_cases vr v :
  _perform_final_validation repr vr = Ok v →
  approved v = false ↔
  (∃ result issue, _validate_code_quality repr vr = Ok result ∧
                   issue ∈ issues result ∧ is_critical issue = true) ∨
  (∃ key path, (key = "security_results" ∨ key = "ethics_results") ∧
               path ∈ unsafe_paths (section_items vr key) ∧ is_critical path = true).
Proof.
  intros Hv.
  destruct (validation_loop_keys _ _ _ _ Hv) as (rs & Hall & _).
  { apply (bool_decide_unpack _). vm_compute. exact I. }
  assert (Hret : ∀ c, c ∈ validation_criteria → ∃ r, _validate_criterion repr c vr = Ok r).
  { intros c [i Hi]%list_elem_of_lookup.
    destruct (Forall2_lookup_l _ _ _ _ _ Hall Hi) as (r & _ & Hr). by exists r. }
  rewrite (validation_loop_approved _ _ _ _ _ Hv). split.
  - intros [?|(c & r & Hin & Hc & Hp & issue & Hi & Hcrit)]; [done|].
    unfold validation_criteria in Hin.
    repeat (apply elem_of_cons in Hin as [->|Hin]).
    + left. by exists r, issue.
    + rewrite (doc_test_issue_not_critical vr r issue) in Hcrit; [done|by left|done].
    + rewrite (doc_test_issue_not_critical vr r issue) in Hcrit; [done|by right|done].
    + right. exists "security_results". change (_validate_security vr = Ok r) in Hc.
      rewrite validate_security_unfold in Hc. apply flagged_check_shape in Hc as [Hsi _].
      rewrite Hsi in Hi. apply list_elem_of_fmap in Hi as (path & -> & Hpath).
      exists path. rewrite security_prefix_not_critical in Hcrit. by repeat split; [left|..].
    + right. exists "ethics_results". change (_validate_ethics vr = Ok r) in Hc.
      rewrite validate_ethics_unfold in Hc. apply flagged_check_shape in Hc as [Hsi _].
      rewrite Hsi in Hi. apply list_elem_of_fmap in Hi as (path & -> & Hpath).
      exists path. rewrite ethics_prefix_not_critical in Hcrit. by repeat split; [right|..].
    + cbn in Hc. injection Hc as <-. by apply elem_of_nil in Hi.
    + by apply elem_of_nil in Hin.
  - intros [(r & issue & Hc & Hi & Hcrit)|(key & path & [->| ->] & Hpath & Hcrit)]; right.
    + exists "code_quality", r. split; [left|]. split; [done|].
      assert (Hp := validate_criterion_passed repr "code_quality" vr r).
      rewrite Hp; [|left|done]. split; [|by exists issue].
      destruct (issues r); [by apply elem_of_nil in Hi|done].
    + destruct (Hret "security") as [r Hc]; [unfold validation_criteria; repeat constructor|].
      exists "security", r. split; [unfold validation_criteria; repeat constructor|].
      split; [done|]. change (_validate_security vr = Ok r) in Hc.
      rewrite validate_security_unfold in Hc. apply flagged_check_shape in Hc as [Hsi Hsp].
      split.
      * rewrite Hsp. destruct (unsafe_paths _); [by apply elem_of_nil in Hpath|done].
      * exists ("Security issues in " +:+ path). rewrite Hsi, security_prefix_not_critical.
        split; [|done]. apply list_elem_of_fmap. by exists path.
    + destruct (Hret "ethics") as [r Hc]; [unfold validation_criteria; repeat constructor|].
      exists "ethics", r. split; [unfold validation_criteria; repeat constructor|].
      split; [done|]. change (_validate_ethics vr = Ok r) in Hc.
      rewrite validate_ethics_unfold in Hc. apply flagged_check_shape in Hc as [Hsi Hsp].
      split.
      * rewrite Hsp. destruct (unsafe_paths _); [by apply elem_of_nil in Hpath|done].
      * exists ("Ethical issues in " +:+ path). rewrite Hsi, ethics_prefix_not_critical.
        split; [|done]. apply list_elem_of_fmap. by exists path.
Qed.

(** X16.  The approval is withheld exactly when a code-quality issue is critical
    or the path of a file flagged in the security or in the ethics results
    contains a critical keyword. *)
Theorem approval_depends_on_quality_texts_and_paths vr v :
  _perform_final_validation repr vr = Ok v →
  approved v = false ↔
  (∃ result issue, _validate_code_quality repr vr = Ok result ∧
                   issue ∈ issues result ∧ is_critical issue = true) ∨
  (∃ key path, (key = "security_results" ∨ key = "ethics_results") ∧
               path ∈ unsafe_paths (section_items vr key) ∧ is_critical path = true).
Proof. apply approval_cases. Qed.

End Facts.

(** ** The statements on the results of a concrete run *)

Import ValidationExamples AgentExamples.

Lemma every_criterion_is_recorded_witness :
  ∃ v, _perform_final_validation no_repr (PDict collected) = Ok v ∧
       map fst (criteria v) = validation_criteria.
Proof.
  destruct (perform_final_validation_returns no_repr (PDict collected)) as [v Hv];
    [vm_compute; reflexivity|].
  exists v. split; [exact Hv|].
  exact (proj1 (every_criterion_is_recorded no_repr (PDict collected) v Hv)).
Defined.

Lemma documentation_and_testing_never_block_witness :
  is_critical "README.md not created" = false ∧
  is_critical "Syntax validation failed" = false.
Proof.
  split.
  - apply (documentation_and_testing_never_block (PDict collected)
             {| passed := false;
                issues := ["README.md not created"; "API documentation not created"];
                recommendations := Some ["Create comprehensive documentation"] |}).
    + left. vm_compute. reflexivity.
    + left.
  - apply (documentation_and_testing_never_block (PDict collected)
             {| passed := false;
                issues := ["Syntax validation failed"];
                recommendations := Some ["Fix failing tests"] |}).
    + right. vm_compute. reflexivity.
    + left.
Defined.

Lemma shared_results_give_shared_verdict_witness :
  ∃ ethics paths,
    _validate_ethics (PDict collected) = Ok ethics ∧
    passed ethics = false ∧
    ["Security issues in broken_link.py"] =
      map (λ path, "Security issues in " +:+ path) paths ∧
    issues ethics = map (λ path, "Ethical issues in " +:+ path) paths.
Proof.
  apply (shared_results_give_shared_verdict collected
           {| passed := false;
              issues := ["Security issues in broken_link.py"];
              recommendations := Some ["Address security issues"] |});
    vm_compute; reflexivity.
Defined.

Lemma non_dictionary_results_are_reported_witness :
  ValidatorAgent.execute no_repr "t" [("validation_results", PStr "none")] =
    BaseAgent.create_response "valid_001" "t" false
      "Final validation failed: 'str' object has no attribute 'get'" None.
Proof.
  apply (non_dictionary_results_are_reported no_repr "t"
           [("validation_results", PStr "none")] (PStr "none")); reflexivity.
Defined.

Lemma approval_depends_on_quality_texts_and_paths_witness :
  ∃ v, _perform_final_validation no_repr (PDict collected) = Ok v ∧ approved v = false.
Proof.
  destruct (perform_final_validation_returns no_repr (PDict collected)) as [v Hv];
    [vm_compute; reflexivity|].
  exists v. split; [exact Hv|].
  apply (proj2 (approval_depends_on_quality_texts_and_paths no_repr (PDict collected) v Hv)).
  right. exists "security_results", "broken_link.py". split; [by left|].
  split; [|vm_compute; reflexivity].
  vm_compute. repeat constructor.
Defined.

End ValidationFacts.

(* ===================================================================== *)
(** * Agent objects                                                   *)
(* ===================================================================== *)

Module ObjectFacts.

Section Facts.
Context {F E : Type}.

(** What lies outside an agent object leaves its fields as they are. *)
Lemma outside_fields {A} (c : World E → A * World E) (w : World (F * E)) :
  fields (outside c w).2 = fields w.
Proof. unfold outside, fields. by destruct (c _). Qed.

Lemma outside_result {A} (c : World E → A * World E) (w : World (F * E)) :
  (outside c w).1 = (c {| context := context w; now := now w; ext := (ext w).2 |}).1.
Proof. unfold outside. by destruct (c _). Qed.

End Facts.
End ObjectFacts.

(* ===================================================================== *)
(** * The standards agent and the code-quality check                  *)
(* ===================================================================== *)

Module StandardsFacts.

Import ValidatorAgent Validation ValidationPaths Main.

Section Standards.
Context {S : Type}.
Variable repr : pyval → string.
Variable ops : StandardsAgent.Ops S.

Lemma standards_execute_cases w :
  let files := from_option id (PList []) (dict_lookup "generated_files" (context w)) in
  StandardsAgent.execute ops w =
    if negb (truthy files) then
      (Ok (BaseAgent.create_response StandardsAgent.self_id (now w) false
             "No files provided for standards checking" None), w)
    else
      let r1 := StandardsAgent._run_black ops files w in
      let r2 := StandardsAgent._run_flake8 ops files r1.2 in
      let r3 := StandardsAgent._run_mypy ops files r2.2 in
      let w' := StandardsAgent._apply_automatic_fixes ops files r3.2 in
      (Ok (BaseAgent.create_response StandardsAgent.self_id (now w') true
             "🧩 Coding standards enforced successfully"
             (Some [("standards_results",
                     PDict [("black", PDict r1.1); ("flake8", PDict r2.1);
                            ("mypy", PDict r3.1)])])), w').
Proof.
  cbn zeta. unfold StandardsAgent.execute.
  destruct (negb (truthy _)); [done|].
  unfold StandardsAgent.standards_tools. cbn [StandardsAgent.run_tools].
  unfold StandardsAgent._run_standards_tool. cbn [String.eqb Ascii.eqb Bool.eqb].
  destruct (StandardsAgent._run_black _ _ _) as [d1 w1]. cbn [fst snd].
  cbn [String.eqb Ascii.eqb Bool.eqb].
  destruct (StandardsAgent._run_flake8 _ _ _) as [d2 w2]. cbn [fst snd].
  destruct (StandardsAgent._run_mypy _ _ _) as [d3 w3]. cbn [fst snd].
  reflexivity.
Qed.

Lemma black_reading files w :
  reading repr (StandardsAgent._run_black ops files w).1 ∈
    [(true, "Code is properly formatted"); (false, "Code needs formatting");
     (false, "Issues found")].
Proof.
  unfold StandardsAgent._run_black.
  destruct (StandardsAgent.subprocess_run _ _ _ _) as [[rc out| |e] w1];
    [destruct (rc =? 0)%Z|..]; cbn; repeat constructor.
Qed.

Lemma flake8_reading files w :
  reading repr (StandardsAgent._run_flake8 ops files w).1 ∈
    [(true, "No linting issues found"); (false, "Linting issues found");
     (false, "Issues found")].
Proof.
  unfold StandardsAgent._run_flake8.
  destruct (StandardsAgent.subprocess_run _ _ _ _) as [[rc out| |e] w1];
    [destruct (rc =? 0)%Z|..]; cbn; repeat constructor.
Qed.

Lemma mypy_reading files w :
  reading repr (StandardsAgent._run_mypy ops files w).1 ∈
    [(true, "No type checking issues found"); (false, "Type checking issues found");
     (false, "Issues found")].
Proof.
  unfold StandardsAgent._run_mypy.
  destruct (StandardsAgent.subprocess_run _ _ _ _) as [[rc out| |e] w1];
    [destruct (rc =? 0)%Z|..]; cbn; repeat constructor.
Qed.

Lemma code_quality_loop_reading tool d rest acc :
  code_quality_loop repr ((tool, PDict d) :: rest) acc =
    code_quality_loop repr rest
      (if (reading repr d).1 then acc else acc ++ [tool +:+ ": " +:+ (reading repr d).2]).
Proof.
  cbn [code_quality_loop get rbind]. unfold reading. cbn [fst snd].
  by destruct (eq_str _ _).
Qed.

Lemma standards_quality w r w' t d e :
  StandardsAgent.execute ops w = (Ok r, w') →
  success r = truthy (from_option id (PList []) (dict_lookup "generated_files" (context w))) ∧
  ∃ result,
    _validate_code_quality repr (PDict (collect_validation_results r t d e)) = Ok result ∧
    ∀ issue, issue ∈ issues result →
      issue ∈ ["black: Code needs formatting"; "black: Issues found";
               "flake8: Linting issues found"; "flake8: Issues found";
               "mypy: Type checking issues found"; "mypy: Issues found"] ∧
      is_critical issue = false.
Proof.
  rewrite standards_execute_cases. cbn zeta.
  destruct (truthy _) eqn:Hfiles; cbn [negb].
  2:{ intros [= <- <-]. split; [done|]. eexists. split; [reflexivity|].
      cbn. by intros ? ?%elem_of_nil. }
  intros [= <- <-]. split; [done|].
  unfold collect_validation_results, data_get, _validate_code_quality.
  cbn [BaseAgent.create_response data dict_lookup get rbind from_option id String.eqb
       Ascii.eqb Bool.eqb truthy negb items].
  rewrite !code_quality_loop_reading. cbn [code_quality_loop app].
  eexists. split; [reflexivity|]. cbn [issues].
  set (f := from_option id (PList []) (dict_lookup "generated_files" (context w))).
  assert (H1 := black_reading f w).
  set (w1 := (StandardsAgent._run_black ops f w).2).
  assert (H2 := flake8_reading f w1).
  set (w2 := (StandardsAgent._run_flake8 ops f w1).2).
  assert (H3 := mypy_reading f w2).
  destruct (reading _ _) as [b1 m1], (reading _ _) as [b2 m2], (reading _ _) as [b3 m3].
  cbn [fst snd].
  repeat (apply elem_of_cons in H1 as [[= -> ->]|H1]); [| | |by apply elem_of_nil in H1];
  (repeat (apply elem_of_cons in H2 as [[= -> ->]|H2]); [| | |by apply elem_of_nil in H2]);
  (repeat (apply elem_of_cons in H3 as [[= -> ->]|H3]); [| | |by apply elem_of_nil in H3]);
  cbn [app]; intros issue Hin;
  repeat (apply elem_of_cons in Hin as [->|Hin];
          [split; [repeat constructor|vm_compute; reflexivity]|]);
  by apply elem_of_nil in Hin.
Qed.

(** X17.  The standards step and the code-quality check on its results.  With
    files to check the agent answers [success = True] whatever the tools
    report, also when a tool is missing or fails; and the issues the
    validator then lists are among six fixed texts, none of which is
    critical: the findings of the standards tools never withhold the
    approval. *)
Theorem standards_findings_never_block w r w' t d e :
  StandardsAgent.execute ops w = (Ok r, w') →
  success r = truthy (from_option id (PList []) (dict_lookup "generated_files" (context w))) ∧
  ∃ result,
    _validate_code_quality repr (PDict (collect_validation_results r t d e)) = Ok result ∧
    ∀ issue, issue ∈ issues result →
      issue ∈ ["black: Code needs formatting"; "black: Issues found";
               "flake8: Linting issues found"; "flake8: Issues found";
               "mypy: Type checking issues found"; "mypy: Issues found"] ∧
      is_critical issue = false.
Proof. apply standards_quality. Qed.

End Standards.

Import ValidationExamples AgentExamples.

Lemma standards_findings_never_block_witness :
  success standards_answer = true ∧
  ∃ result,
    _validate_code_quality no_repr (PDict collected) = Ok result ∧
    ∀ issue, issue ∈ issues result →
      issue ∈ ["black: Code needs formatting"; "black: Issues found";
               "flake8: Linting issues found"; "flake8: Issues found";
               "mypy: Type checking issues found"; "mypy: Issues found"] ∧
      is_critical issue = false.
Proof.
  assert (Hrun : StandardsAgent.execute no_tools with_files = (Ok standards_answer, with_files))
    by (vm_compute; reflexivity).
  exact (standards_findings_never_block no_repr no_tools with_files standards_answer
           with_files testing_answer documentation_answer review_answer Hrun).
Defined.

End StandardsFacts.

(* ===================================================================== *)
(** * What the testing and documentation agents hand over             *)
(* ===================================================================== *)

Module HandoverFacts.

Import ValidatorAgent Validation Main.

Section Testing.
Context {S : Type}.
Variable ops : TestingAgent.Ops S.

(** The data of an answer of the testing agent that reports success. *)
Lemma testing_data w r w' :
  TestingAgent.execute ops w = (Ok r, w') →
  success r = true →
  ∃ syntax unit_tests integration,
    data r = [("test_results",
               PDict [("syntax_validation", syntax); ("unit_tests", unit_tests);
                      ("integration_tests", integration)])].
Proof.
  unfold TestingAgent.execute, try_except, bind, TestingAgent.create_response, lift.
  destruct (negb (truthy _)); [by intros [= <- <-]|].
  destruct (TestingAgent._validate_syntax _ _ _) as [[syn|e] w1]; [|by intros [= <- <-]].
  destruct (TestingAgent._run_tests _ _) as [[unit|e] w2]; [|by intros [= <- <-]].
  destruct (TestingAgent._run_integration_tests _ _) as [[integ|e] w3];
    [|by intros [= <- <-]].
  destruct (TestingAgent._evaluate_results _) as [ok|e]; [|by intros [= <- <-]].
  intros [= <- <-] _. by exists syn, unit, integ.
Qed.

(** X18.  The testing check of the validator never passes on what the testing
    agent hands over: the agent files its syntax results under
    ["syntax_validation"], the check reads ["syntax_valid"].  So after a
    testing step that reported success the check either lists "Syntax
    validation failed" first, or raises because the unit-test result is no
    dictionary; it returns whenever that result is one. *)
Theorem testing_check_fails_on_agent_data w r w' s d e :
  TestingAgent.execute ops w = (Ok r, w') →
  success r = true →
  let checked := _validate_testing (PDict (collect_validation_results s r d e)) in
  (∀ result, checked = Ok result →
     passed result = false ∧ head (issues result) = Some "Syntax validation failed" ∧
     recommendations result = Some ["Fix failing tests"]) ∧
  (∀ unit_tests,
     get (data_get r "test_results") "unit_tests" (PDict []) = Ok (PDict unit_tests) →
     ∃ result, checked = Ok result).
Proof.
  intros Hrun Hok. destruct (testing_data _ _ _ Hrun Hok) as (syn & unit & integ & Hdata).
  unfold collect_validation_results, data_get, _validate_testing.
  rewrite Hdata.
  cbn [dict_lookup get rbind from_option id String.eqb Ascii.eqb Bool.eqb truthy negb].
  split.
  - intros result. destruct unit; cbn; try discriminate.
    destruct (eq_int _ 0); intros [= <-]; done.
  - intros unit_tests [= ->]. cbn. by eexists.
Qed.

End Testing.

Section Documentation.
Context {S : Type}.
Variable ops : DocumentationAgent.Ops S.

Lemma documentation_data w r w' :
  DocumentationAgent.execute ops w = (Ok r, w') →
  success r = true →
  ∃ docstring_results,
    data r = [("documentation_files",
               PList [PStr "README.md"; PStr "CHANGELOG.md"; PStr "docs/API.md"]);
              ("docstring_results", docstring_results)].
Proof.
  unfold DocumentationAgent.execute, try_except, bind, DocumentationAgent.create_response,
    DocumentationAgent._create_readme, DocumentationAgent._create_changelog,
    DocumentationAgent._create_api_documentation, bind, ret.
  destruct (DocumentationAgent.write_readme _ _ _ _) as [[[]|e] w1]; [|by intros [= <- <-]].
  destruct (DocumentationAgent._update_docstrings _ _ _) as [[ds|e] w2];
    [|by intros [= <- <-]].
  destruct (DocumentationAgent.write_changelog _ _) as [[[]|e] w3]; [|by intros [= <- <-]].
  destruct (DocumentationAgent.write_api_documentation _ _ _) as [[[]|e] w4];
    [|by intros [= <- <-]].
  intros [= <- <-] _. by exists ds.
Qed.

(** X19.  The documentation check of the validator fails on what the
    documentation agent hands over.  After the agent has written the
    README, the changelog and the API documentation and reported success,
    the check, which reads the keys ["readme_created"] and
    ["api_docs_created"] that the agent never sets, returns both of its
    issues. *)
Theorem documentation_check_fails_on_agent_data w r w' s t e :
  DocumentationAgent.execute ops w = (Ok r, w') →
  success r = true →
  _validate_documentation (PDict (collect_validation_results s t r e)) =
    Ok {| passed := false;
          issues := ["README.md not created"; "API documentation not created"];
          recommendations := Some ["Create comprehensive documentation"] |}.
Proof.
  intros Hrun Hok. destruct (documentation_data _ _ _ Hrun Hok) as (ds & Hdata).
  unfold collect_validation_results, _validate_documentation. rewrite Hdata. reflexivity.
Qed.

End Documentation.

Import AgentExamples.

Lemma testing_check_fails_on_agent_data_witness :
  ∃ result, _validate_testing (PDict collected) = Ok result ∧ passed result = false.
Proof.
  assert (Hrun : TestingAgent.execute passing_tests with_files = (Ok testing_answer, with_files))
    by (vm_compute; reflexivity).
  destruct (testing_check_fails_on_agent_data passing_tests with_files testing_answer
              with_files standards_answer documentation_answer review_answer Hrun eq_refl)
    as [Hall Hret].
  destruct (Hret [("status", PStr "completed"); ("return_code", PInt 0)]) as [result Hr];
    [vm_compute; reflexivity|].
  exists result. split; [exact Hr|]. exact (proj1 (Hall result Hr)).
Defined.

Lemma documentation_check_fails_on_agent_data_witness :
  _validate_documentation (PDict collected) =
    Ok {| passed := false;
          issues := ["README.md not created"; "API documentation not created"];
          recommendations := Some ["Create comprehensive documentation"] |}.
Proof.
  assert (Hrun : DocumentationAgent.execute writing with_files =
                 (Ok documentation_answer, with_files)) by (vm_compute; reflexivity).
  exact (documentation_check_fails_on_agent_data writing with_files documentation_answer
           with_files standards_answer testing_answer review_answer Hrun eq_refl).
Defined.

End HandoverFacts.

(* ===================================================================== *)
(** * The ethics agent                                                *)
(* ===================================================================== *)

Module EthicsFacts.

Import ValidatorAgent ValidationPaths EthicsAgent Main.

Lemma count_from_zero text content :
  text ≠ EmptyString →
  count_from text 0 content = 0 ↔ contains text content = false.
Proof.
  intros Hne. induction content as [|c rest IH].
  - cbn. destruct text; [done|]. cbn. done.
  - cbn [count_from contains].
    destruct (String.prefix text (String c rest)); cbn [orb]; [done|apply IH].
Qed.

Lemma flat_map_nil {A B} (f : A → list B) l :
  flat_map f l = [] ↔ ∀ x, x ∈ l → f x = [].
Proof.
  induction l as [|a l IH]; cbn.
  - split; [by intros _ ? ?%elem_of_nil|done].
  - split.
    + intros [H1 H2]%app_eq_nil x [->|Hin]%elem_of_cons; [done|by apply IH].
    + intros H. rewrite (H a) by left. apply IH. intros x Hx. apply H. by right.
Qed.

(** X22.  What the two checks of a file look for.  The security check finds
    nothing exactly when none of the eleven texts (the patterns without
    their backslashes) occurs in the content; the ethics check finds
    nothing exactly when none of the six words occurs in the content put
    in lower case. *)
Theorem file_is_clean_iff_no_text_occurs content :
  (_check_security_issues content = [] ↔
     ∀ pattern, pattern ∈ security_patterns → contains (unescape pattern) content = false) ∧
  (_check_ethical_issues content = [] ↔
     ∀ concern, concern ∈ ethical_concerns → contains concern (lower content) = false).
Proof.
  unfold _check_security_issues, _check_ethical_issues. rewrite !flat_map_nil. split.
  - split; intros H pattern Hin.
    + specialize (H pattern Hin). cbn zeta in H. unfold count_matches in H.
      apply count_from_zero.
      { unfold security_patterns in Hin.
        repeat (apply elem_of_cons in Hin as [->|Hin]; [done|]). by apply elem_of_nil in Hin. }
      by destruct (count_from _ 0 content).
    + cbn zeta. unfold count_matches.
      assert (Hz : count_from (unescape pattern) 0 content = 0).
      { apply count_from_zero; [|by apply H].
        unfold security_patterns in Hin.
        repeat (apply elem_of_cons in Hin as [->|Hin]; [done|]). by apply elem_of_nil in Hin. }
      by rewrite Hz.
  - split; intros H concern Hin.
    + specialize (H concern Hin). cbn in H. by destruct (contains _ _).
    + cbn. by rewrite (H concern Hin).
Qed.

Section Facts.
Context {S : Type}.
Variable read_file : string → SE (World S) string.

Lemma review_file_reviewed file_path w :
  reviewed (PDict (_review_file read_file file_path w).1).
Proof.
  unfold _review_file.
  destruct (read_file file_path w) as [[content|e] w']; [left|right]; by eexists.
Qed.

Lemma dict_set_Forall {A} (P : string * A → Prop) k (v : A) d :
  (∀ k', P (k', v)) → Forall P d → Forall P (dict_set k v d).
Proof.
  intros Hv. induction 1 as [|[k' v'] d Hkv Hall IH]; cbn.
  - by repeat constructor.
  - destruct (String.eqb k k'); constructor; auto.
Qed.

Lemma review_all_reviewed files acc w :
  Forall (λ kv, reviewed kv.2) acc →
  Forall (λ kv, reviewed kv.2) (review_all read_file files acc w).1.
Proof.
  revert acc w. induction files as [|file rest IH]; intros acc w Hacc; [done|].
  cbn [review_all].
  assert (Hr := review_file_reviewed file w).
  destruct (_review_file read_file file w) as [result w1]. cbn [fst] in Hr.
  apply IH, dict_set_Forall; [|done]. by intros k'.
Qed.

Lemma strings_value_empty l : eq_empty_list (strings_value l) = len_is_zero l.
Proof. by destruct l. Qed.

(** On a result of [_review_file] that the agent counts as without
    findings, the validator's flag says that the file was not read. *)
Lemma reviewed_flag result d :
  reviewed result → result = PDict d → without_findings d = true →
  flagged_unsafe result = true ↔ ∃ e, dict_lookup "error" d = Some (PStr e).
Proof.
  intros [[content ->]|[e ->]] [= <-].
  - unfold without_findings. cbn [dict_lookup String.eqb Ascii.eqb Bool.eqb from_option id].
    rewrite !strings_value_empty. intros Hw. unfold flagged_unsafe.
    cbn [get dict_lookup String.eqb Ascii.eqb Bool.eqb from_option id truthy]. rewrite Hw. cbn.
    split; [done|]. by intros [? ?].
  - intros _. cbn. split; [by exists e|done].
Qed.

Lemma passed_review_shape files w r w' :
  EthicsAgent.execute read_file files w = (Ok r, w') →
  success r = true →
  ∃ review_results,
    data r = [("review_results", PDict review_results)] ∧
    ∀ path result,
      (path, result) ∈ review_results →
      ∃ d, result = PDict d ∧ without_findings d = true ∧
           (path ∈ unsafe_paths review_results ∧ flagged_unsafe result = true ↔
            ∃ e, dict_lookup "error" d = Some (PStr e)).
Proof.
  unfold EthicsAgent.execute. destruct (len_is_zero files); [by intros [= <- <-]|].
  assert (Hall := review_all_reviewed files [] w (Forall_nil_2 _)).
  destruct (review_all read_file files [] w) as [rr w1]. cbn [fst] in Hall.
  intros [= <- <-]. cbn [success BaseAgent.create_response data]. intros Hsafe.
  exists rr. split; [done|]. intros path result Hin.
  unfold all_without_findings in Hsafe. rewrite forallb_forall in Hsafe.
  assert (Hres := Hsafe _ (proj1 (list_elem_of_In _ _) Hin)). cbn [snd] in Hres.
  rewrite Forall_forall in Hall. assert (Hrev := Hall _ Hin). cbn [snd] in Hrev.
  destruct result as [| | | | |d]; try done.
  exists d. split; [done|]. split; [done|].
  rewrite <- (reviewed_flag (PDict d) d Hrev eq_refl Hres). split; [by intros [_ ?]|].
  intros Hflag. split; [|done].
  unfold unsafe_paths. apply list_elem_of_fmap. exists (path, PDict d). split; [done|].
  apply list_elem_of_In, filter_In. split; [by apply list_elem_of_In|done].
Qed.

(** X20.  A review that passes still hands flagged files to the validator.
    When the ethics agent answers [success = True], no reviewed file has a
    finding; the files its results mark as not safe, which are the files
    the security and the ethics check of the validator list, are exactly
    the files that could not be read. *)
Theorem passed_review_flags_unreadable_files files w r w' :
  EthicsAgent.execute read_file files w = (Ok r, w') →
  success r = true →
  ∃ review_results,
    data r = [("review_results", PDict review_results)] ∧
    ∀ path result,
      (path, result) ∈ review_results →
      ∃ d, result = PDict d ∧ without_findings d = true ∧
           (path ∈ unsafe_paths review_results ∧ flagged_unsafe result = true ↔
            ∃ e, dict_lookup "error" d = Some (PStr e)).
Proof. apply passed_review_shape. Qed.

End Facts.

Import Examples AgentExamples.

Lemma passed_review_flags_unreadable_files_witness :
  ∃ review_results,
    data review_answer = [("review_results", PDict review_results)] ∧
    ∀ path result,
      (path, result) ∈ review_results →
      ∃ d, result = PDict d ∧ without_findings d = true ∧
           (path ∈ unsafe_paths review_results ∧ flagged_unsafe result = true ↔
            ∃ e, dict_lookup "error" d = Some (PStr e)).
Proof.
  assert (Hrun : EthicsAgent.execute one_file reviewed_files (world0 []) =
                 (Ok review_answer, world0 [])) by (vm_compute; reflexivity).
  exact (passed_review_flags_unreadable_files one_file reviewed_files (world0 [])
           review_answer (world0 []) Hrun eq_refl).
Defined.

End EthicsFacts.

(* ===================================================================== *)
(** * The verdict of the main workflow                                *)
(* ===================================================================== *)

Module WorkflowVerdict.

Import ValidatorAgent Validation ValidationPaths Main.

Section Facts.
Context {S : Type}.
Variable repr : pyval → string.
Variable standards : StandardsAgent.Ops S.
Variable read_file : string → SE (World S) string.

Lemma unsafe_paths_elem path its :
  path ∈ unsafe_paths its ↔ ∃ result, (path, result) ∈ its ∧ flagged_unsafe result = true.
Proof.
  unfold unsafe_paths. rewrite list_elem_of_fmap. split.
  - intros ([p r] & -> & [Hin Hf]%list_elem_of_In%filter_In). exists r.
    split; [by apply list_elem_of_In|done].
  - intros (r & Hin & Hf). exists (path, r). split; [done|].
    apply list_elem_of_In, filter_In. split; [by apply list_elem_of_In|done].
Qed.

(** X21.  The verdict of the main workflow.  On the results as [run_workflow]
    collects them, with the standards agent's answer and a review that
    passed, the approval does not depend on what the standards tools, the
    tests and the documentation step report: it is withheld exactly when
    the path of a file that could not be read for the review contains one
    of the critical keywords. *)
Theorem approval_hangs_on_unreadable_paths w1 s w1' files w2 e w2' t d v :
  StandardsAgent.execute standards w1 = (Ok s, w1') →
  EthicsAgent.execute read_file files w2 = (Ok e, w2') →
  success e = true →
  _perform_final_validation repr (PDict (collect_validation_results s t d e)) = Ok v →
  ∃ review_results,
    data e = [("review_results", PDict review_results)] ∧
    (approved v = false ↔
     ∃ path result reason,
       (path, PDict result) ∈ review_results ∧
       dict_lookup "error" result = Some (PStr reason) ∧
       is_critical path = true).
Proof.
  intros Hs He Hok Hv.
  destruct (EthicsFacts.passed_review_shape _ _ _ _ _ He Hok) as (rr & Hdata & Hrr).
  exists rr. split; [done|].
  rewrite (ValidationFacts.approval_cases repr _ _ Hv).
  assert (Hsec : ∀ key, key = "security_results" ∨ key = "ethics_results" →
            section_items (PDict (collect_validation_results s t d e)) key = rr).
  { intros key [-> | ->]; unfold section_items, collect_validation_results, data_get;
      rewrite Hdata; reflexivity. }
  split.
  - intros [(result & issue & Hq & Hin & Hcrit)|(key & path & Hkey & Hpath & Hcrit)].
    + destruct (StandardsFacts.standards_quality repr _ _ _ _ t d e Hs)
        as (_ & result' & Hq' & Hmild).
      rewrite Hq in Hq'. injection Hq' as <-.
      destruct (Hmild issue Hin) as [_ Hnot]. congruence.
    + rewrite (Hsec key Hkey) in Hpath.
      apply unsafe_paths_elem in Hpath as (result & Hin & Hflag).
      destruct (Hrr path result Hin) as (d' & -> & _ & Hiff).
      destruct (proj1 Hiff) as [reason Hreason].
      { split; [|done]. apply unsafe_paths_elem. by exists (PDict d'). }
      by exists path, d', reason.
  - intros (path & result & reason & Hin & Hreason & Hcrit). right.
    exists "security_results", path. split; [by left|]. split; [|done].
    rewrite (Hsec "security_results") by by left.
    destruct (Hrr path (PDict result) Hin) as (d' & [= <-] & _ & Hiff).
    apply Hiff. by exists reason.
Qed.

End Facts.

Import ValidationExamples Examples AgentExamples.

Lemma approval_hangs_on_unreadable_paths_witness :
  ∃ v, _perform_final_validation no_repr (PDict collected) = Ok v ∧ approved v = false.
Proof.
  destruct (FinalValidation.perform_final_validation_returns no_repr (PDict collected))
    as [v Hv]; [vm_compute; reflexivity|].
  exists v. split; [exact Hv|].
  assert (Hs : StandardsAgent.execute no_tools with_files = (Ok standards_answer, with_files))
    by (vm_compute; reflexivity).
  assert (He : EthicsAgent.execute one_file reviewed_files (world0 []) =
               (Ok review_answer, world0 [])) by (vm_compute; reflexivity).
  destruct (approval_hangs_on_unreadable_paths no_repr no_tools one_file
              with_files standards_answer with_files reviewed_files (world0 [])
              review_answer (world0 []) testing_answer documentation_answer v
              Hs He eq_refl Hv) as (review_results & Hdata & Hiff).
  vm_compute in Hdata. injection Hdata as <-. apply Hiff.
  eexists "broken_link.py", _, _. split; [right; left|].
  split; vm_compute; reflexivity.
Defined.

End WorkflowVerdict.

(* ===================================================================== *)
(** * The deployment prompt of the main program                       *)
(* ===================================================================== *)

Module DeliveryFacts.

Import Main DeploymentAgent.

Lemma strip_digit_cases s :
  (String.eqb s "1" = true ∧ s = "1") ∨
  (String.eqb s "1" = false ∧ String.eqb s "2" = true ∧ s = "2") ∨
  (String.eqb s "1" = false ∧ String.eqb s "2" = false ∧ String.eqb s "3" = true ∧
   s = "3") ∨
  (String.eqb s "1" = false ∧ String.eqb s "2" = false ∧ String.eqb s "3" = false ∧
   s ∉ ["1"; "2"; "3"]).
Proof.
  destruct (String.eqb_spec s "1") as [->|H1]; [by left|right].
  destruct (String.eqb_spec s "2") as [->|H2]; [by left|right].
  destruct (String.eqb_spec s "3") as [->|H3]; [by left|right].
  repeat split. intros Hin.
  repeat (apply elem_of_cons in Hin as [->|Hin]; [done|]). by apply elem_of_nil in Hin.
Qed.

Lemma ask_deployment_choice_shape lines :
  match ask_deployment_choice lines with
  | Ok (choice, rest) =>
      ∃ skipped line,
        lines = skipped ++ line :: rest ∧
        Forall (λ l, strip l ∉ ["1"; "2"; "3"]) skipped ∧
        (strip line, choice) ∈ [("1", "github"); ("2", "executable"); ("3", "source_only")]
  | Raise e =>
      e = "EOF when reading a line" ∧ Forall (λ l, strip l ∉ ["1"; "2"; "3"]) lines
  end.
Proof.
  induction lines as [|line rest IH]; [done|].
  cbn [ask_deployment_choice].
  destruct (strip_digit_cases (strip line))
    as [[-> Hs]|[(-> & -> & Hs)|[(-> & -> & -> & Hs)|(-> & -> & -> & Hs)]]].
  - exists [], line. rewrite Hs. split; [done|]. split; [constructor|repeat constructor].
  - exists [], line. rewrite Hs. split; [done|]. split; [constructor|repeat constructor].
  - exists [], line. rewrite Hs. split; [done|]. split; [constructor|repeat constructor].
  - destruct (ask_deployment_choice rest) as [[choice rest']|e].
    + destruct IH as (skipped & line' & -> & Hall & Hin).
      exists (line :: skipped), line'. split; [done|]. split; [by constructor|done].
    + destruct IH as [-> Hall]. split; [done|by constructor].
Qed.


(** X23.  The prompt for the deployment option: the lines are read until one
    is, spaces around it apart, one of the digits 1, 2 and 3; that digit
    fixes the choice, the lines before it are dropped, and when no line is
    such a digit the loop ends only with the end of the input. *)
Theorem prompt_accepts_the_three_digits_only lines :
  match ask_deployment_choice lines with
  | Ok (choice, rest) =>
      ∃ skipped line,
        lines = skipped ++ line :: rest ∧
        Forall (λ l, strip l ∉ ["1"; "2"; "3"]) skipped ∧
        (strip line, choice) ∈ [("1", "github"); ("2", "executable"); ("3", "source_only")]
  | Raise e =>
      e = "EOF when reading a line" ∧ Forall (λ l, strip l ∉ ["1"; "2"; "3"]) lines
  end.
Proof. apply ask_deployment_choice_shape. Qed.

(** White space outside ASCII.  [str.strip()] removes the no-break space:
    a line that holds nothing else is blank, and the digit behind one is
    taken as the choice. *)
Example no_break_space_is_stripped :
  strip no_break_space = EmptyString ∧
  strip (no_break_space +:+ "3") = "3" ∧
  ask_deployment_choice [no_break_space +:+ "3"; "1"] = Ok ("source_only", ["1"]).
Proof. repeat split; vm_compute; reflexivity. Qed.

Section Facts.
Context {S : Type}.
Variable ops : Ops S.
Variable self_id : string.
Variable repr : pyval → string.

Lemma dict_set_lookup k v (d : dict) : dict_lookup k (ValidatorAgent.dict_set k v d) = Some v.
Proof.
  induction d as [|[k' v'] d IH]; cbn.
  - by rewrite String.eqb_refl.
  - destruct (String.eqb k k') eqn:Hk; cbn; [by rewrite String.eqb_refl|by rewrite Hk].
Qed.

(** X24.  The choice the main program puts into the context is always one the
    deployment agent knows: after the prompt, the agent runs the packaging
    method of the typed digit and never answers "Invalid deployment
    option". *)
Theorem prompted_choice_is_always_valid lines choice rest (w : World S) :
  ask_deployment_choice lines = Ok (choice, rest) →
  choice ∈ deployment_options ∧
  DeploymentAgent.execute ops self_id repr (set_deployment_choice choice w) =
    try_except
      (result <- (if String.eqb choice "github" then _deploy_to_github ops
                  else if String.eqb choice "executable" then _deploy_as_executable ops
                  else _deploy_source_only ops) ;;
       conclude self_id repr result)
      (λ e, create_response self_id false ("Deployment failed: " +:+ e) None)
      (set_deployment_choice choice w) ∧
  ∀ resp w',
    DeploymentAgent.execute ops self_id repr (set_deployment_choice choice w) = (Ok resp, w') →
    message resp ≠ "Invalid deployment option".
Proof.
  intros Hask.
  assert (Hin : choice ∈ deployment_options).
  { assert (H := ask_deployment_choice_shape lines). rewrite Hask in H.
    destruct H as (skipped & line & _ & _ & Hin). unfold deployment_options.
    repeat (apply elem_of_cons in Hin as [[= _ ->]|Hin]; [repeat constructor|]).
    by apply elem_of_nil in Hin. }
  split; [done|].
  assert (Hexec : DeploymentAgent.execute ops self_id repr (set_deployment_choice choice w) =
    try_except
      (result <- (if String.eqb choice "github" then _deploy_to_github ops
                  else if String.eqb choice "executable" then _deploy_as_executable ops
                  else _deploy_source_only ops) ;;
       conclude self_id repr result)
      (λ e, create_response self_id false ("Deployment failed: " +:+ e) None)
      (set_deployment_choice choice w)).
  { rewrite Deployment.execute_by_choice. unfold deployment_choice, set_deployment_choice.
    cbn [context]. rewrite dict_set_lookup. cbn [from_option id eq_str].
    unfold deployment_options in Hin.
    repeat (apply elem_of_cons in Hin as [->|Hin]; [reflexivity|]).
    by apply elem_of_nil in Hin. }
  split; [done|]. rewrite Hexec. intros resp w' Hrun.
  destruct (Deployment.concluded_message _ _ _ _ _ _ Hrun) as [->|[text ->]]; discriminate.
Qed.

End Facts.

Import Examples DeploymentExamples.

Lemma prompted_choice_is_always_valid_witness :
  ask_deployment_choice [" 4"; "2 "; "x"] = Ok ("executable", ["x"]) ∧
  "executable" ∈ deployment_options ∧
  DeploymentAgent.execute ops "deploy_001" (λ _, EmptyString)
    (set_deployment_choice "executable" (world0 [])) =
    (Ok (BaseAgent.create_response "deploy_001" "t" true "SUCCESS: Deployment completed"
           (Some [("success", PBool true); ("deployment_type", PStr "executable")])),
     set_deployment_choice "executable" (world0 [])).
Proof.
  assert (Hask : ask_deployment_choice [" 4"; "2 "; "x"] = Ok ("executable", ["x"]))
    by (vm_compute; reflexivity).
  destruct (prompted_choice_is_always_valid ops "deploy_001" (λ _, EmptyString)
              [" 4"; "2 "; "x"] "executable" ["x"] (world0 []) Hask) as (Hin & Hrun & _).
  split; [exact Hask|]. split; [exact Hin|].
  rewrite Hrun. vm_compute. reflexivity.
Defined.

End DeliveryFacts.

(* ===================================================================== *)
(** * Further facts on the deployment agent                           *)
(* ===================================================================== *)

Module DeploymentFacts.

Import DeploymentAgent.

Section Facts.
Context {S : Type}.
Variable ops : Ops S.
Variable self_id : string.
Variable repr : pyval → string.

Local Abbreviation handler :=
  (λ e, create_response self_id false ("Deployment failed: " +:+ e) None).
Local Abbreviation execute := (DeploymentAgent.execute ops self_id repr).
Local Abbreviation conclude := (DeploymentAgent.conclude self_id repr).

Lemma concluded_cases (method : SE (World S) dict) w :
  ∃ resp w',
    try_except (result <- method ;; conclude result) handler w = (Ok resp, w') ∧
    (success resp = true ↔
     ∃ result flag,
       method w = (Ok result, w') ∧
       dict_lookup "success" result = Some flag ∧ truthy flag = true ∧
       resp = BaseAgent.create_response self_id (now w') true
                "SUCCESS: Deployment completed" (Some result)).
Proof.
  unfold try_except, bind, DeploymentAgent.conclude, lift, index, create_response, bind.
  destruct (method w) as [[result|e] w1]; cbn.
  2:{ eexists _, _. split; [done|]. cbn. split; [done|]. by intros (? & ? & ? & _). }
  destruct (dict_lookup "success" result) as [flag|] eqn:Hflag; cbn.
  2:{ eexists _, _. split; [done|]. cbn. split; [done|].
      intros (? & ? & [= <-] & Hf & _); congruence. }
  destruct (truthy flag) eqn:Hok; cbn.
  { eexists _, _. split; [done|]. cbn. split; [|done]. intros _. by exists result, flag. }
  destruct (dict_lookup "message" result) as [msg|]; cbn;
    (eexists _, _; split; [done|]; cbn; split; [done|]);
    intros (? & ? & [= <-] & Hf & Ht & _); congruence.
Qed.

(** X25.  The deployment agent always answers, it never raises; and its answer
    reports success exactly when the packaging method named by the choice
    returned a dictionary whose ["success"] is true, in which case that
    dictionary is the data of the answer.  A method that raises, or that
    returns no ["success"] entry, gives [success = False]. *)
Theorem deployment_succeeds_with_its_method w :
  ∃ resp w',
    execute w = (Ok resp, w') ∧
    (success resp = true ↔
     ∃ option method result flag,
       deployment_choice (context w) = PStr option ∧
       (option, method) ∈ [("github", _deploy_to_github ops);
                           ("executable", _deploy_as_executable ops);
                           ("source_only", _deploy_source_only ops)] ∧
       method w = (Ok result, w') ∧
       dict_lookup "success" result = Some flag ∧ truthy flag = true ∧
       resp = BaseAgent.create_response self_id (now w') true
                "SUCCESS: Deployment completed" (Some result)).
Proof.
  rewrite Deployment.execute_by_choice. cbn zeta.
  destruct (eq_str _ "github") eqn:H1.
  { apply StateMachine.eq_str_true in H1.
    destruct (concluded_cases (_deploy_to_github ops) w) as (resp & w' & -> & Hiff).
    exists resp, w'. split; [done|]. rewrite Hiff. split.
    - intros (result & flag & ?). exists "github", (_deploy_to_github ops), result, flag.
      split; [done|]. split; [repeat constructor|done].
    - intros (option & method & result & flag & Hc & Hin & ?). rewrite H1 in Hc.
      injection Hc as <-.
      set_unfold in Hin. destruct Hin as [Heq|[Heq|[Heq|[]]]]; simplify_eq.
      by exists result, flag. }
  destruct (eq_str _ "executable") eqn:H2.
  { apply StateMachine.eq_str_true in H2.
    destruct (concluded_cases (_deploy_as_executable ops) w) as (resp & w' & -> & Hiff).
    exists resp, w'. split; [done|]. rewrite Hiff. split.
    - intros (result & flag & ?). exists "executable", (_deploy_as_executable ops), result, flag.
      split; [done|]. split; [repeat constructor|done].
    - intros (option & method & result & flag & Hc & Hin & ?). rewrite H2 in Hc.
      injection Hc as <-.
      set_unfold in Hin. destruct Hin as [Heq|[Heq|[Heq|[]]]]; simplify_eq.
      by exists result, flag. }
  destruct (eq_str _ "source_only") eqn:H3.
  { apply StateMachine.eq_str_true in H3.
    destruct (concluded_cases (_deploy_source_only ops) w) as (resp & w' & -> & Hiff).
    exists resp, w'. split; [done|]. rewrite Hiff. split.
    - intros (result & flag & ?). exists "source_only", (_deploy_source_only ops), result, flag.
      split; [done|]. split; [repeat constructor|done].
    - intros (option & method & result & flag & Hc & Hin & ?). rewrite H3 in Hc.
      injection Hc as <-.
      set_unfold in Hin. destruct Hin as [Heq|[Heq|[Heq|[]]]]; simplify_eq.
      by exists result, flag. }
  eexists _, _. split; [done|]. cbn. split; [done|].
  intros (option & method & result & flag & Hc & Hin & _). rewrite Hc in H1, H2, H3.
  cbn in H1, H2, H3.
  set_unfold in Hin. destruct Hin as [Heq|[Heq|[Heq|[]]]]; simplify_eq.
Qed.

End Facts.
End DeploymentFacts.

(* ===================================================================== *)
(** * The repository agent                                            *)
(* ===================================================================== *)

Module RepositoryFacts.

Import RepositoryAgent.

Section Facts.
Context {E : Type}.
Variable ops : Ops E.
Variable repr : pyval → string.
Implicit Types (w : World (Fields * E)).

Lemma run_fields argv w : fields (run ops argv w).2 = fields w.
Proof.
  unfold run. assert (H := ObjectFacts.outside_fields (subprocess_run ops argv) w).
  by destruct (outside _ w).
Qed.

Lemma run_or_fields what argv w : fields (run_or ops what argv w).2 = fields w.
Proof.
  unfold run_or, bind. assert (H := run_fields argv w).
  by destruct (run ops argv w) as [[[| |]|] w1].
Qed.

(** [execute], when the credentials are there, step by step. *)
Lemma execute_with_credentials w :
  has_credentials (git_credentials (fields w)) = true →
  execute ops repr w =
    try_except
      (_initialize_git_repository ops ;;
       _create_gitignore ops ;;
       _commit_files ops ;;
       remote_url <- _create_remote_repository ops repr ;;
       _push_to_remote ops remote_url ;;
       create_response true "🚀 Repository created and deployed successfully"
         (Some [("repository_url", PStr remote_url)]))
      (λ e, create_response false ("Repository operations failed: " +:+ e) None) w.
Proof.
  intros H. unfold execute, try_except, bind at 1, _has_git_credentials. by rewrite H.
Qed.

Lemma execute_without_credentials w :
  has_credentials (git_credentials (fields w)) = false →
  execute ops repr w =
    (Ok (BaseAgent.create_response self_id (now w) false
           "Please provide your Git username."
           (Some [("requires_user_input", PBool true);
                  ("input_type", PStr "git_username")])), w).
Proof.
  intros H. unfold execute, try_except, bind, _has_git_credentials. by rewrite H.
Qed.

Lemma execute_fields w : fields (execute ops repr w).2 = fields w.
Proof.
  destruct (has_credentials (git_credentials (fields w))) eqn:Hc.
  2:{ by rewrite execute_without_credentials. }
  rewrite (execute_with_credentials _ Hc).
  unfold try_except, bind, _initialize_git_repository, _create_gitignore, _commit_files,
    _create_remote_repository, _push_to_remote, create_response, bind.
  assert (H1 := run_or_fields "Failed to initialize Git repository: " ["git"; "init"] w).
  destruct (run_or _ _ _ w) as [[[]|e] w1]; [|done].
  assert (H2 := ObjectFacts.outside_fields (write_gitignore ops) w1).
  destruct (outside _ w1) as [[[]|e] w2]; [|cbn in *; congruence].
  assert (H3 := run_or_fields "Failed to commit files: " ["git"; "add"; "."] w2).
  destruct (run_or _ _ _ w2) as [[[]|e] w3]; [|cbn in *; congruence].
  assert (H4 := run_or_fields "Failed to commit files: "
                  ["git"; "commit"; "-m"; "Initial commit: AI-generated Python project"] w3).
  destruct (run_or _ _ _ w3) as [[[]|e] w4]; [|cbn in *; congruence].
  destruct (remote_url_of repr _) as [url|e]; [|cbn in *; congruence].
  assert (H5 := run_fields ["git"; "remote"; "add"; "origin"; url] w4).
  destruct (run _ _ w4) as [[[| |]|] w5]; cbn in *; try congruence.
  assert (H6 := run_or_fields "Failed to push to remote: "
                  ["git"; "push"; "-u"; "origin"; "main"] w5).
  destruct (run_or _ _ _ w5) as [[[]|e] w6]; cbn in *; congruence.
Qed.

(** X26.  What the repository agent answers.  It always answers and never
    changes its credentials.  Without a user name or a repository name it
    asks for the user name and starts no command.  It reports success only
    with both names, and then the repository address in its answer is
    [https://github.com/<user name>/<repository name>.git]. *)
Theorem repository_answer w :
  ∃ r w',
    execute ops repr w = (Ok r, w') ∧ fields w' = fields w ∧
    (has_credentials (git_credentials (fields w)) = false →
       w' = w ∧
       r = BaseAgent.create_response self_id (now w) false
             "Please provide your Git username."
             (Some [("requires_user_input", PBool true);
                    ("input_type", PStr "git_username")])) ∧
    (success r = true →
       ∃ username repository_name,
         dict_lookup "username" (git_credentials (fields w)) = Some username ∧
         dict_lookup "repository_name" (git_credentials (fields w)) = Some repository_name ∧
         truthy username = true ∧ truthy repository_name = true ∧
         r = BaseAgent.create_response self_id (now w') true
               "🚀 Repository created and deployed successfully"
               (Some [("repository_url",
                       PStr ("https://github.com/" +:+ str repr username +:+ "/" +:+
                             str repr repository_name +:+ ".git"))])).
Proof.
  assert (Hf := execute_fields w).
  destruct (has_credentials (git_credentials (fields w))) eqn:Hc.
  2:{ rewrite execute_without_credentials in Hf |- * by done.
      eexists _, _. split; [done|]. split; [done|]. split; [done|]. done. }
  rewrite (execute_with_credentials _ Hc) in Hf |- *.
  unfold has_credentials in Hc. apply andb_prop in Hc as [Hu Hr].
  destruct (dict_lookup "username" _) as [username|] eqn:Hlu; [|done].
  destruct (dict_lookup "repository_name" _) as [repository_name|] eqn:Hlr; [|done].
  cbn [from_option id] in Hu, Hr.
  clear Hf.
  unfold try_except, bind, _initialize_git_repository, _create_gitignore, _commit_files,
    _create_remote_repository, _push_to_remote, create_response, bind.
  assert (H1 := run_or_fields "Failed to initialize Git repository: " ["git"; "init"] w).
  destruct (run_or _ _ _ w) as [[[]|e] w1]; cbn [snd] in H1.
  2:{ eexists _, _. by repeat split. }
  assert (H2 := ObjectFacts.outside_fields (write_gitignore ops) w1).
  destruct (outside _ w1) as [[[]|e] w2]; cbn [snd] in H2.
  2:{ eexists _, _. repeat split; [congruence|done..]. }
  assert (H3 := run_or_fields "Failed to commit files: " ["git"; "add"; "."] w2).
  destruct (run_or _ _ _ w2) as [[[]|e] w3]; cbn [snd] in H3.
  2:{ eexists _, _. repeat split; [congruence|done..]. }
  assert (H4 := run_or_fields "Failed to commit files: "
                  ["git"; "commit"; "-m"; "Initial commit: AI-generated Python project"] w3).
  destruct (run_or _ _ _ w3) as [[[]|e] w4]; cbn [snd] in H4.
  2:{ eexists _, _. repeat split; [congruence|done..]. }
  assert (Hw4 : fields w4 = fields w) by congruence.
  unfold remote_url_of, index, rbind. rewrite Hw4, Hlu, Hlr.
  match goal with |- context [run ops ?argv w4] =>
    assert (H5 := run_fields argv w4); destruct (run ops argv w4) as [[[| |]|] w5] end;
    cbn [snd] in H5.
  2-4: eexists _, _; repeat split; [congruence|done..].
  unfold ret. cbn beta iota.
  assert (H6 := run_or_fields "Failed to push to remote: "
                  ["git"; "push"; "-u"; "origin"; "main"] w5).
  destruct (run_or _ _ _ w5) as [[[]|e] w6]; cbn [snd] in H6.
  2:{ eexists _, _. repeat split; [congruence|done..]. }
  eexists _, _. split; [done|]. split; [congruence|]. split; [done|]. intros _.
  by exists username, repository_name.
Qed.

End Facts.

Import AgentExamples.

Lemma repository_answer_witness :
  ∃ r w',
    execute git_done (λ _, EmptyString) with_credentials = (Ok r, w') ∧
    success r = true ∧
    data r = [("repository_url", PStr "https://github.com/ada/todo.git")].
Proof.
  destruct (repository_answer git_done (λ _, EmptyString) with_credentials)
    as (r & w' & Hrun & _ & _ & Hsuccess).
  exists r, w'. split; [exact Hrun|].
  assert (Hok : success r = true).
  { vm_compute in Hrun. by injection Hrun as <- _. }
  split; [exact Hok|].
  destruct (Hsuccess Hok) as (username & repository_name & Hu & Hn & _ & _ & ->).
  vm_compute in Hu, Hn. injection Hu as <-. injection Hn as <-. vm_compute. reflexivity.
Defined.

End RepositoryFacts.

(* ===================================================================== *)
(** * The delivery phase with the repository agent                    *)
(* ===================================================================== *)

Module DeliveryStall.

Import OrchestratorAgent Workflow DevelopmentPhase RepositoryAgent.

Section Facts.
Context {E : Type}.
Variable ops : RepositoryAgent.Ops E.
Variable repr : pyval → string.
Implicit Types (m : Machine (Fields * E)).

Local Abbreviation request w :=
  (BaseAgent.create_response RepositoryAgent.self_id (now w) false
     "Please provide your Git username."
     (Some [("requires_user_input", PBool true); ("input_type", PStr "git_username")])).

Lemma delivery_asks_for_credentials m :
  paused (orch m) = false →
  workflow_state (orch m) = "delivery" →
  agents (orch m) !! "repo_001" = Some (RepositoryAgent.agent ops repr) →
  has_credentials (git_credentials (fields (world m))) = false →
  OrchestratorAgent.execute m = (Ok (request (world m)), logged m (world m) ["repo_001"]).
Proof.
  intros Hp Hs Hreg Hc. rewrite (OrchestratorFacts.execute_delivery _ Hp Hs).
  unfold try_except. rewrite ExecuteFrame.delivery_phase_cases, Hreg.
  cbn [BaseAgent.execute RepositoryAgent.agent].
  by rewrite (RepositoryFacts.execute_without_credentials _ _ _ Hc).
Qed.

(** X10.  The delivery phase cannot end with a repository agent that has no
    credentials.  Each call of the orchestrator's [execute] hands back the
    agent's request for the user name, with [success = False], and leaves
    the phase, the world and the agent's credentials as they were, so that
    any number of further calls gives the same. *)
Theorem delivery_stalls_without_credentials m n :
  paused (orch m) = false →
  workflow_state (orch m) = "delivery" →
  agents (orch m) !! "repo_001" = Some (RepositoryAgent.agent ops repr) →
  has_credentials (git_credentials (fields (world m))) = false →
  let later := Nat.iter n (λ m, (OrchestratorAgent.execute m).2) m in
  later = logged m (world m) (replicate n "repo_001") ∧
  workflow_state (orch later) = "delivery" ∧
  OrchestratorAgent.execute later =
    (Ok (request (world m)), logged m (world m) (replicate (Datatypes.S n) "repo_001")).
Proof.
  intros Hp Hs Hreg Hc. cbn zeta.
  assert (Hn : Nat.iter n (λ m, (OrchestratorAgent.execute m).2) m =
               logged m (world m) (replicate n "repo_001")).
  { induction n as [|n IH]; [by rewrite logged_nil|].
    cbn [Nat.iter nat_rect]. unfold Nat.iter in IH. rewrite IH.
    rewrite delivery_asks_for_credentials by done. cbn [snd world logged].
    rewrite logged_logged. f_equal.
    change (replicate n "repo_001" ++ replicate 1 "repo_001" =
            replicate (Datatypes.S n) "repo_001").
    by rewrite <- replicate_add, Nat.add_1_r. }
  rewrite Hn. split; [done|]. split; [done|].
  rewrite delivery_asks_for_credentials by done. cbn [world logged].
  rewrite logged_logged. do 2 f_equal.
  change (replicate n "repo_001" ++ replicate 1 "repo_001" =
          replicate (Datatypes.S n) "repo_001").
  by rewrite <- replicate_add, Nat.add_1_r.
Qed.

End Facts.

Import AgentExamples.

Lemma delivery_stalls_without_credentials_witness :
  workflow_state
    (orch (Nat.iter 3 (λ m, (OrchestratorAgent.execute m).2)
             delivering_without_credentials)) = "delivery" ∧
  OrchestratorAgent.execute
    (Nat.iter 3 (λ m, (OrchestratorAgent.execute m).2) delivering_without_credentials) =
    (Ok (BaseAgent.create_response "repo_001" "t" false "Please provide your Git username."
           (Some [("requires_user_input", PBool true);
                  ("input_type", PStr "git_username")])),
     logged delivering_without_credentials (world delivering_without_credentials)
       (replicate 4 "repo_001")).
Proof.
  assert (H := delivery_stalls_without_credentials git_done (λ _, EmptyString)
                 delivering_without_credentials 3).
  destruct H as (_ & Hs & Hrun); try (vm_compute; reflexivity).
  split; [exact Hs|exact Hrun].
Defined.

End DeliveryStall.

(* ===================================================================== *)
(** * The coordinator's conversation                                  *)
(* ===================================================================== *)

Module CoordinatorFacts.

Import Coordinator.

Lemma insert_minus_one_snoc {A} (x y : A) l :
  insert_minus_one x (l ++ [y]) = l ++ [x; y].
Proof.
  induction l as [|a l IH]; [done|].
  cbn [app insert_minus_one]. rewrite IH. by destruct l.
Qed.

Lemma fold_insert_minus_one {A} (hs pre : list A) (y : A) :
  fold_left (λ ms h, insert_minus_one h ms) hs (pre ++ [y]) = pre ++ hs ++ [y].
Proof.
  revert pre. induction hs as [|h hs IH]; intros pre; [done|].
  cbn [fold_left]. rewrite insert_minus_one_snoc.
  change (pre ++ [h; y]) with (pre ++ [h] ++ [y]). rewrite app_assoc, IH.
  by rewrite <- app_assoc.
Qed.

(** The request: the system prompt, then the last six messages of the
    history in their order, then the user's message. *)
Lemma with_history_window history system user :
  with_history history [system; user] = system :: last_n 6 history ++ [user].
Proof.
  unfold with_history. apply (fold_insert_minus_one (last_n 6 history) [system] user).
Qed.

Lemma last_n_snoc {A} n (l : list A) x :
  last_n (Datatypes.S n) (l ++ [x]) = last_n n l ++ [x].
Proof.
  unfold last_n. rewrite length_app, Nat.add_1_r. cbn [Nat.sub List.length].
  rewrite drop_app_le; [done|]. lia.
Qed.

Section Facts.
Context {E : Type}.
Variable client : list pyval → string → SE (World E) string.
Implicit Types (w : World (Fields * E)).

Lemma execute_closed_form w v :
  dict_lookup "user_input" (context w) = Some v →
  truthy v = true →
  let history := conversation_history (fields w) in
  let asked :=
    outside (client (request_for history v) "gpt-4o-mini")
      (set_fields {| project_requirements := project_requirements (fields w);
                     conversation_history := history ++ [message_of "user" v] |} w) in
  let reply := reply_to v asked.1 in
  Coordinator.execute client w =
    (Ok (BaseAgent.create_response "coord_001" (now asked.2) true reply
           (Some [("conversation_updated", PBool true)])),
     set_fields {| project_requirements := project_requirements (fields w);
                   conversation_history :=
                     history ++ [message_of "user" v; message_of "assistant" (PStr reply)] |}
       asked.2).
Proof.
  intros Hin Hv. cbn zeta.
  unfold Coordinator.execute, CoordinatorAgent.execute, try_except at 1.
  rewrite Hin. cbn [from_option id]. rewrite Hv. cbn [negb].
  unfold bind at 1. cbn [CoordinatorAgent.history_append ops]. unfold history_append at 1.
  unfold bind at 1. cbn [CoordinatorAgent._analyze_and_respond ops].
  unfold _analyze_and_respond, try_except at 1, bind at 1, LanguageModel.call_llm,
    try_except at 1, LanguageModel.default_model.
  rewrite with_history_window.
  set (w0 := set_fields _ w).
  assert (Hh : conversation_history (fields w0) =
               conversation_history (fields w) ++ [message_of "user" v]) by done.
  assert (Hp : project_requirements (fields w0) = project_requirements (fields w)) by done.
  rewrite Hh, (last_n_snoc 5). rewrite <- app_assoc. cbn [app].
  change (message_of "system" (PStr system_prompt) ::
          last_n 5 (conversation_history (fields w)) ++
          [message_of "user" v; message_of "user" v])
    with (request_for (conversation_history (fields w)) v).
  assert (Hf := ObjectFacts.outside_fields
                  (client (request_for (conversation_history (fields w)) v) "gpt-4o-mini") w0).
  destruct (outside _ w0) as [[response|e] w1]; cbn [fst snd] in Hf |- *.
  - unfold bind, lift, py_lower, ret, raise. destruct v; cbn [reply_to];
      try (unfold CoordinatorAgent.create_response, history_append, set_fields, fields in *;
           cbn; rewrite Hf; cbn; rewrite <- !app_assoc; reflexivity).
    destruct (contains _ _ || contains _ _);
      unfold CoordinatorAgent.create_response, history_append, set_fields, fields in *;
      cbn; rewrite Hf; cbn; rewrite <- !app_assoc; reflexivity.
  - unfold raise, ret, bind. cbn [reply_to].
    unfold CoordinatorAgent.create_response, history_append, set_fields, fields in *.
    cbn. rewrite Hf. cbn. rewrite <- !app_assoc. reflexivity.
Qed.

(** X27.  What the coordinator sends and what it answers.  For a non-empty
    input the request holds the system prompt, the last five messages
    recorded before the input, and the input twice: once from the history,
    to which it was appended first, and once as the message that closes the
    request.  The answer has [success = True]; its message is the model's
    text, put into the text that announces the development phase when the
    input contains "start development" or "begin development" in any
    case, and the apology when the request failed or the input is not a
    string.  The input and the answer are appended to the history. *)
Theorem coordinator_request_and_reply w v :
  dict_lookup "user_input" (context w) = Some v →
  truthy v = true →
  let history := conversation_history (fields w) in
  let asked :=
    outside (client (request_for history v) "gpt-4o-mini")
      (set_fields {| project_requirements := project_requirements (fields w);
                     conversation_history := history ++ [message_of "user" v] |} w) in
  let reply := reply_to v asked.1 in
  Coordinator.execute client w =
    (Ok (BaseAgent.create_response "coord_001" (now asked.2) true reply
           (Some [("conversation_updated", PBool true)])),
     set_fields {| project_requirements := project_requirements (fields w);
                   conversation_history :=
                     history ++ [message_of "user" v; message_of "assistant" (PStr reply)] |}
       asked.2).
Proof. apply execute_closed_form. Qed.

(** X28.  The coordinator never reports a failure of the language model.  When
    the service is down, or when the input is not a string, a call with a
    non-empty input still answers [success = True]; the message is the
    apology, which is recorded in the history as the assistant's answer,
    and the requirements are untouched. *)
Theorem coordinator_never_reports_model_failure w v :
  dict_lookup "user_input" (context w) = Some v →
  truthy v = true →
  (∀ messages model (w0 : World E), ∃ e, (client messages model w0).1 = Raise e) ∨
  (∀ s, v ≠ PStr s) →
  ∃ resp w',
    Coordinator.execute client w = (Ok resp, w') ∧
    success resp = true ∧ message resp = apology ∧
    conversation_history (fields w') =
      conversation_history (fields w) ++
      [message_of "user" v; message_of "assistant" (PStr apology)] ∧
    project_requirements (fields w') = project_requirements (fields w).
Proof.
  intros Hin Hv Hdown. rewrite (execute_closed_form _ _ Hin Hv). cbn zeta.
  set (asked := outside _ _).
  assert (Hreply : reply_to v asked.1 = apology).
  { destruct Hdown as [Hdown|Hv'].
    - unfold asked. rewrite ObjectFacts.outside_result.
      destruct (Hdown (request_for (conversation_history (fields w)) v) "gpt-4o-mini"
                  {| context := context (set_fields
                       {| project_requirements := project_requirements (fields w);
                          conversation_history :=
                            conversation_history (fields w) ++ [message_of "user" v] |} w);
                     now := now w; ext := (ext w).2 |}) as [e He].
      cbn in He |- *. by rewrite He.
    - destruct asked.1, v; try done. by destruct (Hv' s). }
  rewrite Hreply. eexists _, _. split; [done|]. by repeat split.
Qed.

End Facts.

Import AgentExamples.

Lemma coordinator_request_and_reply_witness :
  List.length (request_for exchanges (PStr "Please begin development")) = 8 ∧
  ∃ resp w',
    Coordinator.execute answering_model (in_conversation (PStr "Please begin development")) =
      (Ok resp, w') ∧
    message resp = _finalize_project_definition "Noted." ∧
    List.length (conversation_history (fields w')) = 10.
Proof.
  split; [vm_compute; reflexivity|].
  assert (H := coordinator_request_and_reply answering_model
                 (in_conversation (PStr "Please begin development"))
                 (PStr "Please begin development") eq_refl eq_refl).
  cbv zeta in H. eexists _, _. split; [exact H|]. split; vm_compute; reflexivity.
Defined.

Lemma coordinator_never_reports_model_failure_witness :
  ∃ resp w',
    Coordinator.execute model_off (facing (PStr "hello")) = (Ok resp, w') ∧
    success resp = true ∧ message resp = apology ∧
    conversation_history (fields w') =
      conversation_history (fields (facing (PStr "hello"))) ++
      [message_of "user" (PStr "hello"); message_of "assistant" (PStr apology)] ∧
    project_requirements (fields w') = project_requirements (fields (facing (PStr "hello"))).
Proof.
  apply (coordinator_never_reports_model_failure model_off (facing (PStr "hello"))
           (PStr "hello") eq_refl eq_refl).
  left. intros messages model w0. by exists "Connection error.".
Defined.

End CoordinatorFacts.

(* ===================================================================== *)
(** * The definition loop of the main program                         *)
(* ===================================================================== *)

Module DefinitionLoopFacts.

Import Main ProjectDefinition.

Lemma dict_set_lookup_ne k k' v (d : dict) :
  k' ≠ k → dict_lookup k' (ValidatorAgent.dict_set k v d) = dict_lookup k' d.
Proof.
  intros Hne. induction d as [|[k0 v0] d IH]; cbn.
  - destruct (String.eqb_spec k' k); [done|done].
  - destruct (String.eqb_spec k k0) as [->|Hk]; cbn.
    + destruct (String.eqb_spec k' k0); [done|done].
    + destruct (String.eqb k' k0); [done|apply IH].
Qed.

Lemma user_contents_turn history u reply :
  user_contents (history ++ [("user", u); ("assistant", reply)]) = user_contents history ++ [u].
Proof. unfold user_contents. by rewrite List.filter_app, map_app. Qed.

Section Facts.
Context {S : Type}.
Variable coordinator : SE (World S) Response.

(** X29.  The definition of the project ends on "start development" only.
    When the loop returns, the lines read are the lines up to the first one
    that contains "start development" in any case; none before it does;
    and the requirements hold the conversation and, as the user's
    description, the non-blank lines read so far, stripped and joined by
    single spaces after what the conversation held before. *)
Theorem definition_ends_on_start_development_only lines history requirements w result rest w' :
  definition_loop coordinator lines history requirements w = (Ok (result, rest), w') →
  ∃ before line history',
    lines = before ++ line :: rest ∧
    contains "start development" (lower (strip line)) = true ∧
    Forall (λ l, contains "start development" (lower (strip l)) = false) before ∧
    dict_lookup "conversation_history" result = Some (history_value history') ∧
    dict_lookup "user_description" result =
      Some (PStr (join_spaces (user_contents history'))) ∧
    user_contents history' =
      user_contents history ++
      List.filter (λ u, negb (String.eqb u EmptyString)) (map strip (before ++ [line])).
Proof.
  revert history requirements w. induction lines as [|line lines IH];
    intros history requirements w; [done|].
  cbn [definition_loop]. destruct (String.eqb_spec (strip line) EmptyString) as [Hblank|Hline].
  - intros Hloop. destruct (IH _ _ _ Hloop) as (before & last & h' & -> & Hl & Hb & H1 & H2 & H3).
    exists (line :: before), last, h'. split; [done|]. split; [done|].
    split; [constructor; [by rewrite Hblank|done]|]. split; [done|]. split; [done|].
    rewrite H3. cbn [app map List.filter]. by rewrite Hblank.
  - unfold bind at 1. unfold bind at 1.
    destruct (coordinator _) as [[coord_result|e] w1]; [|done].
    destruct (contains "start development" (lower (strip line))) eqn:Hstart.
    + intros [= <- <- <-]. eexists [], line, _. split; [done|]. split; [done|].
      split; [constructor|]. split.
      { rewrite dict_set_lookup_ne by done. apply DeliveryFacts.dict_set_lookup. }
      split; [apply DeliveryFacts.dict_set_lookup|].
      rewrite user_contents_turn. cbn [app map List.filter].
      by destruct (String.eqb_spec (strip line) EmptyString).
    + intros Hloop.
      destruct (IH _ _ _ Hloop) as (before & last & h' & -> & Hl & Hb & H1 & H2 & H3).
      exists (line :: before), last, h'. split; [done|]. split; [done|].
      split; [by constructor|]. split; [done|]. split; [done|].
      rewrite H3, user_contents_turn. cbn [app map List.filter].
      destruct (String.eqb_spec (strip line) EmptyString); [done|].
      cbn [negb]. by rewrite <- app_assoc.
Qed.

End Facts.

Import AgentExamples.

Lemma definition_ends_on_start_development_only_witness :
  ∃ before line history',
    ["I need a todo app"; " "; "Begin development"; "ok, START DEVELOPMENT now"; "1"] =
      before ++ line :: ["1"] ∧
    contains "start development" (lower (strip line)) = true ∧
    Forall (λ l, contains "start development" (lower (strip l)) = false) before ∧
    ∃ result,
      dict_lookup "conversation_history" result = Some (history_value history') ∧
      dict_lookup "user_description" result =
        Some (PStr (join_spaces (user_contents history'))) ∧
      user_contents history' =
        ["I need a todo app"; "Begin development"; "ok, START DEVELOPMENT now"].
Proof.
  assert (Hrun : ∃ result w',
            definition_loop (Coordinator.execute answering_model)
              ["I need a todo app"; " "; "Begin development"; "ok, START DEVELOPMENT now"; "1"]
              [] [] (facing PNone) = (Ok (result, ["1"]), w')).
  { vm_compute. eexists _, _. reflexivity. }
  destruct Hrun as (result & w' & Hrun).
  destruct (definition_ends_on_start_development_only _ _ _ _ _ _ _ _ Hrun)
    as (before & line & history' & H1 & H2 & H3 & H4 & H5 & H6).
  exists before, line, history'. split; [exact H1|]. split; [exact H2|]. split; [exact H3|].
  exists result. split; [exact H4|]. split; [exact H5|].
  destruct (app_inj_tail (before ++ [line])
              ["I need a todo app"; " "; "Begin development"; "ok, START DEVELOPMENT now"]
              "1" "1") as [Hlines _].
  { rewrite <- app_assoc. cbn [app]. by rewrite <- H1. }
  rewrite H6, Hlines. vm_compute. reflexivity.
Defined.

End DefinitionLoopFacts.

(* ===================================================================== *)
(** * The coordinator inside the definition loop                      *)
(* ===================================================================== *)

Module AnnouncementFacts.

Import Main ProjectDefinition Coordinator.

Lemma contains_empty needle :
  needle ≠ EmptyString → contains needle EmptyString = false.
Proof. by destruct needle. Qed.

Section Facts.
Context {E : Type}.
Variable client : list pyval → string → SE (World E) string.


End Facts.

Import AgentExamples.


End AnnouncementFacts.
